(** * The legacy python-vim script host (lib/neovim/plugin/script_host.py)

    A shallow embedding of [ScriptHost], [num_to_str], [LegacyVim.eval] and
    the runtime-path import hook, together with the properties of the RPC
    operations [python_execute], [python_execute_file], [python_do_range]
    and [python_eval].

    Conventions of the embedding.
    - The interpreter is Python 3 ([IS_PYTHON3] holds): [basestring] is
      [str] and [num_types] is [(int, float)].
    - Python objects are values of [Value]; [self.module.__dict__] is a
      finite map from names to values.
    - A piece of user-supplied text (a script, an expression, the body of
      the [pydo] function) is represented by what it denotes once parsed,
      or by the fact that it does not parse.
    - Operations thread the state of the host explicitly and return a
      result that is either a value or the exception that leaves the
      operation.
    - User code acts on the namespace it runs in: a script, an expression
      and the [pydo] function take the namespace and give back what they
      made of it.  Code that reaches the buffer or the interpreter by
      other ways (through the [vim] module, [sys.modules], files) is not
      covered.
    - The calls of the buffer API and of the [pydo] function are recorded
      in the state, so that properties can speak about them.
    - [setup], [teardown], [RedirectStream] and the module loader act on
      the interpreter and not on the host; they are modelled on a state of
      their own. *)

From Stdlib Require Import ZArith Lia Ascii.
From stdpp Require Import base option list gmap strings pretty.

#[local] Set Warnings "-register-all".
#[local] Open Scope string_scope.
#[local] Open Scope list_scope.
#[local] Open Scope Z_scope.

(** ** Exceptions and results *)

(** The exception classes that occur in the module or in the examples.
    [Other name derives] is any further class; [derives] tells whether it
    derives from [Exception] (and not only from [BaseException]). *)
Inductive ExcClass :=
| ZeroDivisionError
| NameError
| KeyError
| TypeError
| SyntaxError
| ImportError
| FileNotFoundError
| IndexError
| SystemExit
| KeyboardInterrupt
| Other (name : string) (derives_Exception : bool).

(** [isinstance(e, Exception)], the test of an [except Exception:] clause. *)
Definition is_Exception (c : ExcClass) : bool :=
  match c with
  | SystemExit | KeyboardInterrupt => false
  | Other _ d => d
  | _ => true
  end.

(** [isinstance(e, ImportError)], the test of [except ImportError:]. *)
Definition is_ImportError (c : ExcClass) : bool :=
  match c with
  | ImportError => true
  | _ => false
  end.

(** One entry of a traceback. *)
Definition Frame := string.

(** A raised exception: its class, its message, and the frames of its
    traceback that lie inside the code that raised it, outermost first. *)
Record PyExc := mkExc {
  exc_class : ExcClass;
  exc_msg : string;
  exc_tb : list Frame
}.

(** A formatted traceback: the frames that are shown and the exception. *)
Record Trace := mkTrace {
  trace_frames : list Frame;
  trace_class : ExcClass;
  trace_msg : string
}.

(** What leaves an RPC operation when it does not return: an exception
    that no handler of the operation caught, or the [ErrorResponse] that
    the operation raises itself. *)
Inductive Thrown :=
| Uncaught (e : PyExc)
| ErrorResponse (t : Trace).

Inductive Res (E A : Type) :=
| Return (a : A)
| Raise (e : E).
Arguments Return {E A} a.
Arguments Raise {E A} e.

(** ** Values *)

(** A Python float, as the 64 bits of its IEEE-754 representation. *)
Record PyFloat := mkFloat { float_bits : Z }.

(** The objects that scripts, expressions and host replies are made of.
    [VFunc] is a function object, given by its [__name__]; what a call of
    it does is not part of the value.  [VObject] is any other object (a
    module, a class instance, ...), identified by the name of its class. *)
Inductive Value :=
| VNone
| VBool (b : bool)
| VInt (z : Z)
| VFloat (f : PyFloat)
| VStr (s : string)
| VList (l : list Value)
| VDict (kvs : list (Value * Value))
| VFunc (name : string)
| VObject (class_name : string).

(** A namespace: [module.__dict__]. *)
Abbreviation Namespace := (gmap string Value).

(** [obj.__class__.__name__] *)
Definition class_name (obj : Value) : string :=
  match obj with
  | VNone => "NoneType"
  | VBool _ => "bool"
  | VInt _ => "int"
  | VFloat _ => "float"
  | VStr _ => "str"
  | VList _ => "list"
  | VDict _ => "dict"
  | VFunc _ => "function"
  | VObject c => c
  end.

(** ** User-supplied code *)

(** Text handed to [exec], [eval] or [compile]: either it does not parse
    (and compiling it raises [SyntaxError] with the given message), or it
    denotes [sem]. *)
Inductive Source (A : Type) :=
| Unparsable (msg : string)
| Parsed (sem : A).
Arguments Unparsable {A} msg.
Arguments Parsed {A} sem.

(** Statements run against a namespace, which they may update, and finish
    normally or raise.  The bindings made before a raise stay. *)
Definition Statements := Namespace -> Namespace * Res PyExc unit.

(** An expression evaluated against a namespace. *)
Definition Expression := Namespace -> Namespace * Res PyExc Value.

(** A function of the shape of [_vim_pydo(line, linenr)].  A call gets the
    text of a line and its number and runs with the namespace as its
    globals, which it may read and rebind; it returns a value or raises.
    The bindings made before a raise stay. *)
Definition Body := string -> Z -> Namespace -> Namespace * Res PyExc Value.

(** The text [function_def], that is [def _vim_pydo(line, linenr):]
    followed by [code], once parsed.  The first line of [code] starts the
    body of the function; the lines of [code] that are not indented are
    statements of their own, which the same [exec] runs after the [def]
    ([def_rest]; nothing, for a [code] of one line).  [def_function] is
    what a call of the object that [_vim_pydo] names at the end of the
    [exec] does: the function of the [def], unless the statements after
    it rebind the name. *)
Record FunctionDef := mkDef {
  def_function : Body;
  def_rest : Statements
}.

(** [exec(script, d)] *)
Definition exec (script : Source Statements) (d : Namespace)
  : Namespace * Res PyExc unit :=
  match script with
  | Unparsable msg => (d, Raise (mkExc SyntaxError msg []))
  | Parsed run => run d
  end.

(** [eval(expr, d)] *)
Definition eval (expr : Source Expression) (d : Namespace)
  : Namespace * Res PyExc Value :=
  match expr with
  | Unparsable msg => (d, Raise (mkExc SyntaxError msg []))
  | Parsed run => run d
  end.

(** ** The host: buffer, and a record of the calls that were made *)

(** The calls whose arguments the properties below speak about: the bulk
    reads and writes of the buffer API and the calls of the [pydo]
    function. *)
Inductive Event :=
| GetLines (a b : Z)
| SetLines (a b : Z) (replacement : list string)
| CallFunction (line : string) (linenr : Z).

(** The state that the operations of one [ScriptHost] instance act on. *)
Record ScriptHost := mkHost {
  module_dict : Namespace;          (* self.module.__dict__ *)
  buffer : list string;             (* the lines of nvim.current.buffer *)
  current_range : option (Z * Z);   (* self.legacy_vim.current.range *)
  events : list Event               (* calls made so far, oldest first *)
}.

Definition set_module_dict (self : ScriptHost) (d : Namespace) : ScriptHost :=
  mkHost d (buffer self) (current_range self) (events self).

Definition set_buffer (self : ScriptHost) (b : list string) : ScriptHost :=
  mkHost (module_dict self) b (current_range self) (events self).

Definition record_event (self : ScriptHost) (e : Event) : ScriptHost :=
  mkHost (module_dict self) (buffer self) (current_range self)
         (events self ++ [e]).

(** [ScriptHost.__init__]: the context where all code will run is a fresh
    module [__main__] in which [import sys] has been executed. *)
Definition __init__ (lines : list string) : ScriptHost :=
  mkHost (<["sys" := VObject "module"]>
            (<["__name__" := VStr "__main__"]> (<["__doc__" := VNone]> ∅)))
         lines None [].

(** [ScriptHost._set_current_range] *)
Definition _set_current_range (self : ScriptHost) (start stop : Z) : ScriptHost :=
  mkHost (module_dict self) (buffer self) (Some (start, stop)) (events self).

(** ** The dispatcher: [python_execute], [python_execute_file], [python_eval] *)

(** The traceback entry of a method of [ScriptHost] that is on the stack
    when user code raises. *)
Definition dispatcher_frame (method : string) : Frame :=
  "File script_host.py, in " +:+ method.

(** Modelled from the spec: [format_exc_skip] is imported from [..util],
    which is not among the sources.  It formats the exception being
    handled with the first [skip] entries of its traceback left out (the
    spec: a trace that omits the dispatcher's own call frame).  [tb] is the
    traceback as the handler sees it, outermost frame first. *)
Definition format_exc_skip (skip : nat) (tb : list Frame) (e : PyExc) : Trace :=
  mkTrace (drop skip tb) (exc_class e) (exc_msg e).

(** The body shared by the two [try: exec(...) except Exception: raise
    ErrorResponse(format_exc_skip(1))] blocks.  At the handler the
    traceback starts with the frame of the method that called [exec]. *)
Definition exec_guarded (method : string) (self : ScriptHost)
    (script : Source Statements) : ScriptHost * Res Thrown unit :=
  let '(d, r) := exec script (module_dict self) in
  let self := set_module_dict self d in
  match r with
  | Return _ => (self, Return tt)
  | Raise e =>
      if is_Exception (exc_class e)
      then (self, Raise (ErrorResponse
                    (format_exc_skip 1 (dispatcher_frame method :: exc_tb e) e)))
      else (self, Raise (Uncaught e))
  end.

(** [ScriptHost.python_execute]: the [python] ex command. *)
Definition python_execute (self : ScriptHost) (script : Source Statements)
    (range_start range_stop : Z) : ScriptHost * Res Thrown unit :=
  let self := _set_current_range self range_start range_stop in
  exec_guarded "python_execute" self script.

(** The error of [open(file_path)] when there is no such file. *)
Definition no_such_file (file_path : string) : PyExc :=
  mkExc FileNotFoundError
        ("[Errno 2] No such file or directory: '" +:+ file_path +:+ "'") [].

(** [ScriptHost.python_execute_file]: the [pyfile] ex command.  [files]
    gives, for each path at which there is a file, what
    [compile(f.read(), file_path, 'exec')] makes of its text: the text
    does not parse, or it denotes statements, whose tracebacks name the
    file.  (The same text handed to [python_execute] is compiled under the
    name [<string>].)  [open] and [compile] are outside the [try] block. *)
Definition python_execute_file (files : string -> option (Source Statements))
    (self : ScriptHost) (file_path : string) (range_start range_stop : Z)
  : ScriptHost * Res Thrown unit :=
  let self := _set_current_range self range_start range_stop in
  match files file_path with
  | None => (self, Raise (Uncaught (no_such_file file_path)))
  | Some (Unparsable msg) => (self, Raise (Uncaught (mkExc SyntaxError msg [])))
  | Some (Parsed run) => exec_guarded "python_execute_file" self (Parsed run)
  end.

(** [ScriptHost.python_eval]: the [pyeval] vim function.  The value of the
    expression is returned as it is; there is no handler. *)
Definition python_eval (self : ScriptHost) (expr : Source Expression)
  : ScriptHost * Res Thrown Value :=
  let '(d, r) := eval expr (module_dict self) in
  let self := set_module_dict self d in
  match r with
  | Return v => (self, Return v)
  | Raise e => (self, Raise (Uncaught e))
  end.

(** ** [num_to_str] and [LegacyVim.eval] *)

(** The instances of [num_types = (int, float)].  [bool] is a subclass of
    [int], so [isinstance(True, num_types)] holds. *)
Inductive Num :=
| NBool (b : bool)
| NInt (z : Z)
| NFloat (f : PyFloat).

(** [isinstance(obj, num_types)], with the number when it holds. *)
Definition as_num (obj : Value) : option Num :=
  match obj with
  | VBool b => Some (NBool b)
  | VInt z => Some (NInt z)
  | VFloat f => Some (NFloat f)
  | _ => None
  end.

Definition isinstance_num_types (obj : Value) : bool :=
  bool_decide (is_Some (as_num obj)).

(** Modelled from the spec: [walk] is imported from [..api], which is not
    among the sources.  The conversion is applied through the structure
    of the object, recursively: to the elements of a list, to the keys and
    values of a dict, and to every other object itself. *)
Fixpoint walk (fn : Value -> Value) (obj : Value) : Value :=
  match obj with
  | VList l => VList (map (walk fn) l)
  | VDict kvs => VDict (map (fun kv => (walk fn kv.1, walk fn kv.2)) kvs)
  | _ => fn obj
  end.

(** Does a numeric value occur in [obj]? *)
Fixpoint has_num (obj : Value) : bool :=
  match obj with
  | VList l => existsb has_num l
  | VDict kvs => existsb (fun kv => has_num kv.1 || has_num kv.2) kvs
  | _ => isinstance_num_types obj
  end.

Section NumToStr.

(** [str] of a float: the formatting of floats is left open. *)
Variable float_repr : PyFloat -> string.

(** [str(obj)] for the instances of [num_types]. *)
Definition str (n : Num) : string :=
  match n with
  | NBool b => if b then "True" else "False"
  | NInt z => pretty z
  | NFloat f => float_repr f
  end.

Definition num_to_str (obj : Value) : Value :=
  match as_num obj with
  | Some n => VStr (str n)
  | None => obj
  end.

(** [LegacyVim.eval]: [request] is the RPC channel to the host. *)
Definition LegacyVim_eval (request : string -> string -> Res PyExc Value)
    (expr : string) : Res PyExc Value :=
  match request "vim_eval" expr with
  | Return obj => Return (walk num_to_str obj)
  | Raise e => Raise e
  end.

End NumToStr.

(** ** The buffer API of the host *)

(** Modelled from the spec: [nvim.current.buffer.api.get_lines] and
    [set_lines] belong to the host and are not among the sources.  The
    spec gives them as: bulk-read lines [a,b) from the active buffer, and
    bulk-write/replace lines [a,b) in the active buffer; indices count
    from zero.  With strict indexing (the third argument is [True] at
    every call) an interval that is not inside the buffer is an error. *)
Definition in_bounds (lines : list string) (a b : Z) : bool :=
  bool_decide (0 ≤ a ∧ a ≤ b ∧ b ≤ Z.of_nat (length lines)).

Definition slice (lines : list string) (a b : Z) : list string :=
  take (Z.to_nat (b - a)) (drop (Z.to_nat a) lines).

Definition splice (lines : list string) (a b : Z) (replacement : list string)
  : list string :=
  take (Z.to_nat a) lines ++ replacement ++ drop (Z.to_nat b) lines.

Definition out_of_bounds : PyExc :=
  mkExc (Other "NvimError" true) "Index out of bounds" [].

Definition get_lines (self : ScriptHost) (a b : Z)
  : ScriptHost * Res PyExc (list string) :=
  let self := record_event self (GetLines a b) in
  if in_bounds (buffer self) a b
  then (self, Return (slice (buffer self) a b))
  else (self, Raise out_of_bounds).

Definition set_lines (self : ScriptHost) (a b : Z) (replacement : list string)
  : ScriptHost * Res PyExc unit :=
  let self := record_event self (SetLines a b replacement) in
  if in_bounds (buffer self) a b
  then (set_buffer self (splice (buffer self) a b replacement), Return tt)
  else (self, Raise out_of_bounds).

(** ** [python_do_range] *)

Definition fname : string := "_vim_pydo".

(** [len(newlines)] *)
Definition len (l : list string) : Z := Z.of_nat (length l).

(** [d[name]] and [del d[name]] on a namespace. *)
Definition key_error (name : string) : PyExc :=
  mkExc KeyError ("'" +:+ name +:+ "'") [].

Definition getitem (d : Namespace) (name : string) : Res PyExc Value :=
  match d !! name with
  | Some v => Return v
  | None => Raise (key_error name)
  end.

Definition delitem (d : Namespace) (name : string) : Res PyExc Namespace :=
  match d !! name with
  | Some _ => Return (delete name d)
  | None => Raise (key_error name)
  end.

(** [exec(function_def, d)] for a text that parses: the [def] binds
    [_vim_pydo] to a new function, then the statements after it run. *)
Definition exec_def (def : FunctionDef) (d : Namespace)
  : Namespace * Res PyExc unit :=
  def_rest def (<[fname := VFunc fname]> d).

(** The [for i, line in enumerate(lines)] loop of one batch.  It returns
    the variables that the code after the loop reads: [sstart],
    [newlines] and [exception].  Each call of the function runs on the
    namespace as the call before left it.  An exception raised by the
    function, or by a write, leaves the loop and the method at once. *)
Fixpoint for_lines (function : Body) (lines : list string) (self : ScriptHost)
    (sstart : Z) (newlines : list string) (linenr : Z)
  : ScriptHost * Res PyExc (Z * list string * option PyExc) :=
  match lines with
  | [] => (self, Return (sstart, newlines, None))
  | line :: lines =>
      let self := record_event self (CallFunction line linenr) in
      let call := function line linenr (module_dict self) in
      let self := set_module_dict self call.1 in
      match call.2 with
      | Raise e => (self, Raise e)
      | Return VNone =>
          (* update earlier lines, and skip to the next *)
          let '(self, w) :=
            match newlines with
            | [] => (self, Return tt)
            | _ => let end_ := sstart + len newlines - 1 in
                   set_lines self sstart end_ newlines
            end in
          match w with
          | Raise e => (self, Raise e)
          | Return _ =>
              for_lines function lines self (sstart + (len newlines + 1)) []
                        (linenr + 1)
          end
      | Return (VStr result) =>
          for_lines function lines self sstart (newlines ++ [result])
                    (linenr + 1)
      | Return result =>
          (self, Return (sstart, newlines,
             Some (mkExc TypeError
                     ("pydo should return a string or None, found "
                      +:+ class_name result +:+ " instead") [])))
      end
  end.

(** The [while start < stop] loop over batches of 5000 lines.  Every turn
    moves [start] forward, so [stop - start] turns are enough; [None] is
    returned if [fuel] runs out before the loop ends. *)
Fixpoint while_batches (fuel : nat) (function : Body) (self : ScriptHost)
    (start stop : Z) : option (ScriptHost * Res PyExc unit) :=
  if bool_decide (start < stop) then
    match fuel with
    | O => None
    | S fuel =>
        let sstart := start in
        let sstop := Z.min (start + 5000) stop in
        match get_lines self sstart sstop with
        | (self, Raise e) => Some (self, Raise e)
        | (self, Return lines) =>
            match for_lines function lines self sstart [] (sstart + 1) with
            | (self, Raise e) => Some (self, Raise e)
            | (self, Return (sstart, newlines, exception)) =>
                let start := sstop in
                let '(self, w) :=
                  match newlines with
                  | [] => (self, Return tt)
                  | _ => let end_ := sstart + len newlines in
                         set_lines self sstart end_ newlines
                  end in
                match w with
                | Raise e => Some (self, Raise e)
                | Return _ =>
                    match exception with
                    | Some e => Some (self, Raise e)
                    | None => while_batches fuel function self start stop
                    end
                end
            end
        end
    end
  else Some (self, Return tt).

(** [ScriptHost.python_do_range]: the [pydo] ex command.  [code] stands
    for [function_def], the text [def _vim_pydo(line, linenr):] with the
    argument [code] of the method substituted after it.  There is no
    handler: whatever is raised leaves the method as it is. *)
Definition python_do_range (self : ScriptHost) (start stop : Z)
    (code : Source FunctionDef) : option (ScriptHost * Res Thrown unit) :=
  let self := _set_current_range self start stop in
  let start := start - 1 in
  (* define the function *)
  match code with
  | Unparsable msg => Some (self, Raise (Uncaught (mkExc SyntaxError msg [])))
  | Parsed def =>
      let '(d, r) := exec_def def (module_dict self) in
      let self := set_module_dict self d in
      match r with
      | Raise e => Some (self, Raise (Uncaught e))
      | Return _ =>
          (* get the function *)
          match getitem (module_dict self) fname with
          | Raise e => Some (self, Raise (Uncaught e))
          | Return _ =>
              let function := def_function def in
              match while_batches (Z.to_nat (stop - start)) function self
                                  start stop with
              | None => None
              | Some (self, Raise e) => Some (self, Raise (Uncaught e))
              | Some (self, Return _) =>
                  (* delete the function *)
                  match delitem (module_dict self) fname with
                  | Raise e => Some (self, Raise (Uncaught e))
                  | Return d => Some (set_module_dict self d, Return tt)
                  end
              end
          end
      end
  end.

(** ** The import hook: [path_hook] *)

(** What [imp.find_module] returns: the triple (file, pathname,
    description). *)
Record Found := mkFound {
  found_file : string;
  found_pathname : string;
  found_description : string
}.

(** What the code expects the second call of [imp.find_module] in
    [_find_module] to return: a module object, of which [__path__] is
    read. *)
Record ModuleObject := mkModule { module___path__ : list string }.

(** The file system as the import machinery sees it: which paths exist;
    which module or regular package a directory holds under a (dot-free)
    name, which is what [imp.find_module] and the finders of [importlib]
    both look for; and, where a directory holds no module under the name
    but a plain subdirectory of that name, the path of that subdirectory,
    a portion of a namespace package, which only [importlib] finds. *)
Record FileSystem := mkFS {
  os_path_exists : string -> bool;
  module_at : string -> string -> option Found;
  portion_at : string -> string -> option string
}.

(** [os.path.join(a, b)] for a relative [b]. *)
Definition os_path_join (a b : string) : string :=
  if bool_decide (a = EmptyString) then b
  else match last (String.list_ascii_of_string a) with
       | Some "/"%char => a +:+ b
       | _ => a +:+ "/" +:+ b
       end.

(** [discover_runtime_directories]; [runtime_paths] is the answer of the
    host to [nvim.list_runtime_paths()]. *)
Fixpoint discover_runtime_directories (fs : FileSystem)
    (runtime_paths : list string) : list string :=
  match runtime_paths with
  | [] => []
  | path :: rest =>
      if negb (os_path_exists fs path)
      then discover_runtime_directories fs rest
      else
        let path1 := os_path_join path "pythonx" in
        let path2 := os_path_join path "python3" in
        (if os_path_exists fs path1 then [path1] else [])
        ++ (if os_path_exists fs path2 then [path2] else [])
        ++ discover_runtime_directories fs rest
  end.

(** [imp.find_module(name, path)]: the directories of [path] are tried in
    order; [ImportError] if none holds the module. *)
Fixpoint imp_find_module (fs : FileSystem) (name : string) (path : list string)
  : Res PyExc Found :=
  match path with
  | [] => Raise (mkExc ImportError ("No module named " +:+ name) [])
  | d :: path =>
      match module_at fs d name with
      | Some fmr => Return fmr
      | None => imp_find_module fs name path
      end
  end.

(** [imp.find_module(name, *fmr)]: a call of [imp.find_module] with four
    positional arguments.  The function takes a name and a path only, so
    the call raises [TypeError] while the arguments are bound, whatever
    they are. *)
Definition imp_find_module_4 (name : string) (fmr : Found)
  : Res PyExc ModuleObject :=
  Raise (mkExc TypeError
           "find_module() takes from 1 to 2 positional arguments but 4 were given"
           []).

(** [s[:n]] and [s[n:]] for [0 <= n], and [s[:-n]] for [0 < n]. *)
Definition str_take (n : nat) (s : string) : string := String.substring 0 n s.
Definition str_drop (n : nat) (s : string) : string :=
  String.substring n (String.length s - n) s.
Definition str_drop_end (n : nat) (s : string) : string :=
  String.substring 0 (String.length s - n) s.

(** [_find_module].  Each recursive call is on a strictly shorter
    [oldtail]; [fuel] bounds the depth and [None] is returned if it runs
    out. *)
Fixpoint _find_module (fuel : nat) (fs : FileSystem) (fullname oldtail : string)
    (path : list string) : option (Res PyExc Found) :=
  match String.index 0 "." oldtail with
  | Some (S i) =>
      let idx := S i in
      match fuel with
      | O => None
      | S fuel =>
          let name := str_take idx oldtail in
          let tail := str_drop (idx + 1) oldtail in
          match imp_find_module fs name path with
          | Raise e => Some (Raise e)
          | Return fmr =>
              match imp_find_module_4
                      (str_drop_end (String.length oldtail) fullname +:+ name)
                      fmr with
              | Raise e => Some (Raise e)
              | Return module =>
                  _find_module fuel fs fullname tail (module___path__ module)
              end
          end
      end
  | _ => Some (imp_find_module fs fullname path)
  end.

(** [VimModuleLoader(module)] *)
Record VimModuleLoader := mkLoader { loader_module : Found }.

(** [path or _get_paths()] *)
Definition path_or_get_paths (fs : FileSystem) (runtime_paths : list string)
    (path : option (list string)) : list string :=
  match path with
  | Some (d :: ds) => d :: ds
  | _ => discover_runtime_directories fs runtime_paths
  end.

(** [VimPathFinder.find_module], the method for Python 2.7 and 3.3.
    Returning [None] is how a finder declines. *)
Definition find_module (fs : FileSystem) (runtime_paths : list string)
    (fullname : string) (path : option (list string))
  : option (Res PyExc (option VimModuleLoader)) :=
  match _find_module (String.length fullname) fs fullname fullname
                     (path_or_get_paths fs runtime_paths path) with
  | None => None
  | Some (Return fmr) => Some (Return (Some (mkLoader fmr)))
  | Some (Raise e) =>
      if is_ImportError (exc_class e) then Some (Return None)
      else Some (Raise e)
  end.

(** The name that [_find_module] looks up in the search roots: the whole
    name, or its first component when there is a dot after the first
    character. *)
Definition looked_up (fullname : string) : string :=
  match String.index 0 "." fullname with
  | Some (S i) => str_take (S i) fullname
  | _ => fullname
  end.

(** What [PathFinder.find_spec] returns when it finds something: the spec
    of a module or regular package, or the spec of a namespace package
    with the portions that were found. *)
Inductive ModuleSpec :=
| FileSpec (fmr : Found)
| NamespaceSpec (portions : list string).

(** [fullname.rpartition('.')[2]]: what follows the last dot of a name,
    or the whole name if it has no dot. *)
Fixpoint last_component_from (seen rest : string) : string :=
  match rest with
  | EmptyString => seen
  | String c rest =>
      if bool_decide (c = "."%char) then last_component_from EmptyString rest
      else last_component_from (seen +:+ String c EmptyString) rest
  end.

Definition last_component (fullname : string) : string :=
  last_component_from EmptyString fullname.

(** [PathFinder.find_spec(fullname, path, target)] of [importlib], which
    is Python's own: the standard path-based finder looks for the last
    component of the name in the directories it is given, in order.  The
    first module or regular package found is returned; plain directories
    of that name met on the way are collected and make a namespace
    package if no module is found; [None] is returned when there is
    neither. *)
Fixpoint PathFinder_get_spec (fs : FileSystem) (fullname : string)
    (path : list string) (namespace_path : list string) : option ModuleSpec :=
  match path with
  | [] =>
      match namespace_path with
      | [] => None
      | _ => Some (NamespaceSpec namespace_path)
      end
  | d :: path =>
      match module_at fs d (last_component fullname) with
      | Some fmr => Some (FileSpec fmr)
      | None =>
          match portion_at fs d (last_component fullname) with
          | Some portion =>
              PathFinder_get_spec fs fullname path (namespace_path ++ [portion])
          | None => PathFinder_get_spec fs fullname path namespace_path
          end
      end
  end.

Definition PathFinder_find_spec (fs : FileSystem) (fullname : string)
    (path : list string) : option ModuleSpec :=
  PathFinder_get_spec fs fullname path [].

(** [VimPathFinder.find_spec], the method for Python 3.4+. *)
Definition find_spec (fs : FileSystem) (runtime_paths : list string)
    (fullname : string) (path : option (list string)) : option ModuleSpec :=
  PathFinder_find_spec fs fullname (path_or_get_paths fs runtime_paths path).

(** ** Sequences of RPC calls on one instance *)

Inductive Request :=
| Execute (script : Source Statements) (range_start range_stop : Z)
| ExecuteFile (file_path : string) (range_start range_stop : Z)
| Evaluate (expr : Source Expression)
| DoRange (start stop : Z) (code : Source FunctionDef).

(** What the host gets back: nothing, a value, or what was raised. *)
Definition Reply := Res Thrown (option Value).

Definition no_value {A} (r : Res Thrown A) : Reply :=
  match r with
  | Return _ => Return None
  | Raise t => Raise t
  end.

Definition with_value (r : Res Thrown Value) : Reply :=
  match r with
  | Return v => Return (Some v)
  | Raise t => Raise t
  end.

(** One request, handled by the method it is exported to. *)
Definition dispatch (files : string -> option (Source Statements))
    (self : ScriptHost) (rq : Request) : option (ScriptHost * Reply) :=
  match rq with
  | Execute script a b =>
      let '(self, r) := python_execute self script a b in Some (self, no_value r)
  | ExecuteFile file_path a b =>
      let '(self, r) := python_execute_file files self file_path a b in
      Some (self, no_value r)
  | Evaluate expr =>
      let '(self, r) := python_eval self expr in Some (self, with_value r)
  | DoRange start stop code =>
      match python_do_range self start stop code with
      | Some (self, r) => Some (self, no_value r)
      | None => None
      end
  end.

(** The requests are handled one after the other, each on the state that
    the one before left. *)
Fixpoint serve (files : string -> option (Source Statements))
    (self : ScriptHost) (rqs : list Request)
  : option (ScriptHost * list Reply) :=
  match rqs with
  | [] => Some (self, [])
  | rq :: rqs =>
      match dispatch files self rq with
      | None => None
      | Some (self, reply) =>
          match serve files self rqs with
          | None => None
          | Some (self, replies) => Some (self, reply :: replies)
          end
      end
  end.

(** The statement [name = value] and the expression [name]. *)
Definition assign (name : string) (value : Value) : Statements :=
  λ d, (<[name := value]> d, Return tt).

Definition name_expr (name : string) : Expression :=
  λ d, match d !! name with
       | Some v => (d, Return v)
       | None => (d, Raise (mkExc NameError
                              ("name '" +:+ name +:+ "' is not defined") []))
       end.

(** The code of a [pydo] under which the binding of [name] to [value]
    survives: the name is not the one that [python_do_range] uses itself,
    and neither the statements after the [def] nor a call of the function
    undo the binding.  Code that does not parse changes nothing. *)
Definition pydo_keeps (name : string) (value : Value)
    (code : Source FunctionDef) : Prop :=
  match code with
  | Unparsable _ => True
  | Parsed def =>
      name ≠ fname
      ∧ (∀ d, d !! name = Some value → (def_rest def d).1 !! name = Some value)
      ∧ (∀ line linenr d, d !! name = Some value →
           (def_function def line linenr d).1 !! name = Some value)
  end.

(** User code that leaves the binding of [name] to [value] alone. *)
Definition keeps_binding (files : string -> option (Source Statements))
    (name : string) (value : Value) (rq : Request) : Prop :=
  match rq with
  | Execute (Parsed run) _ _ =>
      ∀ d, d !! name = Some value → (run d).1 !! name = Some value
  | ExecuteFile file_path _ _ =>
      match files file_path with
      | Some (Parsed run) =>
          ∀ d, d !! name = Some value → (run d).1 !! name = Some value
      | _ => True
      end
  | Evaluate (Parsed run) =>
      ∀ d, d !! name = Some value → (run d).1 !! name = Some value
  | DoRange _ _ code => pydo_keeps name value code
  | _ => True
  end.

(** * The process around the host: streams, search path, loaded modules *)

(** ** [RedirectStream] *)

(** The handler of a [RedirectStream] is called for its effect; [S] is
    what it acts on. *)
Definition RedirectHandler (S : Type) := string → S → S.

(** The separator of [writelines]: the one-character string of a line
    feed. *)
Definition newline_char : ascii := "010"%char.
Definition newline : string := String newline_char EmptyString.

(** [RedirectStream.write] *)
Definition RedirectStream_write {S : Type} (redirect_handler : RedirectHandler S)
    (data : string) : S → S :=
  redirect_handler data.

(** [RedirectStream.writelines]: the handler is called once, with the
    lines joined by line feeds. *)
Definition RedirectStream_writelines {S : Type}
    (redirect_handler : RedirectHandler S) (seq : list string) : S → S :=
  redirect_handler (String.concat newline seq).

(** What the host has been sent on its two outputs: the arguments of the
    calls of [nvim.out_write] and [nvim.err_write], oldest first. *)
Record HostOutput := mkOutput {
  out_written : list string;
  err_written : list string
}.

(** The handlers that [setup] gives to the two streams:
    [lambda data: nvim.out_write(data)] and
    [lambda data: nvim.err_write(data)]. *)
Definition out_write : RedirectHandler HostOutput :=
  λ data o, mkOutput (out_written o ++ [data]) (err_written o).

Definition err_write : RedirectHandler HostOutput :=
  λ data o, mkOutput (out_written o) (err_written o ++ [data]).

(** ** [setup] and [teardown] *)

(** The two outputs a redirected stream can go to. *)
Inductive Channel :=
| ToOut
| ToErr.

(** A stream object.  Objects are told apart by their identity [id]: a
    stream that was there before, or a [RedirectStream] made by [setup]. *)
Inductive Stream :=
| SystemStream (id : nat)
| RedirectStream (id : nat) (target : Channel).

(** An entry of [sys.path_hooks]: some other hook, or the [hook] closure
    that [path_hook(nvim)] returns.  Functions compare by identity. *)
Inductive Hook :=
| OtherHook (id : nat)
| VimHook (id : nat).

#[global] Instance Hook_eq_dec : EqDecision Hook.
Proof. solve_decision. Defined.

(** The part of the interpreter that [setup] and [teardown] change, with
    the identity that the next new object gets. *)
Record Process := mkProcess {
  sys_path : list string;
  sys_path_hooks : list Hook;
  sys_stdout : Stream;
  sys_stderr : Stream;
  next_id : nat
}.

(** The attributes of [self] that [setup] assigns and [teardown] reads. *)
Record Saved := mkSaved {
  self_hook : Hook;
  saved_stdout : Stream;
  saved_stderr : Stream
}.

(** [nvim.VIM_SPECIAL_PATH] *)
Definition VIM_SPECIAL_PATH : string := "_vim_path_".

(** [list.remove(x)]: the first occurrence is removed; [None] stands for
    the [ValueError] raised when there is none. *)
Fixpoint list_remove {A : Type} `{EqDecision A} (x : A) (l : list A)
  : option (list A) :=
  match l with
  | [] => None
  | y :: l =>
      if decide (x = y) then Some l
      else match list_remove x l with
           | Some l' => Some (y :: l')
           | None => None
           end
  end.

Definition not_in_list : PyExc :=
  mkExc (Other "ValueError" true) "list.remove(x): x not in list" [].

(** [ScriptHost.setup]: the hook is made and appended, the special path
    is appended, the two streams are saved and replaced by new
    [RedirectStream] objects. *)
Definition setup (p : Process) : Process * Saved :=
  let hook := VimHook (next_id p) in
  (mkProcess (sys_path p ++ [VIM_SPECIAL_PATH])
             (sys_path_hooks p ++ [hook])
             (RedirectStream (next_id p + 1) ToOut)
             (RedirectStream (next_id p + 2) ToErr)
             (next_id p + 3),
   mkSaved hook (sys_stdout p) (sys_stderr p)).

(** [ScriptHost.teardown].  A [remove] that raises leaves the method with
    what was done before it. *)
Definition teardown (self : Saved) (p : Process) : Process * Res PyExc unit :=
  match list_remove VIM_SPECIAL_PATH (sys_path p) with
  | None => (p, Raise not_in_list)
  | Some path =>
      let p := mkProcess path (sys_path_hooks p) (sys_stdout p) (sys_stderr p)
                         (next_id p) in
      match list_remove (self_hook self) (sys_path_hooks p) with
      | None => (p, Raise not_in_list)
      | Some hooks =>
          (mkProcess (sys_path p) hooks (saved_stdout self) (saved_stderr self)
                     (next_id p),
           Return tt)
      end
  end.

(** [hook(path)], the closure returned by [path_hook]: it answers for the
    special path and for nothing else.  [Return tt] stands for the class
    [VimPathFinder]. *)
Definition hook (path : string) : Res PyExc unit :=
  if bool_decide (path = VIM_SPECIAL_PATH) then Return tt
  else Raise (mkExc ImportError EmptyString []).

(** ** [VimModuleLoader.load_module] *)

(** What running the file of a module under a name does: it gives a
    module or raises, and it may change [sys.modules] in any way on the
    way, since the code of the module may import other modules. *)
Definition Loads :=
  string → Found → gmap string ModuleObject
  → gmap string ModuleObject * Res PyExc ModuleObject.

(** [imp.load_module(fullname, file, pathname, description)], which is
    Python's own: the file that was found is run ([loads] tells what
    comes of it); when that ends normally, the module is in [sys.modules]
    under its name and is returned. *)
Definition imp_load_module (loads : Loads)
    (fullname : string) (fmr : Found) (sys_modules : gmap string ModuleObject)
  : gmap string ModuleObject * Res PyExc ModuleObject :=
  match loads fullname fmr sys_modules with
  | (sys_modules, Return m) => (<[fullname := m]> sys_modules, Return m)
  | (sys_modules, Raise e) => (sys_modules, Raise e)
  end.

(** [VimModuleLoader.load_module]: [sys.modules] is checked first. *)
Definition load_module (loads : Loads)
    (self : VimModuleLoader) (fullname : string)
    (sys_modules : gmap string ModuleObject)
  : gmap string ModuleObject * Res PyExc ModuleObject :=
  match sys_modules !! fullname with
  | Some m => (sys_modules, Return m)
  | None => imp_load_module loads fullname (loader_module self) sys_modules
  end.

(** * Vocabulary of the properties and sample inputs *)

(** The expression [1]. *)
Definition one_expr : Source Expression := Parsed (λ d, (d, Return (VInt 1))).

(** Induction on values, through the lists and dicts nested in them. *)
Section ValueInduction.

Variable P : Value → Prop.
Hypothesis HNone : P VNone.
Hypothesis HBool : ∀ b, P (VBool b).
Hypothesis HInt : ∀ z, P (VInt z).
Hypothesis HFloat : ∀ f, P (VFloat f).
Hypothesis HStr : ∀ s, P (VStr s).
Hypothesis HList : ∀ l, Forall P l → P (VList l).
Hypothesis HDict : ∀ kvs, Forall (λ kv, P kv.1 ∧ P kv.2) kvs → P (VDict kvs).
Hypothesis HFunc : ∀ name, P (VFunc name).
Hypothesis HObject : ∀ c, P (VObject c).

Fixpoint Value_nested_ind (obj : Value) : P obj :=
  match obj with
  | VNone => HNone
  | VBool b => HBool b
  | VInt z => HInt z
  | VFloat f => HFloat f
  | VStr s => HStr s
  | VList l =>
      HList l ((fix go (l : list Value) : Forall P l :=
                  match l with
                  | [] => Forall_nil_2 P
                  | x :: l => Forall_cons_2 P x l (Value_nested_ind x) (go l)
                  end) l)
  | VDict kvs =>
      HDict kvs
        ((fix go (kvs : list (Value * Value))
            : Forall (λ kv, P kv.1 ∧ P kv.2) kvs :=
            match kvs with
            | [] => Forall_nil_2 _
            | kv :: kvs =>
                Forall_cons_2 (λ kv, P kv.1 ∧ P kv.2) kv kvs
                  (conj (Value_nested_ind kv.1) (Value_nested_ind kv.2))
                  (go kvs)
            end) kvs)
  | VFunc name => HFunc name
  | VObject c => HObject c
  end.

End ValueInduction.

(** A reply of the host: the list [[1, "a", {"n": -20}]]. *)
Definition sample_reply : Value :=
  VList [VInt 1; VStr "a"; VDict [(VStr "n", VInt (-20))]].

Definition user_frame : Frame := "File <string>, line 1, in <module>".

Definition division_by_zero : PyExc :=
  mkExc ZeroDivisionError "division by zero" [user_frame].

(** The expression [1/0] and the statement [1/0]. *)
Definition one_by_zero_expr : Source Expression :=
  Parsed (λ d, (d, Raise division_by_zero)).

Definition one_by_zero_stmt : Source Statements :=
  Parsed (λ d, (d, Raise division_by_zero)).

(** The statement [sys.exit()]. *)
Definition system_exit : PyExc := mkExc SystemExit "exit" [user_frame].

Definition sys_exit_stmt : Source Statements :=
  Parsed (λ d, (d, Raise system_exit)).

(** Arithmetic on lengths. *)
Ltac len_lia := unfold len in *; simpl; lia.

(** The lines before [pre] and after [post] enclose a middle part that
    reaches up to index [hi] at least. *)
Definition framed (pre post : list string) (hi : Z) (self : ScriptHost) : Prop :=
  ∃ mid, buffer self = pre ++ mid ++ post ∧ hi ≤ len pre + len mid.

(** An event that stays inside the lines with indices in [lo, hi): a read
    or a write of an interval inside it, or a call of the function with a
    line number between [lo + 1] and [hi]. *)
Definition within (lo hi : Z) (e : Event) : Prop :=
  match e with
  | GetLines a b => lo ≤ a ∧ a ≤ b ∧ b ≤ hi
  | SetLines a b _ => lo ≤ a ∧ a ≤ b ∧ b ≤ hi
  | CallFunction _ n => lo < n ∧ n ≤ hi
  end.

(** The indices read by the bulk reads among the events, in order. *)
Definition read_indices (evs : list Event) : list Z :=
  flat_map (λ e, match e with GetLines a b => seqZ a (b - a) | _ => [] end) evs.

(** The line numbers passed to the function, in order. *)
Definition call_numbers (evs : list Event) : list Z :=
  flat_map (λ e, match e with CallFunction _ n => [n] | _ => [] end) evs.

(** [self'] comes from [self] by the events [evs], all of them inside
    [len pre, hi); the lines around are kept. *)
Definition steps (pre post : list string) (hi : Z)
    (self self' : ScriptHost) (evs : list Event) : Prop :=
  framed pre post hi self'
  ∧ current_range self' = current_range self
  ∧ events self' = events self ++ evs
  ∧ Forall (within (len pre) hi) evs.

(** The write after the loop over the lines of a batch. *)
Definition flush (self : ScriptHost) (sstart : Z) (newlines : list string)
  : ScriptHost * Res PyExc unit :=
  match newlines with
  | [] => (self, Return tt)
  | _ => set_lines self sstart (sstart + len newlines) newlines
  end.

(** No statement: what follows the [def] in a [code] of one line. *)
Definition pass : Statements := λ d, (d, Return tt).

(** A [code] that is the body of the function and nothing more. *)
Definition only_body (function : Body) : FunctionDef := mkDef function pass.

(** A body that doubles every line: [return line + line]. *)
Definition double : Body := λ line _ d, (d, Return (VStr (line +:+ line))).

(** A body that returns a number: [return 1]. *)
Definition returns_int : Body := λ _ _ d, (d, Return (VInt 1)).

(** A body that raises: [raise ValueError("bad line")]. *)
Definition raises : Body :=
  λ _ _ d,
    (d, Raise (mkExc (Other "ValueError" true) "bad line" [user_frame])).

(** A body that rebinds a global: [global last; last = linenr; return line]. *)
Definition remembers_last : Body :=
  λ line linenr d, (<["last" := VInt linenr]> d, Return (VStr line)).

(** [exec(function_def, d)] ends normally and [_vim_pydo] is bound in the
    namespace it leaves: the function is defined and the lookup after the
    [exec] finds it. *)
Definition defines (def : FunctionDef) (d : Namespace) : Prop :=
  (exec_def def d).2 = Return tt ∧ is_Some ((exec_def def d).1 !! fname).

(** A function whose calls leave [name] bound, if it was. *)
Definition stays_bound (name : string) (function : Body) : Prop :=
  ∀ line linenr d,
    is_Some (d !! name) → is_Some ((function line linenr d).1 !! name).

(** The state in which the loop over the batches starts. *)
Definition entered (self : ScriptHost) (start stop : Z) (def : FunctionDef)
  : ScriptHost :=
  set_module_dict (_set_current_range self start stop)
                  (exec_def def (module_dict self)).1.

(** The calls of the function among the events, in order. *)
Definition calls_of (evs : list Event) : list (string * Z) :=
  flat_map (λ e, match e with CallFunction line n => [(line, n)] | _ => [] end)
           evs.

(** A buffer of [n] lines, each holding its own number. *)
Definition numbered (n : Z) : list string := map pretty (seqZ 1 n).

(** The body [return None if linenr == k else line]. *)
Definition skip_at (k : Z) : Body :=
  λ line linenr d,
    (d, if bool_decide (linenr = k) then Return VNone else Return (VStr line)).

(** A file system with one runtime directory, which holds the package
    [pkg] under [pythonx]. *)
Definition sample_fs : FileSystem :=
  mkFS (λ p, bool_decide (p = "rt" ∨ p = "rt/pythonx"))
       (λ d n, if bool_decide (d = "rt/pythonx" ∧ n = "pkg")
               then Some (mkFound "pkg" "rt/pythonx/pkg" "package")
               else None)
       (λ _ _, None).

(** The identity of a hook. *)
Definition hook_id (h : Hook) : nat :=
  match h with
  | OtherHook id => id
  | VimHook id => id
  end.

(** The objects of the process are older than the next new object. *)
Definition hooks_known (p : Process) : Prop :=
  Forall (λ h, (hook_id h < next_id p)%nat) (sys_path_hooks p).

(** The lines of a text: the pieces between its line feeds. *)
Fixpoint split_lines (s : string) : list string :=
  match s with
  | EmptyString => [EmptyString]
  | String c s =>
      if bool_decide (c = newline_char) then EmptyString :: split_lines s
      else match split_lines s with
           | x :: xs => String c x :: xs
           | [] => [String c EmptyString]
           end
  end.

(** A text without line feed. *)
Fixpoint no_newline (s : string) : Prop :=
  match s with
  | EmptyString => True
  | String c s => c ≠ newline_char ∧ no_newline s
  end.

(** A process with the two standard streams and one hook. *)
Definition sample_process : Process :=
  mkProcess ["/usr/lib/python3"] [OtherHook 0] (SystemStream 1)
            (SystemStream 2) 3.

(** What a function [g] makes of lines that it is given one by one with
    their numbers, counted from [linenr]. *)
Fixpoint map_numbered (g : string → Z → string) (linenr : Z)
    (lines : list string) : list string :=
  match lines with
  | [] => []
  | line :: lines => g line linenr :: map_numbered g (linenr + 1) lines
  end.

(** The calls of the function on lines numbered from [linenr]. *)
Fixpoint call_events (linenr : Z) (lines : list string) : list Event :=
  match lines with
  | [] => []
  | line :: lines => CallFunction line linenr :: call_events (linenr + 1) lines
  end.

(** The bulk reads and the bulk writes among the events. *)
Definition is_read (e : Event) : bool :=
  match e with
  | GetLines _ _ => true
  | _ => false
  end.

Definition is_write (e : Event) : bool :=
  match e with
  | SetLines _ _ _ => true
  | _ => false
  end.

Definition count_reads (evs : list Event) : Z :=
  Z.of_nat (length (List.filter is_read evs)).

Definition count_writes (evs : list Event) : Z :=
  Z.of_nat (length (List.filter is_write evs)).

(** The number of batches of 5000 lines that [n] lines make. *)
Definition batches (n : Z) : Z := (n + 4999) / 5000.

(** A value that is neither [None] nor a string. *)
Definition neither_None_nor_str (v : Value) : Prop :=
  match v with
  | VNone | VStr _ => False
  | _ => True
  end.

(** The [TypeError] of [python_do_range] for the value [v]. *)
Definition pydo_type_error (v : Value) : PyExc :=
  mkExc TypeError
        ("pydo should return a string or None, found "
         +:+ class_name v +:+ " instead") [].

(** Of [n] lines, those that fill whole batches of 5000. *)
Definition whole_batches (n : nat) : nat := (5000 * (n / 5000))%nat.

(** A bulk read of at least one and at most 5000 lines; other events
    pass. *)
Definition read_one_batch (e : Event) : Prop :=
  match e with
  | GetLines a b => 0 < b - a ∧ b - a ≤ 5000
  | _ => True
  end.

(** The range that a request leaves in [current.range]: its own, or for
    [python_eval], which has none, the one that was there. *)
Definition range_after (before : option (Z * Z)) (rq : Request)
  : option (Z * Z) :=
  match rq with
  | Execute _ a b => Some (a, b)
  | ExecuteFile _ a b => Some (a, b)
  | Evaluate _ => before
  | DoRange a b _ => Some (a, b)
  end.

(** * Properties *)

(** ** [python_eval] and the conversion of numbers *)

Lemma python_eval_result (self : ScriptHost) (expr : Source Expression)
    (d : Namespace) (r : Res PyExc Value) :
  eval expr (module_dict self) = (d, r) →
  python_eval self expr
  = (set_module_dict self d,
     match r with Return v => Return v | Raise e => Raise (Uncaught e) end).
Proof.
  intros He. unfold python_eval. rewrite He. by destruct r.
Qed.

(** C1, as stated, fails: [python_eval] of the expression [1] returns the
    integer 1 to the host, not the text that [num_to_str] gives for it. *)
Lemma python_eval_int_not_coerced :
  (python_eval (__init__ []) one_expr).2 = Return (VInt 1)
  ∧ (python_eval (__init__ []) one_expr).2
    ≠ Return (walk (num_to_str (λ _, "0.0")) (VInt 1)).
Proof. split; [reflexivity | discriminate]. Qed.

(** C1, amended: [python_eval] returns the value of the expression to the
    host as it is, numbers included; nothing is converted on the way. *)
Theorem python_eval_returns_value_unchanged (self : ScriptHost)
    (expr : Source Expression) (d : Namespace) (v : Value) :
  eval expr (module_dict self) = (d, Return v) →
  python_eval self expr = (set_module_dict self d, Return v).
Proof. intros He. by rewrite (python_eval_result _ _ _ _ He). Qed.

Lemma python_eval_returns_value_unchanged_witness :
  python_eval (__init__ []) one_expr
  = (set_module_dict (__init__ []) (module_dict (__init__ [])), Return (VInt 1)).
Proof.
  apply (python_eval_returns_value_unchanged (__init__ []) one_expr).
  reflexivity.
Defined.

Section NumToStrFacts.

Variable float_repr : PyFloat → string.

Lemma num_to_str_num (obj : Value) (n : Num) :
  as_num obj = Some n → num_to_str float_repr obj = VStr (str float_repr n).
Proof. intros H. unfold num_to_str. by rewrite H. Qed.

Lemma num_to_str_other (obj : Value) :
  isinstance_num_types obj = false → num_to_str float_repr obj = obj.
Proof.
  unfold isinstance_num_types, num_to_str. intros H.
  apply bool_decide_eq_false in H.
  destruct (as_num obj) as [n|]; [|done].
  exfalso. apply H. by exists n.
Qed.

Lemma num_to_str_not_num (obj : Value) :
  isinstance_num_types (num_to_str float_repr obj) = false.
Proof. by destruct obj. Qed.

(** After the walk no number is left anywhere in the object. *)
Lemma walk_num_to_str_no_num (obj : Value) :
  has_num (walk (num_to_str float_repr) obj) = false.
Proof.
  induction obj as [| | | | |l IH|kvs IH| |] using Value_nested_ind;
    try reflexivity.
  - simpl. induction IH as [|x l Hx _ IHl]; [done|].
    simpl. by rewrite Hx, IHl.
  - simpl. induction IH as [|[k v] kvs [Hk Hv] _ IHl]; [done|].
    simpl in *. by rewrite Hk, Hv, IHl.
Qed.

(** An object without numbers passes through the walk unchanged. *)
Lemma walk_num_to_str_id (obj : Value) :
  has_num obj = false → walk (num_to_str float_repr) obj = obj.
Proof.
  induction obj as [| | | | |l IH|kvs IH| |] using Value_nested_ind;
    try done.
  - simpl. intros Hl. f_equal.
    induction IH as [|x l Hx _ IHl]; [done|].
    simpl in Hl. apply orb_false_iff in Hl as [H1 H2].
    simpl. by rewrite Hx, IHl.
  - simpl. intros Hl. f_equal.
    induction IH as [|[k v] kvs [Hk Hv] _ IHl]; [done|].
    simpl in *. apply orb_false_iff in Hl as [H1 H2].
    apply orb_false_iff in H1 as [H1 H3].
    by rewrite Hk, Hv, IHl.
Qed.

End NumToStrFacts.

(** C10: [num_to_str] gives [str(obj)] for an int or a float (the decimal
    numeral for an int) and returns every other object as it is;
    [LegacyVim.eval] walks the reply of the host with it, so that no number
    is left in the result and everything else is unchanged; and
    [python_eval] returns the value of its expression without any
    conversion. *)
Theorem num_to_str_and_LegacyVim_eval (float_repr : PyFloat → string) :
  (∀ z, num_to_str float_repr (VInt z) = VStr (pretty z))
  ∧ (∀ f, num_to_str float_repr (VFloat f) = VStr (float_repr f))
  ∧ (∀ obj n, as_num obj = Some n →
       num_to_str float_repr obj = VStr (str float_repr n))
  ∧ (∀ obj, isinstance_num_types obj = false → num_to_str float_repr obj = obj)
  ∧ (∀ request expr obj,
       request "vim_eval" expr = Return obj →
       LegacyVim_eval float_repr request expr
       = Return (walk (num_to_str float_repr) obj)
       ∧ has_num (walk (num_to_str float_repr) obj) = false
       ∧ (has_num obj = false → walk (num_to_str float_repr) obj = obj))
  ∧ (∀ self expr d v,
       eval expr (module_dict self) = (d, Return v) →
       python_eval self expr = (set_module_dict self d, Return v)).
Proof.
  repeat split.
  - intros obj n. apply num_to_str_num.
  - apply num_to_str_other.
  - unfold LegacyVim_eval. by rewrite H.
  - apply walk_num_to_str_no_num.
  - apply walk_num_to_str_id.
  - intros self expr d v He. by rewrite (python_eval_result _ _ _ _ He).
Qed.

Lemma num_to_str_and_LegacyVim_eval_witness :
  num_to_str (λ _, "0.5") (VInt 42) = VStr "42"
  ∧ num_to_str (λ _, "0.5") (VStr "x") = VStr "x"
  ∧ LegacyVim_eval (λ _, "0.5") (λ _ _, Return sample_reply) "g:x"
    = Return (VList [VStr "1"; VStr "a"; VDict [(VStr "n", VStr "-20")]])
  ∧ python_eval (__init__ []) one_expr
    = (set_module_dict (__init__ []) (module_dict (__init__ [])),
       Return (VInt 1)).
Proof.
  destruct (num_to_str_and_LegacyVim_eval (λ _, "0.5"))
    as (Hint & _ & _ & Hother & Hwalk & Heval).
  split; [exact (Hint 42)|].
  split; [apply Hother; reflexivity|].
  split.
  - exact (proj1 (Hwalk (λ _ _, Return sample_reply) "g:x" sample_reply
                        eq_refl)).
  - apply Heval. reflexivity.
Defined.

(** ** Errors of user code at the dispatcher *)

(** C2, as stated, fails.  In [python_eval] the [ZeroDivisionError] of the
    expression [1/0] leaves the operation as it was raised; no
    [ErrorResponse] is made of it.  In [python_execute] the [SystemExit]
    of [sys.exit()], which does not derive from [Exception], passes the
    handler in the same way. *)
Lemma python_eval_error_not_converted :
  (python_eval (__init__ []) one_by_zero_expr).2
  = Raise (Uncaught division_by_zero)
  ∧ (¬ ∃ t, (python_eval (__init__ []) one_by_zero_expr).2
            = Raise (ErrorResponse t))
  ∧ (python_execute (__init__ []) sys_exit_stmt 1 1).2
    = Raise (Uncaught system_exit).
Proof.
  split; [reflexivity|]. split; [|reflexivity].
  intros [t Ht]. discriminate Ht.
Qed.

Lemma exec_guarded_raise (method : string) (self : ScriptHost)
    (script : Source Statements) (d : Namespace) (e : PyExc) :
  exec script (module_dict self) = (d, Raise e) →
  is_Exception (exc_class e) = true →
  exec_guarded method self script
  = (set_module_dict self d,
     Raise (ErrorResponse (mkTrace (exc_tb e) (exc_class e) (exc_msg e)))).
Proof.
  intros He Hc. unfold exec_guarded. rewrite He, Hc. reflexivity.
Qed.

(** C2, amended: in [python_execute] and [python_execute_file], an
    exception that derives from [Exception] and is raised while the user's
    code runs is caught and replaced by an [ErrorResponse]; its trace has
    the frames of the user's code only, the frame of the method itself
    being skipped. *)
Theorem exec_errors_become_ErrorResponse
    (files : string → option (Source Statements)) (self : ScriptHost)
    (script : Source Statements) (file_path : string) (a b : Z)
    (d : Namespace) (e : PyExc) :
  is_Exception (exc_class e) = true →
  exec script (module_dict self) = (d, Raise e) →
  python_execute self script a b
  = (set_module_dict (_set_current_range self a b) d,
     Raise (ErrorResponse (mkTrace (exc_tb e) (exc_class e) (exc_msg e))))
  ∧ (files file_path = Some script →
     (∃ run, script = Parsed run) →
     python_execute_file files self file_path a b
     = (set_module_dict (_set_current_range self a b) d,
        Raise (ErrorResponse (mkTrace (exc_tb e) (exc_class e) (exc_msg e))))).
Proof.
  intros Hc He. split.
  - unfold python_execute. by apply exec_guarded_raise.
  - intros Hf [run ->]. unfold python_execute_file. rewrite Hf.
    by apply exec_guarded_raise.
Qed.

Lemma exec_errors_become_ErrorResponse_witness :
  python_execute (__init__ []) one_by_zero_stmt 1 1
  = (set_module_dict (_set_current_range (__init__ []) 1 1)
                     (module_dict (__init__ [])),
     Raise (ErrorResponse
              (mkTrace [user_frame] ZeroDivisionError "division by zero")))
  ∧ python_execute_file (λ _, Some one_by_zero_stmt) (__init__ []) "a.py" 1 1
    = (set_module_dict (_set_current_range (__init__ []) 1 1)
                       (module_dict (__init__ [])),
       Raise (ErrorResponse
                (mkTrace [user_frame] ZeroDivisionError "division by zero"))).
Proof.
  destruct (exec_errors_become_ErrorResponse (λ _, Some one_by_zero_stmt)
              (__init__ []) one_by_zero_stmt "a.py" 1 1
              (module_dict (__init__ [])) division_by_zero
              eq_refl eq_refl) as [H1 H2].
  split; [exact H1|].
  apply H2; [reflexivity|]. by eexists.
Defined.

(** ** Reads and writes of the buffer *)

Lemma len_app (l k : list string) : len (l ++ k) = len l + len k.
Proof. unfold len. rewrite length_app. lia. Qed.

Lemma len_nonneg (l : list string) : 0 ≤ len l.
Proof. unfold len. lia. Qed.

Lemma in_bounds_true (lines : list string) (a b : Z) :
  0 ≤ a → a ≤ b → b ≤ len lines → in_bounds lines a b = true.
Proof. intros. unfold in_bounds. by apply bool_decide_eq_true. Qed.

Lemma len_slice (lines : list string) (a b : Z) :
  0 ≤ a → a ≤ b → b ≤ len lines → len (slice lines a b) = b - a.
Proof.
  unfold len, slice. intros. rewrite length_take, length_drop. lia.
Qed.

(** The first line of a slice, and the slice after it. *)
Lemma slice_cons (lines : list string) (a b : Z) (x : string) (l : list string) :
  0 ≤ a → slice lines a b = x :: l → l = slice lines (a + 1) b.
Proof.
  unfold slice. intros Ha H.
  destruct (Z.to_nat (b - a)) as [|n] eqn:Hn; [by rewrite take_0 in H|].
  replace (Z.to_nat (b - (a + 1))) with n by lia.
  replace (Z.to_nat (a + 1)) with (Z.to_nat a + 1)%nat by lia.
  destruct (drop (Z.to_nat a) lines) as [|y rest] eqn:Hd; [done|].
  simpl in H. injection H as -> <-.
  by rewrite <- (drop_drop lines 1 (Z.to_nat a)), Hd.
Qed.

(** Writing a slice back where it was read leaves the lines as they are. *)
Lemma splice_slice (lines : list string) (a b : Z) :
  0 ≤ a → a ≤ b → b ≤ len lines →
  splice lines a (a + len (slice lines a b)) (slice lines a b) = lines.
Proof.
  intros Ha Hab Hb. rewrite len_slice by done.
  replace (a + (b - a)) with b by lia.
  unfold splice, slice.
  replace (Z.to_nat b) with (Z.to_nat a + Z.to_nat (b - a))%nat by lia.
  rewrite <- drop_drop.
  rewrite (take_drop (Z.to_nat (b - a)) (drop (Z.to_nat a) lines)).
  apply take_drop.
Qed.

Lemma splice_framed (pre mid post : list string) (a b : Z)
    (replacement : list string) :
  len pre ≤ a → a ≤ b → b ≤ len pre + len mid →
  splice (pre ++ mid ++ post) a b replacement
  = pre ++ (take (Z.to_nat (a - len pre)) mid ++ replacement
            ++ drop (Z.to_nat (b - len pre)) mid) ++ post.
Proof.
  unfold len, splice. intros Ha Hab Hb.
  rewrite take_app_ge by lia.
  rewrite take_app_le by lia.
  rewrite drop_app_ge by lia.
  rewrite drop_app_le by lia.
  replace (Z.to_nat a - length pre)%nat
    with (Z.to_nat (a - Z.of_nat (length pre))) by lia.
  replace (Z.to_nat b - length pre)%nat
    with (Z.to_nat (b - Z.of_nat (length pre))) by lia.
  by rewrite <- !app_assoc.
Qed.

Lemma steps_refl pre post hi self : framed pre post hi self → steps pre post hi self self [].
Proof.
  intros H. unfold steps. rewrite app_nil_r. by repeat split.
Qed.

Lemma steps_trans pre post hi s1 s2 s3 evs1 evs2 :
  steps pre post hi s1 s2 evs1 → steps pre post hi s2 s3 evs2 →
  steps pre post hi s1 s3 (evs1 ++ evs2).
Proof.
  intros (_ & Hr1 & He1 & Hw1) (Hf2 & Hr2 & He2 & Hw2).
  repeat split; [done|congruence| |by apply Forall_app].
  by rewrite He2, He1, app_assoc.
Qed.

Lemma steps_record pre post hi self e :
  framed pre post hi self → within (len pre) hi e →
  steps pre post hi self (record_event self e) [e].
Proof.
  intros Hf Hw. repeat split; [done|]. by apply Forall_singleton.
Qed.

(** A call of the function: the event is recorded and the namespace is
    what the call made of it; the lines are not touched. *)
Lemma steps_call pre post hi self e d :
  framed pre post hi self → within (len pre) hi e →
  steps pre post hi self (set_module_dict (record_event self e) d) [e].
Proof.
  intros Hf Hw. repeat split; [done|]. by apply Forall_singleton.
Qed.

(** A write inside the frame that does not shrink the buffer succeeds and
    keeps the frame. *)
Lemma set_lines_steps pre post hi self a b replacement :
  framed pre post hi self →
  len pre ≤ a → a ≤ b → b ≤ hi → b - a ≤ len replacement →
  ∃ self', set_lines self a b replacement = (self', Return tt)
           ∧ steps pre post hi self self' [SetLines a b replacement].
Proof.
  intros (mid & Hb & Hhi) Ha Hab Hbh Hr.
  pose proof (len_nonneg pre).
  unfold set_lines. simpl. rewrite in_bounds_true; [|lia|lia|].
  2:{ rewrite Hb, !len_app. pose proof (len_nonneg post). lia. }
  eexists. split; [reflexivity|].
  repeat split; simpl; [|by apply Forall_singleton].
  rewrite Hb, splice_framed by lia.
  eexists. split; [reflexivity|].
  rewrite !len_app. unfold len in *.
  rewrite length_take, length_drop. lia.
Qed.

(** A read inside the frame succeeds. *)
Lemma get_lines_steps pre post hi self a b :
  framed pre post hi self →
  len pre ≤ a → a ≤ b → b ≤ hi →
  ∃ self', get_lines self a b = (self', Return (slice (buffer self) a b))
           ∧ steps pre post hi self self' [GetLines a b]
           ∧ buffer self' = buffer self.
Proof.
  intros (mid & Hb & Hhi) Ha Hab Hbh.
  pose proof (len_nonneg pre).
  unfold get_lines. simpl. rewrite in_bounds_true; [|lia|lia|].
  2:{ rewrite Hb, !len_app. pose proof (len_nonneg post). lia. }
  eexists. split; [reflexivity|]. split; [|done].
  repeat split; simpl; [by exists mid|by apply Forall_singleton].
Qed.

Lemma read_indices_app evs1 evs2 :
  read_indices (evs1 ++ evs2) = read_indices evs1 ++ read_indices evs2.
Proof. apply flat_map_app. Qed.

Lemma call_numbers_app evs1 evs2 :
  call_numbers (evs1 ++ evs2) = call_numbers evs1 ++ call_numbers evs2.
Proof. apply flat_map_app. Qed.

Lemma seqZ_first (m n : Z) : 0 ≤ n → m :: seqZ (m + 1) n = seqZ m (n + 1).
Proof.
  intros Hn. rewrite (seqZ_cons m (n + 1)) by lia.
  by replace (Z.succ m) with (m + 1) by lia;
     replace (Z.pred (n + 1)) with n by lia.
Qed.

(** ** The loop over the lines of one batch *)

(** The loop stays inside the batch it was given: it writes only between
    the start of the range and the end of the batch, calls the function
    with consecutive line numbers, and leaves [sstart] and [newlines]
    such that the write after the loop is inside the batch too. *)
Lemma for_lines_steps (function : Body) (pre post : list string) (hi : Z) :
  ∀ lines self sstart newlines linenr,
    framed pre post hi self →
    len pre ≤ sstart →
    sstart + len newlines + len lines ≤ hi →
    linenr = sstart + len newlines + 1 →
    ∃ self' r evs,
      for_lines function lines self sstart newlines linenr = (self', r)
      ∧ steps pre post hi self self' evs
      ∧ read_indices evs = []
      ∧ (∃ n, call_numbers evs = seqZ linenr n ∧ 0 ≤ n ∧ n ≤ len lines
              ∧ ∀ s nl, r = Return (s, nl, None) → n = len lines)
      ∧ (∀ s nl x, r = Return (s, nl, x) →
           len pre ≤ s ∧ s + len nl ≤ sstart + len newlines + len lines).
Proof.
  induction lines as [|line lines IH]; intros self sstart newlines linenr
    Hf Hlo Hhi Hnr.
  - exists self, (Return (sstart, newlines, None)), [].
    split; [done|]. split; [by apply steps_refl|]. split; [done|].
    split.
    + exists 0. repeat split; try done.
    + intros s nl x [= <- <- <-]. unfold len in *. simpl. lia.
  - pose proof (len_nonneg newlines) as Hnl.
    pose proof (len_nonneg lines) as Hls.
    assert (len (line :: lines) = len lines + 1) as Hcons
      by (unfold len; simpl; lia).
    rewrite Hcons in *.
    destruct (function line linenr (module_dict self)) as [d res] eqn:Hfn.
    set (self0 := set_module_dict
                    (record_event self (CallFunction line linenr)) d).
    assert (steps pre post hi self self0 [CallFunction line linenr]) as Hcall.
    { apply steps_call; [done|]. simpl. lia. }
    assert (framed pre post hi self0) as Hf1 by apply Hcall.
    (* what is common to the two branches that go on with the loop *)
    assert (∀ self1 evs1 sstart' newlines',
              steps pre post hi self self1 (CallFunction line linenr :: evs1) →
              read_indices evs1 = [] → call_numbers evs1 = [] →
              len pre ≤ sstart' →
              sstart' + len newlines' = sstart + len newlines + 1 →
              ∃ self' r evs,
                for_lines function lines self1 sstart' newlines' (linenr + 1)
                = (self', r)
                ∧ steps pre post hi self self' evs
                ∧ read_indices evs = []
                ∧ (∃ n, call_numbers evs = seqZ linenr n ∧ 0 ≤ n
                        ∧ n ≤ len lines + 1
                        ∧ ∀ s nl, r = Return (s, nl, None) → n = len lines + 1)
                ∧ (∀ s nl x, r = Return (s, nl, x) →
                     len pre ≤ s
                     ∧ s + len nl ≤ sstart + len newlines + (len lines + 1)))
      as Hgo.
    { intros self1 evs1 sstart' newlines' Hs1 Hr1 Hc1 Hlo' Heq.
      destruct (IH self1 sstart' newlines' (linenr + 1))
        as (self' & r & evs & Hfor & Hst & Hrd & (n & Hcn & Hn0 & Hn1 & Hn) & Hout);
        [apply Hs1|lia|lia|lia|].
      exists self', r, ((CallFunction line linenr :: evs1) ++ evs).
      split; [done|]. split; [by eapply steps_trans|].
      split; [rewrite read_indices_app, Hrd; simpl; by rewrite Hr1|].
      split.
      - exists (n + 1). rewrite call_numbers_app, Hcn. simpl. rewrite Hc1.
        simpl. split; [by apply seqZ_first|].
        split; [lia|]. split; [lia|].
        intros s nl Hr. rewrite (Hn s nl Hr). lia.
      - intros s nl x Hr. destruct (Hout s nl x Hr). lia. }
    simpl. rewrite Hfn. simpl. fold self0.
    destruct res as [result|e].
    2:{ (* the function raised *)
      eexists _, _, _. split; [reflexivity|]. split; [exact Hcall|].
      split; [done|]. split; [|done].
      exists 1. split; [done|]. split; [lia|]. split; [lia|]. done. }
    assert (∃ self' r evs,
              (self0,
               Return (E:=PyExc)
                 (sstart, newlines,
                  Some (mkExc TypeError
                          ("pydo should return a string or None, found "
                           +:+ class_name result +:+ " instead") [])))
              = (self', r)
              ∧ steps pre post hi self self' evs
              ∧ read_indices evs = []
              ∧ (∃ n, call_numbers evs = seqZ linenr n ∧ 0 ≤ n
                      ∧ n ≤ len lines + 1
                      ∧ ∀ s nl, r = Return (s, nl, None) → n = len lines + 1)
              ∧ (∀ s nl x, r = Return (s, nl, x) →
                   len pre ≤ s
                   ∧ s + len nl ≤ sstart + len newlines + (len lines + 1)))
      as Hbreak.
    { eexists _, _, _. split; [reflexivity|]. split; [exact Hcall|].
      split; [done|]. split.
      - exists 1. split; [done|]. split; [lia|]. split; [lia|]. done.
      - intros s nl x [= <- <- <-]. lia. }
    destruct result as [|b|z|f|s|l|kvs|f|c]; try exact Hbreak.
    + (* None: the pending lines are written and the line is skipped *)
      destruct newlines as [|l0 newlines0] eqn:Hnew.
      * apply (Hgo _ []); [exact Hcall|done|done|len_lia|len_lia].
      * rewrite <- Hnew in *.
        assert (1 ≤ len newlines) as Hpos
          by (rewrite Hnew; unfold len; simpl; lia).
        destruct (set_lines_steps pre post hi _ sstart
                    (sstart + len newlines - 1) newlines Hf1)
          as (self1 & Hset & Hst1); [lia..|].
        rewrite Hnew in Hset at 1. simpl in Hset.
        rewrite <- Hnew in Hset. rewrite Hset.
        apply (Hgo _ [SetLines sstart (sstart + len newlines - 1) newlines]);
          [|done|done|lia|len_lia].
        apply (steps_trans _ _ _ _ _ _ _ _ Hcall Hst1).
    + (* a string: one more pending line *)
      apply (Hgo _ []); [exact Hcall|done|done|lia|].
      rewrite len_app. len_lia.
Qed.

(** ** The loop over the batches *)

Lemma framed_len pre post hi self :
  framed pre post hi self → hi ≤ len (buffer self).
Proof.
  intros (mid & -> & H). rewrite !len_app.
  pose proof (len_nonneg post). lia.
Qed.

Lemma flush_steps pre post hi self sstart newlines :
  framed pre post hi self →
  len pre ≤ sstart → sstart + len newlines ≤ hi →
  ∃ self' evs, flush self sstart newlines = (self', Return tt)
               ∧ steps pre post hi self self' evs
               ∧ read_indices evs = [] ∧ call_numbers evs = [].
Proof.
  intros Hf Hlo Hhi. destruct newlines as [|l newlines].
  - exists self, []. split; [done|]. split; [by apply steps_refl|done].
  - pose proof (len_nonneg (l :: newlines)).
    destruct (set_lines_steps pre post hi self sstart
                (sstart + len (l :: newlines)) (l :: newlines) Hf)
      as (self' & Hset & Hst); [lia..|].
    exists self', [SetLines sstart (sstart + len (l :: newlines)) (l :: newlines)].
    split; [exact Hset|]. by split.
Qed.

(** The loop always ends with the fuel that [python_do_range] gives it.
    It reads the batches one after the other, calls the function with
    consecutive line numbers, and stays between the start of the range and
    [stop]. *)
Lemma while_batches_steps (function : Body) (pre post : list string) (stop : Z) :
  ∀ fuel self start,
    framed pre post stop self →
    len pre ≤ start →
    (Z.to_nat (stop - start) ≤ fuel)%nat →
    ∃ self' r evs,
      while_batches fuel function self start stop = Some (self', r)
      ∧ steps pre post stop self self' evs
      ∧ (∃ n, call_numbers evs = seqZ (start + 1) n ∧ 0 ≤ n
              ∧ (r = Return tt → n = Z.max 0 (stop - start)))
      ∧ (r = Return tt → read_indices evs = seqZ start (stop - start)).
Proof.
  assert (∀ fuel self start, ¬ start < stop → framed pre post stop self →
            ∃ self' r evs,
              while_batches fuel function self start stop = Some (self', r)
              ∧ steps pre post stop self self' evs
              ∧ (∃ n, call_numbers evs = seqZ (start + 1) n ∧ 0 ≤ n
                      ∧ (r = Return tt → n = Z.max 0 (stop - start)))
              ∧ (r = Return tt → read_indices evs = seqZ start (stop - start)))
    as Hdone.
  { intros fuel self start Hge Hf. exists self, (Return tt), [].
    split; [destruct fuel; simpl; by rewrite bool_decide_eq_false_2|].
    split; [by apply steps_refl|]. split.
    - exists 0. split; [done|]. split; [done|]. intros _. lia.
    - intros _. unfold seqZ. by replace (Z.to_nat (stop - start)) with 0%nat by lia. }
  induction fuel as [|fuel IH]; intros self start Hf Hlo Hfuel.
  { apply Hdone; [lia|done]. }
  destruct (decide (start < stop)) as [Hlt|Hge]; [|by apply Hdone].
  simpl. rewrite bool_decide_eq_true_2 by done.
  set (sstop := Z.min (start + 5000) stop).
  assert (start < sstop ∧ sstop ≤ stop) as [Hs1 Hs2] by (unfold sstop; lia).
  pose proof (len_nonneg pre) as Hpre.
  pose proof (framed_len _ _ _ _ Hf) as Hbuf.
  destruct (get_lines_steps pre post stop self start sstop Hf)
    as (self1 & Hget & Hst1 & Hb1); [lia..|].
  rewrite Hget.
  assert (len (slice (buffer self) start sstop) = sstop - start) as Hlen
    by (apply len_slice; lia).
  destruct (for_lines_steps function pre post stop
              (slice (buffer self) start sstop) self1 start [] (start + 1))
    as (self2 & r & evs2 & Hfor & Hst2 & Hrd2 & (n2 & Hcn2 & Hn20 & Hn21 & Hn2)
        & Hout); [apply Hst1|lia|len_lia|len_lia|].
  rewrite Hfor.
  destruct r as [[[sstart newlines] exception]|e].
  2:{ (* the function or a write raised inside the loop *)
    eexists _, _, _. split; [reflexivity|].
    split; [exact (steps_trans _ _ _ _ _ _ _ _ Hst1 Hst2)|].
    split; [|done].
    exists n2. rewrite call_numbers_app. simpl. by split. }
  destruct (Hout sstart newlines exception eq_refl) as [Ho1 Ho2].
  destruct (flush_steps pre post stop self2 sstart newlines)
    as (self3 & evs3 & Hfl & Hst3 & Hrd3 & Hcn3);
    [apply Hst2|lia|rewrite Hlen in Ho2; change (len []) with 0 in Ho2; lia|].
  fold (flush self2 sstart newlines). rewrite Hfl.
  pose proof (steps_trans _ _ _ _ _ _ _ _
                (steps_trans _ _ _ _ _ _ _ _ Hst1 Hst2) Hst3) as Hst123.
  destruct exception as [e|].
  { (* the type error found in the batch is raised after the write *)
    eexists _, _, _. split; [reflexivity|]. split; [exact Hst123|].
    split; [|done].
    exists n2. rewrite !call_numbers_app, Hcn3, app_nil_r. simpl. by split. }
  destruct (IH self3 sstop) as (self4 & r4 & evs4 & Hw & Hst4
                                & (n4 & Hcn4 & Hn40 & Hn4) & Hrd4);
    [apply Hst3|lia|lia|].
  rewrite Hw. eexists _, _, _. split; [reflexivity|].
  split; [exact (steps_trans _ _ _ _ _ _ _ _ Hst123 Hst4)|].
  rewrite (Hn2 _ _ eq_refl), Hlen in Hcn2.
  split.
  - exists ((sstop - start) + n4).
    rewrite !call_numbers_app, Hcn3, Hcn4, Hcn2, app_nil_r. simpl.
    split; [|split; [lia|intros Hr; rewrite (Hn4 Hr); lia]].
    rewrite seqZ_app by lia. do 2 f_equal. lia.
  - intros Hr. rewrite !read_indices_app, Hrd2, Hrd3, (Hrd4 Hr). simpl.
    rewrite !app_nil_r.
    replace (stop - start) with ((sstop - start) + (stop - sstop)) by lia.
    rewrite seqZ_app by lia. do 2 f_equal. lia.
Qed.

(** ** The namespace in the two loops *)

Lemma set_lines_dict (self : ScriptHost) (a b : Z) (replacement : list string) :
  module_dict (set_lines self a b replacement).1 = module_dict self.
Proof. unfold set_lines. by destruct (in_bounds _ _ _). Qed.

(** The loops change the namespace through the calls of the function
    only: what every call keeps true of the namespace is still true of
    it when the loop over the lines of a batch is left, however it is
    left. *)
Lemma for_lines_namespace (P : Namespace → Prop) (function : Body) :
  (∀ line linenr d, P d → P (function line linenr d).1) →
  ∀ lines self sstart newlines linenr,
    P (module_dict self) →
    P (module_dict (for_lines function lines self sstart newlines linenr).1).
Proof.
  intros HP.
  induction lines as [|line lines IH]; intros self sstart newlines linenr Hd;
    [done|].
  simpl. pose proof (HP line linenr _ Hd) as Hd1.
  destruct (function line linenr (module_dict self)) as [d [result|e]];
    simpl in *; [|done].
  destruct result; try done.
  - destruct newlines as [|l newlines]; [by apply IH|].
    pose proof (set_lines_dict
                  (set_module_dict
                     (record_event self (CallFunction line linenr)) d)
                  sstart (sstart + len (l :: newlines) - 1) (l :: newlines))
      as Hs.
    destruct (set_lines _ _ _ _) as [self1 [u|e]]; simpl in Hs; simpl;
      [|by rewrite Hs].
    apply IH. by rewrite Hs.
  - by apply IH.
Qed.

(** The same for the loop over the batches. *)
Lemma while_batches_namespace (P : Namespace → Prop) (function : Body)
    (stop : Z) :
  (∀ line linenr d, P d → P (function line linenr d).1) →
  ∀ fuel self start self' r,
    while_batches fuel function self start stop = Some (self', r) →
    P (module_dict self) → P (module_dict self').
Proof.
  intros HP.
  induction fuel as [|fuel IH]; intros self start self' r; simpl.
  { case_bool_decide; [discriminate|]. by intros [= <- <-]. }
  case_bool_decide as Hlt; [|by intros [= <- <-]].
  unfold get_lines. simpl.
  destruct (in_bounds _ _ _); [|by intros [= <- <-]].
  intros Hw Hd.
  pose proof (for_lines_namespace P function HP
                (slice (buffer self) start (Z.min (start + 5000) stop))
                (record_event self (GetLines start (Z.min (start + 5000) stop)))
                start [] (start + 1) Hd) as Hd1.
  destruct (for_lines _ _ _ _ _ _) as [self1 [[[sstart newlines] exception]|e]];
    [|by injection Hw as <- _].
  simpl in Hd1.
  assert (∃ self2 w,
            match newlines with
            | [] => (self1, Return tt)
            | _ :: _ => set_lines self1 sstart (sstart + len newlines) newlines
            end = (self2, w) ∧ P (module_dict self2))
    as (self2 & w & Heq & Hd2).
  { destruct newlines as [|l newlines]; [by eexists _, _|].
    pose proof (set_lines_dict self1 sstart (sstart + len (l :: newlines))
                  (l :: newlines)) as Hs.
    destruct (set_lines _ _ _ _) as [self2 w]. exists self2, w.
    split; [done|]. simpl in Hs. by rewrite Hs. }
  rewrite Heq in Hw.
  destruct w as [u|e]; [|by injection Hw as <- _].
  destruct exception as [e|]; [by injection Hw as <- _|].
  by apply (IH _ _ _ _ Hw).
Qed.

(** ** [python_do_range] as a whole *)

Lemma take_slice_drop (lines : list string) (a b : Z) :
  0 ≤ a → a ≤ b →
  lines = take (Z.to_nat a) lines ++ slice lines a b ++ drop (Z.to_nat b) lines.
Proof.
  intros Ha Hab. unfold slice.
  replace (Z.to_nat b) with (Z.to_nat a + Z.to_nat (b - a))%nat by lia.
  rewrite <- drop_drop.
  rewrite (take_drop (Z.to_nat (b - a)) (drop (Z.to_nat a) lines)).
  by rewrite take_drop.
Qed.

(** A [code] that is only the body of the function defines it. *)
Lemma defines_only_body (function : Body) (d : Namespace) :
  defines (only_body function) d.
Proof.
  split; [done|]. unfold exec_def. simpl. rewrite lookup_insert_eq. by eexists.
Qed.

(** A function that leaves the namespace as it is leaves every name
    bound. *)
Lemma stays_bound_same (name : string) (function : Body) :
  (∀ line linenr d, (function line linenr d).1 = d) →
  stays_bound name function.
Proof. intros Hsame line linenr d Hd. by rewrite Hsame. Qed.


(** When the function is defined, [python_do_range] is the loop over the
    batches followed by the [del]. *)
Lemma python_do_range_defined (self : ScriptHost) (start stop : Z)
    (def : FunctionDef) :
  defines def (module_dict self) →
  python_do_range self start stop (Parsed def)
  = match while_batches (Z.to_nat (stop - (start - 1))) (def_function def)
            (entered self start stop def) (start - 1) stop with
    | None => None
    | Some (self', Raise e) => Some (self', Raise (Uncaught e))
    | Some (self', Return _) =>
        match delitem (module_dict self') fname with
        | Raise e => Some (self', Raise (Uncaught e))
        | Return d => Some (set_module_dict self' d, Return tt)
        end
    end.
Proof.
  intros [Hr [v Hv]]. unfold python_do_range, entered. cbv zeta.
  simpl module_dict.
  destruct (exec_def def (module_dict self)) as [d r]. simpl in *. subst r.
  unfold getitem. simpl. by rewrite Hv.
Qed.

(** When it is not, because the statements after the [def] raise or
    unbind the name, the method is left before the loop. *)
Lemma python_do_range_not_defined (self : ScriptHost) (start stop : Z)
    (def : FunctionDef) :
  defines def (module_dict self)
  ∨ (¬ defines def (module_dict self)
     ∧ ∃ e, python_do_range self start stop (Parsed def)
            = Some (entered self start stop def, Raise (Uncaught e))).
Proof.
  unfold defines, python_do_range, entered. cbv zeta. simpl module_dict.
  destruct (exec_def def (module_dict self)) as [d [[]|e]]; simpl.
  - unfold getitem. simpl. destruct (d !! fname) as [v|] eqn:Hv.
    + left. split; [done|by eexists].
    + right. split; [|by eexists]. intros [_ [v Hv']]. congruence.
  - right. split; [|by eexists]. intros [Hr _]. discriminate.
Qed.

(** The end of a call whose loop has ended normally: the [del] succeeds
    if the calls of the function have left the name bound. *)
Lemma python_do_range_after_loop (self self2 : ScriptHost) (start stop : Z)
    (def : FunctionDef) :
  defines def (module_dict self) →
  while_batches (Z.to_nat (stop - (start - 1))) (def_function def)
                (entered self start stop def) (start - 1) stop
  = Some (self2, Return tt) →
  ∃ self' r,
    python_do_range self start stop (Parsed def) = Some (self', r)
    ∧ buffer self' = buffer self2
    ∧ events self' = events self2
    ∧ (stays_bound fname (def_function def) →
       r = Return tt
       ∧ module_dict self' = delete fname (module_dict self2)
       ∧ module_dict self' !! fname = None).
Proof.
  intros Hdef Hw. rewrite (python_do_range_defined _ _ _ _ Hdef), Hw.
  unfold delitem. destruct (module_dict self2 !! fname) as [v|] eqn:Hv.
  - eexists _, _. split; [reflexivity|]. simpl. repeat split.
    apply lookup_delete_eq.
  - eexists _, _. split; [reflexivity|]. split; [done|]. split; [done|].
    intros Hsb. exfalso.
    assert (is_Some (module_dict self2 !! fname)) as [v Hv'].
    { apply (while_batches_namespace (λ d, is_Some (d !! fname))
               _ _ Hsb _ _ _ _ _ Hw). apply Hdef. }
    congruence.
Qed.

(** The end of a call whose loop was left by an exception: the name is
    still bound if the calls of the function have left it bound. *)
Lemma python_do_range_loop_raised (self self2 : ScriptHost) (start stop : Z)
    (def : FunctionDef) (e : PyExc) :
  defines def (module_dict self) →
  while_batches (Z.to_nat (stop - (start - 1))) (def_function def)
                (entered self start stop def) (start - 1) stop
  = Some (self2, Raise e) →
  python_do_range self start stop (Parsed def)
  = Some (self2, Raise (Uncaught e))
  ∧ (stays_bound fname (def_function def) →
     is_Some (module_dict self2 !! fname)).
Proof.
  intros Hdef Hw. rewrite (python_do_range_defined _ _ _ _ Hdef), Hw.
  split; [done|]. intros Hsb.
  apply (while_batches_namespace (λ d, is_Some (d !! fname))
           _ _ Hsb _ _ _ _ _ Hw). apply Hdef.
Qed.

(** What a call on a range inside the buffer does, whatever the code is
    and whatever the function returns: it ends; the lines before index
    [start - 1] and from index [stop] on are kept; every read, write and
    call stays between them; the function is called with the numbers
    [start], [start + 1], ...; a call that returns has read the whole
    range. *)
Lemma python_do_range_steps (self : ScriptHost) (start stop : Z)
    (code : Source FunctionDef) :
  1 ≤ start → start - 1 ≤ stop → stop ≤ len (buffer self) →
  ∃ self' r evs mid,
    python_do_range self start stop code = Some (self', r)
    ∧ buffer self' = take (Z.to_nat (start - 1)) (buffer self) ++ mid
                     ++ drop (Z.to_nat stop) (buffer self)
    ∧ events self' = events self ++ evs
    ∧ Forall (within (start - 1) stop) evs
    ∧ (∃ n, call_numbers evs = seqZ start n ∧ 0 ≤ n
            ∧ (r = Return tt → n = stop - start + 1))
    ∧ (r = Return tt → read_indices evs = seqZ (start - 1) (stop - start + 1)).
Proof.
  intros H1 H2 H3.
  (* a call that is left before the loop *)
  assert (∀ self1 (t : Thrown),
            buffer self1 = buffer self → events self1 = events self →
            ∃ self' r evs mid,
              Some (self1, Raise (A:=unit) t) = Some (self', r)
              ∧ buffer self' = take (Z.to_nat (start - 1)) (buffer self) ++ mid
                               ++ drop (Z.to_nat stop) (buffer self)
              ∧ events self' = events self ++ evs
              ∧ Forall (within (start - 1) stop) evs
              ∧ (∃ n, call_numbers evs = seqZ start n ∧ 0 ≤ n
                      ∧ (r = Return tt → n = stop - start + 1))
              ∧ (r = Return tt →
                 read_indices evs = seqZ (start - 1) (stop - start + 1)))
    as Hearly.
  { intros self1 t Hb He.
    exists self1, (Raise t), [], (slice (buffer self) (start - 1) stop).
    split; [done|]. rewrite Hb, He, app_nil_r.
    split; [apply take_slice_drop; lia|]. split; [done|]. split; [done|].
    split; [|done]. exists 0. by repeat split. }
  destruct code as [msg|def]; [by apply Hearly|].
  destruct (python_do_range_not_defined self start stop def)
    as [Hdef|[_ [e ->]]]; [|by apply Hearly].
  rewrite (python_do_range_defined _ _ _ _ Hdef).
  set (pre := take (Z.to_nat (start - 1)) (buffer self)).
  set (post := drop (Z.to_nat stop) (buffer self)).
  set (self1 := entered self start stop def).
  assert (len pre = start - 1) as Hpre.
  { unfold pre, len in *. rewrite length_take. lia. }
  assert (framed pre post stop self1) as Hf.
  { exists (slice (buffer self) (start - 1) stop). split.
    - apply take_slice_drop; lia.
    - rewrite len_slice by lia. lia. }
  destruct (while_batches_steps (def_function def) pre post stop
              (Z.to_nat (stop - (start - 1))) self1 (start - 1) Hf)
    as (self2 & r & evs & Hw & (Hf2 & _ & He2 & Hin2)
        & (n & Hcn & Hn0 & Hn) & Hrd); [lia|lia|].
  destruct Hf2 as (mid & Hb2 & _).
  rewrite Hw. rewrite Hpre in Hin2.
  replace (start - 1 + 1) with start in Hcn by lia.
  destruct r as [[]|e].
  - destruct (delitem (module_dict self2) fname) as [d|e].
    + eexists _, (Return tt), evs, mid. split; [reflexivity|].
      simpl. repeat split; try done.
      * exists n. repeat split; try done. intros _. rewrite Hn by done. lia.
      * intros _. rewrite Hrd by done. f_equal. lia.
    + eexists _, (Raise (Uncaught e)), evs, mid. split; [reflexivity|].
      repeat split; try done. exists n. repeat split; try done.
  - eexists _, (Raise (Uncaught e)), evs, mid. split; [reflexivity|].
    repeat split; try done. exists n. repeat split; try done.
Qed.



(** C3 fails on the code: when the function returns something that is
    neither a string nor [None], the [TypeError] leaves the method from
    inside the loop and the [del] after the loop is not reached:
    [_vim_pydo] is still bound in the namespace. *)
Theorem python_do_range_error_keeps_function :
  ∃ self' e,
    python_do_range (__init__ ["a"]) 1 1 (Parsed (only_body returns_int))
    = Some (self', Raise (Uncaught e))
    ∧ exc_class e = TypeError
    ∧ exc_msg e = "pydo should return a string or None, found int instead"
    ∧ module_dict (__init__ ["a"]) !! fname = None
    ∧ module_dict self' !! fname = Some (VFunc fname).
Proof. eexists _, _. by vm_compute. Qed.

(** The same on every range inside the buffer, for a function that is
    defined and whose calls leave its name bound: the name is deleted
    exactly when the call returns. *)
Lemma python_do_range_function_after (self : ScriptHost) (start stop : Z)
    (def : FunctionDef) :
  1 ≤ start → start - 1 ≤ stop → stop ≤ len (buffer self) →
  defines def (module_dict self) →
  stays_bound fname (def_function def) →
  ∃ self' r,
    python_do_range self start stop (Parsed def) = Some (self', r)
    ∧ (r = Return tt → module_dict self' !! fname = None)
    ∧ (∀ t, r = Raise t → is_Some (module_dict self' !! fname)).
Proof.
  intros H1 H2 H3 Hdef Hsb.
  destruct (python_do_range_steps self start stop (Parsed def) H1 H2 H3)
    as (self' & r & evs & mid & Hrun & _).
  exists self', r. split; [done|].
  rewrite (python_do_range_defined _ _ _ _ Hdef) in Hrun.
  destruct (while_batches _ _ _ _ _) as [[self2 [[]|e]]|] eqn:Hw;
    [| |discriminate].
  - destruct (python_do_range_after_loop _ _ _ _ _ Hdef Hw)
      as (self3 & r3 & Hrun3 & _ & _ & Hret).
    destruct (Hret Hsb) as (-> & Hd3 & Hn3).
    rewrite (python_do_range_defined _ _ _ _ Hdef), Hw in Hrun3.
    rewrite Hrun3 in Hrun. injection Hrun as <- <-. by split.
  - destruct (python_do_range_loop_raised _ _ _ _ _ _ Hdef Hw) as [_ Hbound].
    injection Hrun as <- <-. split; [done|]. intros _ _. by apply Hbound.
Qed.

(** The exception of the function itself leaves [python_do_range] as it
    is, the function still bound, and the lines pending are not written. *)
Lemma python_do_range_function_raises :
  ∃ self',
    python_do_range (__init__ ["a"]) 1 1 (Parsed (only_body raises))
    = Some (self', Raise (Uncaught
                            (mkExc (Other "ValueError" true) "bad line" [user_frame])))
    ∧ module_dict self' !! fname = Some (VFunc fname)
    ∧ buffer self' = ["a"].
Proof. eexists. by vm_compute. Qed.

(** C5, as stated, fails: on the range (1, 2) two lines are read and
    written, the lines numbered 1 and 2, at the indices 0 and 1.  The
    interval from 1 inclusive to 2 exclusive holds one number only, so
    whichever way lines are counted, a line outside it was changed. *)
Lemma python_do_range_changes_line_stop :
  ∃ self',
    python_do_range (__init__ ["a"; "b"; "c"]) 1 2 (Parsed (only_body double))
    = Some (self', Return tt)
    ∧ events self' = [GetLines 0 2; CallFunction "a" 1; CallFunction "b" 2;
                      SetLines 0 2 ["aa"; "bb"]]
    ∧ buffer self' = ["aa"; "bb"; "c"]
    ∧ buffer self' !! 0%nat ≠ buffer (__init__ ["a"; "b"; "c"]) !! 0%nat
    ∧ buffer self' !! 1%nat ≠ buffer (__init__ ["a"; "b"; "c"]) !! 1%nat.
Proof. eexists. by vm_compute. Qed.

(** C5, amended: for [1 <= start <= stop] inside the buffer,
    [python_do_range] ends, and every bulk read and write it makes is on an
    interval of indices between [start - 1] and [stop], that is on lines
    among those numbered [start] to [stop], [stop] included; when it
    returns, the reads have covered exactly these lines, each once; the
    lines before line [start] and the lines after line [stop] are kept, in
    order, at the two ends of the buffer. *)
Theorem python_do_range_touches_start_to_stop (self : ScriptHost)
    (start stop : Z) (code : Source FunctionDef) :
  1 ≤ start → start ≤ stop → stop ≤ len (buffer self) →
  ∃ self' r evs mid,
    python_do_range self start stop code = Some (self', r)
    ∧ events self' = events self ++ evs
    ∧ Forall (within (start - 1) stop) evs
    ∧ (r = Return tt → read_indices evs = seqZ (start - 1) (stop - start + 1))
    ∧ buffer self' = take (Z.to_nat (start - 1)) (buffer self) ++ mid
                     ++ drop (Z.to_nat stop) (buffer self).
Proof.
  intros H1 H2 H3.
  destruct (python_do_range_steps self start stop code)
    as (self' & r & evs & mid & Hrun & Hb & He & Hin & _ & Hrd); [lia..|].
  by exists self', r, evs, mid.
Qed.

Lemma python_do_range_touches_start_to_stop_witness :
  ∃ self' r evs mid,
    python_do_range (__init__ ["a"; "b"; "c"]) 1 2 (Parsed (only_body double))
    = Some (self', r)
    ∧ events self' = events (__init__ ["a"; "b"; "c"]) ++ evs
    ∧ Forall (within (1 - 1) 2) evs
    ∧ (r = Return tt → read_indices evs = seqZ (1 - 1) (2 - 1 + 1))
    ∧ buffer self' = take (Z.to_nat (1 - 1)) (buffer (__init__ ["a"; "b"; "c"]))
                     ++ mid
                     ++ drop (Z.to_nat 2) (buffer (__init__ ["a"; "b"; "c"])).
Proof.
  apply (python_do_range_touches_start_to_stop (__init__ ["a"; "b"; "c"]) 1 2
           (Parsed (only_body double))); [lia|lia|].
  vm_compute. discriminate.
Defined.

(** ** Line numbers and line texts *)

(** The write made when [None] comes after pending lines covers one line
    less than it writes: the buffer grows by a line and what follows is
    shifted. *)
Lemma python_do_range_skip_after_pending :
  ∃ self',
    python_do_range (__init__ ["a"; "b"; "c"]) 1 3
                    (Parsed (only_body (skip_at 2)))
    = Some (self', Return tt)
    ∧ events self' = [GetLines 0 3; CallFunction "a" 1; CallFunction "b" 2;
                      SetLines 0 0 ["a"]; CallFunction "c" 3;
                      SetLines 2 3 ["c"]]
    ∧ buffer self' = ["a"; "a"; "c"; "c"].
Proof. eexists. by vm_compute. Qed.

(** C6 fails on the code once a second batch is read after such a write:
    in a buffer of 5001 numbered lines, with [None] returned for line 2,
    the call that passes the line number 5001 passes the text of line
    5000. *)
Theorem python_do_range_second_batch_line_number :
  ∃ self',
    python_do_range (__init__ (numbered 5001)) 1 5001
                    (Parsed (only_body (skip_at 2)))
    = Some (self', Return tt)
    ∧ numbered 5001 !! 5000%nat = Some "5001"
    ∧ numbered 5001 !! 4999%nat = Some "5000"
    ∧ calls_of (events self') !! 5000%nat = Some ("5000", 5001).
Proof. eexists. by vm_compute. Qed.

(** ** A function that returns [None] for one line *)

(** Where the function returns each line as it is, the loop collects the
    lines and writes nothing. *)
Lemma for_lines_identity (function : Body) :
  ∀ lines self sstart newlines linenr,
    (∀ n line d, linenr ≤ n < linenr + len lines →
                 (function line n d).2 = Return (VStr line)) →
    ∃ self',
      for_lines function lines self sstart newlines linenr
      = (self', Return (sstart, newlines ++ lines, None))
      ∧ buffer self' = buffer self.
Proof.
  induction lines as [|line lines IH]; intros self sstart newlines linenr Hid.
  - exists self. by rewrite app_nil_r.
  - assert (len (line :: lines) = len lines + 1) as Hcons by len_lia.
    pose proof (len_nonneg lines).
    simpl. rewrite Hid by lia.
    destruct (IH (set_module_dict
                    (record_event self (CallFunction line linenr))
                    (function line linenr (module_dict self)).1)
                 sstart (newlines ++ [line]) (linenr + 1))
      as (self' & Hfor & Hb).
    { intros n l d Hn. apply Hid. lia. }
    exists self'. rewrite Hfor, <- app_assoc. done.
Qed.

(** Writing back the lines that were read from the same place. *)
Lemma flush_slice (self : ScriptHost) (a b : Z) :
  0 ≤ a → a ≤ b → b ≤ len (buffer self) →
  ∃ self',
    flush self a (slice (buffer self) a b) = (self', Return tt)
    ∧ buffer self' = buffer self.
Proof.
  intros Ha Hab Hb.
  pose proof (len_slice (buffer self) a b Ha Hab Hb) as Hlen.
  pose proof (splice_slice (buffer self) a b Ha Hab Hb) as Hsp.
  destruct (slice (buffer self) a b) as [|l ls] eqn:Hs.
  - by exists self.
  - unfold flush, set_lines. simpl.
    rewrite in_bounds_true by lia.
    eexists. split; [reflexivity|]. simpl. by rewrite Hsp.
Qed.

(** If the line for which [None] is returned is the first line of a
    batch, or is not in the range, every batch writes back what it read. *)
Lemma while_batches_skip_first (function : Body) (k stop : Z) :
  (∀ line d, (function line k d).2 = Return VNone) →
  (∀ n line d, n ≠ k → (function line n d).2 = Return (VStr line)) →
  ∀ fuel self start,
    0 ≤ start → stop ≤ len (buffer self) →
    (Z.to_nat (stop - start) ≤ fuel)%nat →
    (k - 1 - start) mod 5000 = 0 →
    ∃ self',
      while_batches fuel function self start stop = Some (self', Return tt)
      ∧ buffer self' = buffer self.
Proof.
  intros Hnone Hid.
  induction fuel as [|fuel IH]; intros self start H0 Hstop Hfuel Hmod.
  { exists self. simpl. by rewrite bool_decide_eq_false_2 by lia. }
  destruct (decide (start < stop)) as [Hlt|Hge].
  2:{ exists self. simpl. by rewrite bool_decide_eq_false_2. }
  simpl. rewrite bool_decide_eq_true_2 by done.
  set (sstop := Z.min (start + 5000) stop).
  assert (start < sstop ∧ sstop ≤ stop ∧ sstop ≤ start + 5000)
    as (Hs1 & Hs2 & Hs3) by (unfold sstop; lia).
  unfold get_lines. simpl. rewrite in_bounds_true by lia.
  assert (len (slice (buffer self) start sstop) = sstop - start) as Hlen
    by (apply len_slice; lia).
  set (self1 := record_event self (GetLines start sstop)).
  (* the rest of the loop, once the batch has been written back *)
  assert (∀ self3, buffer self3 = buffer self →
                   (sstop = stop ∨ sstop = start + 5000) →
                   ∃ self', while_batches fuel function self3 sstop stop
                            = Some (self', Return tt)
                            ∧ buffer self' = buffer self) as Hrest.
  { intros self3 Hb3 Hcase.
    destruct Hcase as [Hend|Hfull].
    - exists self3. split; [|done].
      destruct fuel; simpl; by rewrite bool_decide_eq_false_2 by lia.
    - destruct (IH self3 sstop) as (self' & Hw & Hb);
        [lia|rewrite Hb3; lia|lia| |].
      + rewrite Hfull.
        replace (k - 1 - (start + 5000)) with (k - 1 - start + (-1) * 5000)
          by lia.
        by rewrite Z.mod_add.
      + exists self'. split; [done|]. congruence. }
  assert (sstop = stop ∨ sstop = start + 5000) as Hcase by (unfold sstop; lia).
  destruct (decide (k = start + 1)) as [Hk|Hk].
  - (* the first line of the batch is the one that is skipped *)
    destruct (slice (buffer self) start sstop) as [|l0 rest] eqn:Hsl.
    { exfalso. unfold len in Hlen. simpl in Hlen. lia. }
    pose proof (slice_cons _ _ _ _ _ H0 Hsl) as Hrest_eq.
    assert (len rest = sstop - (start + 1)) as Hlr.
    { unfold len in *. simpl in Hlen. lia. }
    simpl. rewrite <- Hk, Hnone.
    set (self1' := set_module_dict (record_event self1 (CallFunction l0 k))
                     (function l0 k (module_dict self)).1).
    destruct (for_lines_identity function rest self1' (start + (len [] + 1))
                [] (k + 1)) as (self2 & Hfor & Hb2).
    { intros n line d Hn. apply Hid. lia. }
    rewrite Hfor. simpl.
    fold (flush self2 (start + (len [] + 1)) rest).
    replace (start + (len [] + 1)) with (start + 1) by len_lia.
    destruct (flush_slice self2 (start + 1) sstop) as (self3 & Hfl & Hb3);
      [lia|lia|rewrite Hb2; simpl; lia|].
    rewrite Hb2 in Hfl. simpl in Hfl. rewrite <- Hrest_eq in Hfl.
    rewrite Hfl. simpl in Hb2.
    apply Hrest; [congruence|done].
  - (* no line of the batch is skipped *)
    assert (k - 1 - start < 0 ∨ 5000 ≤ k - 1 - start) as Hout.
    { destruct (Z.mod_divide (k - 1 - start) 5000) as [Hdiv _]; [lia|].
      destruct (Hdiv Hmod) as [q Hq]. lia. }
    destruct (for_lines_identity function (slice (buffer self) start sstop)
                self1 start [] (start + 1)) as (self2 & Hfor & Hb2).
    { intros n line d Hn. apply Hid. lia. }
    rewrite Hfor. simpl.
    fold (flush self2 start (slice (buffer self) start sstop)).
    destruct (flush_slice self2 start sstop) as (self3 & Hfl & Hb3);
      [lia|lia|rewrite Hb2; simpl; lia|].
    rewrite Hb2 in Hfl. simpl in Hfl. rewrite Hfl. simpl in Hb2.
    apply Hrest; [congruence|done].
Qed.

(** C4, as stated, fails: [None] does not remove the line.  With [None]
    returned for line 1 of three lines, and every other line returned as
    it is, the three lines are all still there. *)
Lemma python_do_range_none_keeps_line :
  ∃ self',
    python_do_range (__init__ ["a"; "b"; "c"]) 1 3
                    (Parsed (only_body (skip_at 1)))
    = Some (self', Return tt)
    ∧ events self' = [GetLines 0 3; CallFunction "a" 1; CallFunction "b" 2;
                      CallFunction "c" 3; SetLines 1 3 ["b"; "c"]]
    ∧ buffer self' = ["a"; "b"; "c"]
    ∧ buffer self' ≠ ["b"; "c"].
Proof. eexists. by vm_compute. Qed.

(** C4, amended: for a range inside the buffer and a function that
    returns [None] for line [k] and every other line as it is, where line
    [k] is the first line of its batch of 5000 (nothing is pending when
    [None] is returned), [python_do_range] leaves the buffer as it was:
    line [k] is skipped, not removed, and all lines keep their order.
    The call returns, with [_vim_pydo] deleted, when the code defines the
    function and the function leaves its own name bound.  The statement
    does not need [k] to be in the range. *)
Theorem python_do_range_skipped_line_is_kept (self : ScriptHost)
    (start stop k : Z) (def : FunctionDef) :
  1 ≤ start → start ≤ stop → stop ≤ len (buffer self) →
  (k - start) mod 5000 = 0 →
  (∀ line d, (def_function def line k d).2 = Return VNone) →
  (∀ n line d, n ≠ k → (def_function def line n d).2 = Return (VStr line)) →
  ∃ self' r,
    python_do_range self start stop (Parsed def) = Some (self', r)
    ∧ buffer self' = buffer self
    ∧ (defines def (module_dict self) →
       stays_bound fname (def_function def) →
       r = Return tt ∧ module_dict self' !! fname = None).
Proof.
  intros H1 H2 H3 Hmod Hnone Hid.
  destruct (python_do_range_not_defined self start stop def)
    as [Hdef|[Hnot [e ->]]].
  2:{ eexists _, _. split; [reflexivity|]. by split. }
  destruct (while_batches_skip_first (def_function def) k stop Hnone Hid
              (Z.to_nat (stop - (start - 1))) (entered self start stop def)
              (start - 1))
    as (self2 & Hw & Hb); [lia|done|lia| |].
  { by replace (k - 1 - (start - 1)) with (k - start) by lia. }
  destruct (python_do_range_after_loop _ _ _ _ _ Hdef Hw)
    as (self' & r & Hrun & Hb' & _ & Hret).
  exists self', r. split; [done|]. split; [by rewrite Hb', Hb|].
  intros _ Hsb. by destruct (Hret Hsb) as (-> & _ & ->).
Qed.

Lemma python_do_range_skipped_line_is_kept_witness :
  ∃ self',
    python_do_range (__init__ ["a"; "b"; "c"]) 1 3
                    (Parsed (only_body (skip_at 1)))
    = Some (self', Return tt)
    ∧ buffer self' = buffer (__init__ ["a"; "b"; "c"])
    ∧ module_dict self' !! fname = None.
Proof.
  destruct (python_do_range_skipped_line_is_kept (__init__ ["a"; "b"; "c"])
              1 3 1 (only_body (skip_at 1)))
    as (self' & r & Hrun & Hb & Hret).
  - lia.
  - lia.
  - vm_compute. discriminate.
  - reflexivity.
  - intros line d. reflexivity.
  - intros n line d Hn. unfold only_body, skip_at. simpl.
    by rewrite bool_decide_eq_false_2.
  - destruct Hret as [-> Hn].
    + apply defines_only_body.
    + by apply stays_bound_same.
    + by exists self'.
Defined.

(** ** The namespace across calls *)

Lemma exec_guarded_dict (method : string) (self : ScriptHost)
    (script : Source Statements) :
  module_dict (exec_guarded method self script).1
  = (exec script (module_dict self)).1.
Proof.
  unfold exec_guarded. destruct (exec script (module_dict self)) as [d [u|e]];
    [done|]. by destruct (is_Exception (exc_class e)).
Qed.

(** With the fuel that [python_do_range] gives it, the loop ends on every
    input, also when the range is not inside the buffer. *)
Lemma while_batches_total (function : Body) (stop : Z) :
  ∀ fuel self start,
    (Z.to_nat (stop - start) ≤ fuel)%nat →
    ∃ self' r, while_batches fuel function self start stop = Some (self', r).
Proof.
  induction fuel as [|fuel IH]; intros self start Hfuel.
  { exists self, (Return tt). simpl. by rewrite bool_decide_eq_false_2 by lia. }
  simpl. case_bool_decide as Hlt; [|by exists self, (Return tt)].
  unfold get_lines. simpl.
  destruct (in_bounds _ _ _); [|by eexists _, _].
  destruct (for_lines _ _ _ _ _ _) as [self1 [[[sstart newlines] exception]|e]];
    [|by eexists _, _].
  destruct (match newlines with
            | [] => (self1, Return tt)
            | _ :: _ => set_lines self1 sstart (sstart + len newlines) newlines
            end) as [self2 [u|e]]; [|by eexists _, _].
  destruct exception as [e|]; [by eexists _, _|].
  apply IH. lia.
Qed.

(** [python_do_range] ends on every input. *)
Lemma python_do_range_total (self : ScriptHost) (start stop : Z)
    (code : Source FunctionDef) :
  ∃ self' r, python_do_range self start stop code = Some (self', r).
Proof.
  destruct code as [msg|def]; [by eexists _, _|].
  destruct (python_do_range_not_defined self start stop def)
    as [Hdef|[_ [e ->]]]; [|by eexists _, _].
  rewrite (python_do_range_defined _ _ _ _ Hdef).
  destruct (while_batches_total (def_function def) stop
              (Z.to_nat (stop - (start - 1))) (entered self start stop def)
              (start - 1)) as (self2 & r & ->); [lia|].
  destruct r as [u|e]; [|by eexists _, _].
  destruct (delitem _ _); by eexists _, _.
Qed.

(** A binding that the code of a [pydo] leaves alone is still there after
    the call, however the call ends. *)
Lemma python_do_range_keeps_binding (self : ScriptHost) (start stop : Z)
    (code : Source FunctionDef) (name : string) (value : Value) :
  pydo_keeps name value code →
  module_dict self !! name = Some value →
  ∃ self' r,
    python_do_range self start stop code = Some (self', r)
    ∧ module_dict self' !! name = Some value.
Proof.
  destruct code as [msg|def].
  { intros _ Hb. by eexists _, _. }
  intros (Hne & Hrest & Hfun) Hb.
  assert (module_dict (entered self start stop def) !! name = Some value)
    as Hb1.
  { simpl. unfold exec_def. apply Hrest. by rewrite lookup_insert_ne. }
  destruct (python_do_range_not_defined self start stop def)
    as [Hdef|[_ [e ->]]]; [|by eexists _, _].
  rewrite (python_do_range_defined _ _ _ _ Hdef).
  destruct (while_batches_total (def_function def) stop
              (Z.to_nat (stop - (start - 1))) (entered self start stop def)
              (start - 1)) as (self2 & r & Hw); [lia|].
  rewrite Hw.
  pose proof (while_batches_namespace (λ d, d !! name = Some value)
                _ _ Hfun _ _ _ _ _ Hw Hb1) as Hb2.
  destruct r as [u|e]; [|by eexists _, _].
  unfold delitem. destruct (module_dict self2 !! fname);
    eexists _, _; (split; [reflexivity|]); simpl; [|done].
  by rewrite lookup_delete_ne.
Qed.

(** A request whose user code leaves a binding alone leaves it in the
    namespace of the host. *)
Lemma dispatch_keeps_binding (files : string → option (Source Statements))
    (self : ScriptHost) (rq : Request) (name : string) (value : Value) :
  keeps_binding files name value rq →
  module_dict self !! name = Some value →
  ∃ self' reply,
    dispatch files self rq = Some (self', reply)
    ∧ module_dict self' !! name = Some value.
Proof.
  intros Hk Hb. destruct rq as [script a b|file_path a b|expr|start stop code];
    simpl in *.
  - pose proof (exec_guarded_dict "python_execute"
                  (_set_current_range self a b) script) as Hd.
    unfold python_execute.
    destruct (exec_guarded _ _ _) as [self' r]. exists self', (no_value r).
    split; [done|]. simpl in Hd. rewrite Hd.
    destruct script as [msg|run]; [done|]. by apply Hk.
  - unfold python_execute_file.
    destruct (files file_path) as [[msg|run]|]; [by eexists _, _| |by eexists _, _].
    pose proof (exec_guarded_dict "python_execute_file"
                  (_set_current_range self a b) (Parsed run)) as Hd.
    destruct (exec_guarded _ _ _) as [self' r]. exists self', (no_value r).
    split; [done|]. simpl in Hd. rewrite Hd. by apply Hk.
  - unfold python_eval.
    destruct expr as [msg|run]; simpl; [by eexists _, _|].
    specialize (Hk _ Hb).
    destruct (run (module_dict self)) as [d [v|e]]; by eexists _, _.
  - destruct (python_do_range_keeps_binding self start stop code name value
                Hk Hb) as (self' & r & Hrun & Hd).
    rewrite Hrun. by exists self', (no_value r).
Qed.

Lemma serve_keeps_binding (files : string → option (Source Statements))
    (name : string) (value : Value) :
  ∀ rqs self,
    Forall (keeps_binding files name value) rqs →
    module_dict self !! name = Some value →
    ∃ self' replies,
      serve files self rqs = Some (self', replies)
      ∧ module_dict self' !! name = Some value.
Proof.
  induction rqs as [|rq rqs IH]; intros self Hall Hb.
  - by exists self, [].
  - apply Forall_cons in Hall as [Hrq Hall].
    destruct (dispatch_keeps_binding files self rq name value Hrq Hb)
      as (self1 & reply & Hd & Hb1).
    destruct (IH self1 Hall Hb1) as (self2 & replies & Hs & Hb2).
    exists self2, (reply :: replies). simpl. by rewrite Hd, Hs.
Qed.

(** C7: every operation runs the user's code against the namespace that
    the operation before it left, so a name bound by a [python_execute]
    call is bound to the same value for every later call on the instance,
    whatever requests come between, as long as their own code leaves the
    name alone (for a [pydo], the statements of its text and every call
    of its function): evaluating the name returns the value, and a script
    that is executed next starts from a namespace in which it is bound. *)
Theorem namespace_shared_across_calls
    (files : string → option (Source Statements)) (self : ScriptHost)
    (script : Source Statements) (a b : Z) (rqs : list Request)
    (name : string) (value : Value) :
  module_dict (python_execute self script a b).1 !! name = Some value →
  Forall (keeps_binding files name value) rqs →
  ∃ self' replies,
    serve files (python_execute self script a b).1 rqs = Some (self', replies)
    ∧ module_dict self' !! name = Some value
    ∧ python_eval self' (Parsed (name_expr name)) = (self', Return value)
    ∧ ∀ script' a' b',
        module_dict (python_execute self' script' a' b').1
        = (exec script' (module_dict self')).1.
Proof.
  intros Hb Hall.
  destruct (serve_keeps_binding files name value rqs _ Hall Hb)
    as (self' & replies & Hs & Hb').
  exists self', replies. split; [done|]. split; [done|]. split.
  - unfold python_eval, eval, name_expr. rewrite Hb'. by destruct self'.
  - intros script' a' b'. unfold python_execute.
    by rewrite exec_guarded_dict.
Qed.

(** The requests [x = 3], then a [pydo] over the buffer whose function
    rebinds another global, and the evaluation of [1], with [x] evaluated
    afterwards. *)
Lemma namespace_shared_across_calls_witness :
  ∃ self' replies,
    serve (λ _, None)
      (python_execute (__init__ ["a"]) (Parsed (assign "x" (VInt 3))) 1 1).1
      [DoRange 1 1 (Parsed (only_body remembers_last)); Evaluate one_expr]
    = Some (self', replies)
    ∧ module_dict self' !! "x" = Some (VInt 3)
    ∧ python_eval self' (Parsed (name_expr "x")) = (self', Return (VInt 3))
    ∧ ∀ script' a' b',
        module_dict (python_execute self' script' a' b').1
        = (exec script' (module_dict self')).1.
Proof.
  apply (namespace_shared_across_calls (λ _, None) (__init__ ["a"])
           (Parsed (assign "x" (VInt 3))) 1 1
           [DoRange 1 1 (Parsed (only_body remembers_last)); Evaluate one_expr]
           "x" (VInt 3)).
  - reflexivity.
  - repeat constructor.
    + discriminate.
    + intros d Hd. exact Hd.
    + intros line linenr d Hd. simpl. by rewrite lookup_insert_ne.
    + intros d Hd. exact Hd.
Defined.

(** The namespace is the one the function runs in: a global that the
    function of a [pydo] rebinds has its new value for the requests that
    follow.  Here [x = 3] is executed, then a [pydo] with the body
    [global x; x = 4] runs on one line, and [x] evaluates to 4. *)
Lemma pydo_function_rebinds_global :
  ∃ self' replies,
    serve (λ _, None) (__init__ ["a"])
      [Execute (Parsed (assign "x" (VInt 3))) 1 1;
       DoRange 1 1 (Parsed (only_body (λ _ _ d, (<["x" := VInt 4]> d,
                                                  Return VNone))));
       Evaluate (Parsed (name_expr "x"))]
    = Some (self', replies)
    ∧ replies = [Return None; Return None; Return (Some (VInt 4))].
Proof. eexists _, _. by vm_compute. Qed.

(** ** The import hook *)

Lemma _find_module_total (fs : FileSystem) (fullname : string) :
  ∀ fuel oldtail path,
    (String.length oldtail ≤ fuel)%nat →
    ∃ r, _find_module fuel fs fullname oldtail path = Some r.
Proof.
  intros fuel oldtail path Hfuel.
  destruct fuel as [|fuel]; simpl.
  - destruct oldtail; [|simpl in Hfuel; lia]. by eexists.
  - destruct (String.index 0 "." oldtail) as [[|i]|]; try by eexists.
    destruct (imp_find_module fs _ path); by eexists.
Qed.

(** If no directory of the path holds the name, [imp.find_module] raises
    [ImportError]. *)
Lemma imp_find_module_missing (fs : FileSystem) (name : string) :
  ∀ path,
    Forall (λ d, module_at fs d name = None) path →
    imp_find_module fs name path
    = Raise (mkExc ImportError ("No module named " +:+ name) []).
Proof.
  induction path as [|d path IH]; intros Hall; [done|].
  apply Forall_cons in Hall as [Hd Hall]. simpl. rewrite Hd. by apply IH.
Qed.

(** If no directory of the path holds a module or a plain directory of
    the name, [PathFinder.find_spec] finds nothing. *)
Lemma PathFinder_find_spec_missing (fs : FileSystem) (fullname : string) :
  ∀ path,
    Forall (λ d, module_at fs d (last_component fullname) = None
                 ∧ portion_at fs d (last_component fullname) = None) path →
    PathFinder_find_spec fs fullname path = None.
Proof.
  unfold PathFinder_find_spec.
  induction path as [|d path IH]; intros Hall; [done|].
  apply Forall_cons in Hall as [[Hd Hp] Hall]. simpl. rewrite Hd, Hp.
  by apply IH.
Qed.

(** A search root that holds a plain directory [ns] and no module of
    that name: [find_spec] finds a namespace package, which
    [find_module] does not see. *)
Lemma find_spec_namespace_package :
  find_spec (mkFS (λ p, bool_decide (p = "rt" ∨ p = "rt/pythonx"))
                  (λ _ _, None)
                  (λ d n, if bool_decide (d = "rt/pythonx" ∧ n = "ns")
                          then Some "rt/pythonx/ns" else None))
            ["rt"] "ns" None
  = Some (NamespaceSpec ["rt/pythonx/ns"])
  ∧ find_module (mkFS (λ p, bool_decide (p = "rt" ∨ p = "rt/pythonx"))
                      (λ _ _, None)
                      (λ d n, if bool_decide (d = "rt/pythonx" ∧ n = "ns")
                              then Some "rt/pythonx/ns" else None))
                ["rt"] "ns" None
    = Some (Return None).
Proof. split; by vm_compute. Qed.

(** The finder finds what is there. *)
Lemma find_module_present :
  find_module sample_fs ["rt"; "gone"] "pkg" None
  = Some (Return (Some (mkLoader (mkFound "pkg" "rt/pythonx/pkg" "package")))).
Proof. reflexivity. Qed.

Lemma sample_fs_missing (d : string) : module_at sample_fs d "missing" = None.
Proof.
  simpl. rewrite bool_decide_eq_false_2; [done|]. intros [_ H]. discriminate H.
Qed.

(** C8 fails on the code for a dotted name.  The search root holds the
    package [pkg], and no directory holds a module [missing].  For the
    name [pkg.missing], [find_module] does not decline: the second call of
    [imp.find_module], made with the name and the triple that the first
    one returned, has four arguments and raises [TypeError], which the
    handler for [ImportError] lets through.  For the name [missing]
    itself [find_module] declines. *)
Theorem find_module_missing_submodule_raises :
  (∀ d, module_at sample_fs d "missing" = None)
  ∧ (∃ e, find_module sample_fs ["rt"; "gone"] "pkg.missing" None
          = Some (Raise e)
          ∧ exc_class e = TypeError)
  ∧ find_module sample_fs ["rt"; "gone"] "pkg.missing" None
    ≠ Some (Return None)
  ∧ find_module sample_fs ["rt"; "gone"] "missing" None = Some (Return None).
Proof.
  split; [exact sample_fs_missing|].
  split; [eexists; by vm_compute|].
  split; by vm_compute.
Qed.

(** The method for Python 3.4+ declines for the same name. *)
Lemma find_spec_missing_submodule_declines :
  find_spec sample_fs ["rt"; "gone"] "pkg.missing" None = None.
Proof. by vm_compute. Qed.

(** ** Lines and numbers inside one batch *)

Lemma calls_of_app evs1 evs2 :
  calls_of (evs1 ++ evs2) = calls_of evs1 ++ calls_of evs2.
Proof. apply flat_map_app. Qed.

Lemma set_lines_events (self : ScriptHost) (a b : Z) (replacement : list string) :
  events (set_lines self a b replacement).1
  = events self ++ [SetLines a b replacement].
Proof. unfold set_lines. by destruct (in_bounds _ _ _). Qed.

(** The loop calls the function on the lines it was given, in order, with
    consecutive numbers, up to the line at which it stops. *)
Lemma for_lines_calls (function : Body) :
  ∀ lines self sstart newlines linenr,
    ∃ evs k,
      events (for_lines function lines self sstart newlines linenr).1
      = events self ++ evs
      ∧ calls_of evs = zip (take k lines) (seqZ linenr (Z.of_nat k))
      ∧ (k ≤ length lines)%nat
      ∧ (∀ s nl, (for_lines function lines self sstart newlines linenr).2
                 = Return (s, nl, None) → k = length lines).
Proof.
  induction lines as [|line lines IH]; intros self sstart newlines linenr.
  { exists [], 0%nat. simpl. by rewrite app_nil_r. }
  assert (∀ self1 evs1 sstart' newlines',
            events self1 = events self ++ CallFunction line linenr :: evs1 →
            calls_of evs1 = [] →
            ∃ evs k,
              events (for_lines function lines self1 sstart' newlines'
                        (linenr + 1)).1 = events self ++ evs
              ∧ calls_of evs
                = zip (take k (line :: lines)) (seqZ linenr (Z.of_nat k))
              ∧ (k ≤ length (line :: lines))%nat
              ∧ (∀ s nl, (for_lines function lines self1 sstart' newlines'
                            (linenr + 1)).2 = Return (s, nl, None) →
                         k = length (line :: lines))) as Hgo.
  { intros self1 evs1 sstart' newlines' He1 Hc1.
    destruct (IH self1 sstart' newlines' (linenr + 1))
      as (evs & k & He & Hc & Hk & Hall).
    exists ((CallFunction line linenr :: evs1) ++ evs), (S k).
    split; [by rewrite He, He1, <- app_assoc|].
    split; [|split; [simpl; lia|intros s nl Hr; by rewrite (Hall s nl Hr)]].
    rewrite calls_of_app. simpl. rewrite Hc1, Hc. simpl.
    replace (Z.of_nat (S k)) with (Z.of_nat k + 1) by lia.
    rewrite <- seqZ_first by lia. done. }
  simpl.
  destruct (function line linenr (module_dict self)) as [d [result|e]]; simpl.
  2:{ exists [CallFunction line linenr], 1%nat. simpl.
      repeat split; [lia|]. intros s nl. discriminate. }
  destruct result;
    try (exists [CallFunction line linenr], 1%nat; simpl;
         repeat split; [lia|]; intros s nl; discriminate).
  - destruct newlines as [|l newlines]; [by apply (Hgo _ [])|].
    pose proof (set_lines_events
                  (set_module_dict
                     (record_event self (CallFunction line linenr)) d) sstart
                  (sstart + len (l :: newlines) - 1) (l :: newlines)) as Hev.
    destruct (set_lines _ _ _ _) as [self1 [u|e]]; simpl in Hev.
    + apply (Hgo _ [SetLines sstart (sstart + len (l :: newlines) - 1)
                             (l :: newlines)]); [|done].
      by rewrite Hev, <- app_assoc.
    + exists [CallFunction line linenr;
              SetLines sstart (sstart + len (l :: newlines) - 1)
                       (l :: newlines)], 1%nat.
      simpl. rewrite Hev, <- app_assoc.
      repeat split; [lia|]. intros s nl. discriminate.
  - by apply (Hgo _ []).
Qed.

Lemma flush_events (self : ScriptHost) (sstart : Z) (newlines : list string) :
  ∃ evs, events (flush self sstart newlines).1 = events self ++ evs
         ∧ calls_of evs = [].
Proof.
  destruct newlines as [|l newlines].
  - exists []. simpl. by rewrite app_nil_r.
  - exists [SetLines sstart (sstart + len (l :: newlines)) (l :: newlines)].
    split; [apply set_lines_events|done].
Qed.

(** On a range of at most 5000 lines, which is read in one batch, a call
    that returns has called the function once for each line of the
    range, in order, with the text the line had before the call and with
    its number. *)
Lemma python_do_range_single_batch_calls (self self' : ScriptHost)
    (start stop : Z) (def : FunctionDef) :
  1 ≤ start → start - 1 ≤ stop → stop ≤ len (buffer self) →
  stop - start + 1 ≤ 5000 →
  python_do_range self start stop (Parsed def) = Some (self', Return tt) →
  ∃ evs,
    events self' = events self ++ evs
    ∧ calls_of evs = zip (slice (buffer self) (start - 1) stop)
                         (seqZ start (stop - start + 1)).
Proof.
  intros H1 H2 H3 H4.
  destruct (python_do_range_not_defined self start stop def)
    as [Hdef|[_ [e ->]]]; [|discriminate].
  rewrite (python_do_range_defined _ _ _ _ Hdef).
  set (self1 := entered self start stop def).
  destruct (Z.to_nat (stop - (start - 1))) as [|fuel] eqn:Hfuel.
  - simpl. rewrite bool_decide_eq_false_2 by lia.
    destruct (delitem _ _) as [d|e]; [|discriminate]. intros [= <-].
    exists []. simpl. rewrite app_nil_r. split; [done|].
    unfold slice. replace (Z.to_nat (stop - (start - 1))) with 0%nat by lia.
    by rewrite take_0.
  - simpl. rewrite bool_decide_eq_true_2 by lia.
    replace (Z.min (start - 1 + 5000) stop) with stop by lia.
    unfold get_lines. simpl. rewrite in_bounds_true by lia.
    set (self2 := record_event self1 (GetLines (start - 1) stop)).
    set (lines := slice (buffer self) (start - 1) stop).
    assert (len lines = stop - (start - 1)) as Hlen
      by (apply len_slice; lia).
    destruct (for_lines_calls (def_function def) lines self2 (start - 1) []
                (start - 1 + 1)) as (evs & k & Hev & Hcalls & Hk & Hall).
    destruct (for_lines (def_function def) lines self2 (start - 1) []
                (start - 1 + 1))
      as [self3 [[[sstart newlines] exception]|e]]; [|discriminate].
    fold (flush self3 sstart newlines).
    destruct (flush_events self3 sstart newlines) as (evs' & Hev' & Hcalls').
    destruct (flush self3 sstart newlines) as [self4 [u|e]]; [|discriminate].
    destruct exception as [e|]; [discriminate|].
    assert (while_batches fuel (def_function def) self4 stop stop
            = Some (self4, Return tt))
      as -> by (destruct fuel; simpl; by rewrite bool_decide_eq_false_2 by lia).
    destruct (delitem _ _) as [d|e]; [|discriminate].
    intros [= <-]. simpl in *.
    exists (GetLines (start - 1) stop :: evs ++ evs').
    split.
    + rewrite Hev', Hev. by rewrite <- !app_assoc.
    + change (GetLines (start - 1) stop :: evs ++ evs')
        with ([GetLines (start - 1) stop] ++ evs ++ evs').
      rewrite !calls_of_app, Hcalls', Hcalls, app_nil_r. simpl.
      rewrite (Hall _ _ eq_refl).
      rewrite firstn_all.
      replace (start - 1 + 1) with start by lia.
      do 2 f_equal. unfold len in Hlen. lia.
Qed.

(** * Further properties *)

(** ** [setup] and [teardown] *)

Lemma list_remove_app_fresh {A : Type} `{EqDecision A} (x : A) (l : list A) :
  x ∉ l → list_remove x (l ++ [x]) = Some l.
Proof.
  induction l as [|y l IH]; intros Hx; simpl.
  - by rewrite decide_True.
  - apply not_elem_of_cons in Hx as [Hxy Hx].
    rewrite decide_False by done. by rewrite IH.
Qed.

Lemma list_remove_absent {A : Type} `{EqDecision A} (x : A) (l : list A) :
  x ∉ l → list_remove x l = None.
Proof.
  induction l as [|y l IH]; intros Hx; simpl; [done|].
  apply not_elem_of_cons in Hx as [Hxy Hx].
  rewrite decide_False by done. by rewrite IH.
Qed.

Lemma VimHook_fresh (p : Process) (n : nat) :
  hooks_known p → VimHook (next_id p + n) ∉ sys_path_hooks p.
Proof.
  unfold hooks_known. intros Hk Hin.
  rewrite Forall_forall in Hk. specialize (Hk _ Hin). simpl in Hk. lia.
Qed.

Lemma list_remove_app_first {A : Type} `{EqDecision A} (x : A) (l k : list A) :
  x ∉ l → list_remove x (l ++ x :: k) = Some (l ++ k).
Proof.
  induction l as [|y l IH]; intros Hx; simpl.
  - by rewrite decide_True.
  - apply not_elem_of_cons in Hx as [Hxy Hx].
    rewrite decide_False by done. by rewrite IH.
Qed.

Lemma teardown_setup (p : Process) :
  VIM_SPECIAL_PATH ∉ sys_path p →
  hooks_known p →
  teardown (setup p).2 (setup p).1
  = (mkProcess (sys_path p) (sys_path_hooks p) (sys_stdout p) (sys_stderr p)
               (next_id p + 3),
     Return tt).
Proof.
  intros Hpath Hk. unfold teardown, setup. simpl.
  rewrite list_remove_app_fresh by done. simpl.
  rewrite list_remove_app_fresh; [done|].
  replace (next_id p) with (next_id p + 0)%nat at 1 by lia.
  by apply VimHook_fresh.
Qed.

(** X1: [teardown] undoes [setup].  If the special path was not on
    [sys.path] before, then after [setup] and [teardown] the search path,
    the hooks and the two streams are exactly what they were: the saved
    stream objects themselves are put back. *)
Theorem teardown_undoes_setup (p : Process) :
  VIM_SPECIAL_PATH ∉ sys_path p →
  hooks_known p →
  teardown (setup p).2 (setup p).1
  = (mkProcess (sys_path p) (sys_path_hooks p) (sys_stdout p) (sys_stderr p)
               (next_id p + 3),
     Return tt).
Proof. apply teardown_setup. Qed.

Lemma teardown_undoes_setup_witness :
  teardown (setup sample_process).2 (setup sample_process).1
  = (mkProcess (sys_path sample_process) (sys_path_hooks sample_process)
               (sys_stdout sample_process) (sys_stderr sample_process)
               (next_id sample_process + 3),
     Return tt).
Proof.
  apply (teardown_undoes_setup sample_process).
  - vm_compute. intros H. apply list_elem_of_singleton in H. discriminate.
  - repeat constructor.
Defined.

Lemma sample_process_path : VIM_SPECIAL_PATH ∉ sys_path sample_process.
Proof. vm_compute. intros H. apply list_elem_of_singleton in H. discriminate. Qed.

Lemma sample_process_hooks : hooks_known sample_process.
Proof. repeat constructor. Qed.

(** X2: two hosts set up one after the other and torn down in the
    reverse order leave the search path, the hooks and the streams as
    they were before the first [setup]. *)
Theorem nested_setups_torn_down_in_reverse (p : Process) :
  VIM_SPECIAL_PATH ∉ sys_path p →
  hooks_known p →
  ∃ p3,
    teardown (setup (setup p).1).2 (setup (setup p).1).1 = (p3, Return tt)
    ∧ teardown (setup p).2 p3
      = (mkProcess (sys_path p) (sys_path_hooks p) (sys_stdout p)
                   (sys_stderr p) (next_id p + 6),
         Return tt).
Proof.
  intros Hpath Hk. unfold teardown, setup. simpl.
  rewrite <- (app_assoc (sys_path p)). simpl.
  rewrite list_remove_app_first by done.
  rewrite list_remove_app_fresh.
  2:{ intros Hin. apply elem_of_app in Hin as [Hin|Hin].
      - by apply (VimHook_fresh p 3 Hk).
      - apply list_elem_of_singleton in Hin. injection Hin. lia. }
  eexists. split; [reflexivity|]. simpl.
  rewrite list_remove_app_fresh by done. simpl.
  rewrite list_remove_app_fresh.
  2:{ replace (next_id p) with (next_id p + 0)%nat at 1 by lia.
      by apply VimHook_fresh. }
  do 2 f_equal. lia.
Qed.

Lemma nested_setups_torn_down_in_reverse_witness :
  ∃ p3,
    teardown (setup (setup sample_process).1).2 (setup (setup sample_process).1).1
    = (p3, Return tt)
    ∧ teardown (setup sample_process).2 p3
      = (mkProcess (sys_path sample_process) (sys_path_hooks sample_process)
                   (sys_stdout sample_process) (sys_stderr sample_process)
                   (next_id sample_process + 6),
         Return tt).
Proof.
  apply (nested_setups_torn_down_in_reverse sample_process).
  - exact sample_process_path.
  - exact sample_process_hooks.
Defined.

(** X3: torn down in the order of their [setup], the two hosts restore
    the search path and the hooks, but not the streams: the second
    [teardown] puts back what its host saved, which are the
    [RedirectStream] objects of the first host. *)
Theorem nested_setups_torn_down_in_order (p : Process) :
  VIM_SPECIAL_PATH ∉ sys_path p →
  hooks_known p →
  ∃ p3,
    teardown (setup p).2 (setup (setup p).1).1 = (p3, Return tt)
    ∧ teardown (setup (setup p).1).2 p3
      = (mkProcess (sys_path p) (sys_path_hooks p)
                   (RedirectStream (next_id p + 1) ToOut)
                   (RedirectStream (next_id p + 2) ToErr)
                   (next_id p + 6),
         Return tt).
Proof.
  intros Hpath Hk. unfold teardown, setup. simpl.
  rewrite <- (app_assoc (sys_path p)). simpl.
  rewrite list_remove_app_first by done.
  rewrite <- (app_assoc (sys_path_hooks p)). simpl.
  rewrite list_remove_app_first.
  2:{ replace (next_id p) with (next_id p + 0)%nat at 1 by lia.
      by apply VimHook_fresh. }
  eexists. split; [reflexivity|]. simpl.
  rewrite list_remove_app_fresh by done. simpl.
  rewrite list_remove_app_fresh by (by apply VimHook_fresh).
  do 2 f_equal. lia.
Qed.

Lemma nested_setups_torn_down_in_order_witness :
  ∃ p3,
    teardown (setup sample_process).2 (setup (setup sample_process).1).1
    = (p3, Return tt)
    ∧ teardown (setup (setup sample_process).1).2 p3
      = (mkProcess (sys_path sample_process) (sys_path_hooks sample_process)
                   (RedirectStream (next_id sample_process + 1) ToOut)
                   (RedirectStream (next_id sample_process + 2) ToErr)
                   (next_id sample_process + 6),
         Return tt).
Proof.
  apply (nested_setups_torn_down_in_order sample_process).
  - exact sample_process_path.
  - exact sample_process_hooks.
Defined.

(** X4: a second [teardown] of the same host raises the [ValueError] of
    [sys.path.remove], the special path being gone, and changes nothing. *)
Theorem teardown_twice_raises (p : Process) :
  VIM_SPECIAL_PATH ∉ sys_path p →
  hooks_known p →
  teardown (setup p).2 (teardown (setup p).2 (setup p).1).1
  = ((teardown (setup p).2 (setup p).1).1, Raise not_in_list).
Proof.
  intros Hpath Hk. rewrite (teardown_setup p Hpath Hk).
  unfold teardown. simpl. by rewrite list_remove_absent.
Qed.

Lemma teardown_twice_raises_witness :
  teardown (setup sample_process).2
           (teardown (setup sample_process).2 (setup sample_process).1).1
  = ((teardown (setup sample_process).2 (setup sample_process).1).1,
     Raise not_in_list).
Proof.
  apply (teardown_twice_raises sample_process).
  - exact sample_process_path.
  - exact sample_process_hooks.
Defined.

(** ** [RedirectStream] *)

Lemma split_lines_nonempty (s : string) : split_lines s ≠ [].
Proof.
  destruct s as [|c s]; simpl; [done|].
  case_bool_decide; [done|]. by destruct (split_lines s).
Qed.

Lemma split_lines_no_newline (s : string) :
  no_newline s → split_lines s = [s].
Proof.
  induction s as [|c s IH]; simpl; [done|].
  intros [Hc Hs]. rewrite bool_decide_eq_false_2 by done. by rewrite IH.
Qed.

Lemma split_lines_line (s t : string) :
  no_newline s →
  split_lines (s +:+ newline +:+ t) = s :: split_lines t.
Proof.
  induction s as [|c s IH]; simpl.
  - intros _. reflexivity.
  - intros [Hc Hs]. rewrite bool_decide_eq_false_2 by done.
    by rewrite (IH Hs).
Qed.

Lemma split_lines_concat (seq : list string) :
  seq ≠ [] → Forall no_newline seq →
  split_lines (String.concat newline seq) = seq.
Proof.
  induction seq as [|x seq IH]; [done|]. intros _ Hall.
  apply Forall_cons in Hall as [Hx Hall].
  destruct seq as [|y seq].
  - simpl. by apply split_lines_no_newline.
  - change (String.concat newline (x :: y :: seq))
      with (x +:+ newline +:+ String.concat newline (y :: seq)).
    rewrite split_lines_line by done. by rewrite IH.
Qed.

(** X5: [writelines] on the output stream sends the host one message,
    and nothing on the error output; for lines without line feed, and at
    least one of them, the message cut at its line feeds gives the lines
    back: no separator is missing and none is added at the end. *)
Theorem writelines_one_message (seq : list string) (o : HostOutput) :
  seq ≠ [] → Forall no_newline seq →
  ∃ text,
    RedirectStream_writelines out_write seq o
    = mkOutput (out_written o ++ [text]) (err_written o)
    ∧ split_lines text = seq.
Proof.
  intros Hne Hall. exists (String.concat newline seq).
  split; [reflexivity|]. by apply split_lines_concat.
Qed.

Lemma writelines_one_message_witness :
  ∃ text,
    RedirectStream_writelines out_write ["a"; "b c"; "d"] (mkOutput [] [])
    = mkOutput (out_written (mkOutput [] []) ++ [text])
               (err_written (mkOutput [] []))
    ∧ split_lines text = ["a"; "b c"; "d"].
Proof.
  apply (writelines_one_message ["a"; "b c"; "d"] (mkOutput [] [])).
  - discriminate.
  - repeat constructor; discriminate.
Defined.

(** ** [discover_runtime_directories] *)

(** X6: a directory is discovered exactly when it exists and is the
    [pythonx] or the [python3] subdirectory of a runtime path that exists
    itself. *)
Theorem discover_runtime_directories_spec (fs : FileSystem)
    (runtime_paths : list string) (d : string) :
  d ∈ discover_runtime_directories fs runtime_paths
  ↔ ∃ path, path ∈ runtime_paths
            ∧ os_path_exists fs path = true
            ∧ os_path_exists fs d = true
            ∧ (d = os_path_join path "pythonx" ∨ d = os_path_join path "python3").
Proof.
  induction runtime_paths as [|path rest IH]; simpl.
  - split; [by intros ?%elem_of_nil|]. by intros (? & ?%elem_of_nil & _).
  - destruct (os_path_exists fs path) eqn:Hp; simpl.
    + rewrite !elem_of_app, IH. split.
      * intros [Hd|[Hd|(q & Hq & Hrest)]].
        -- destruct (os_path_exists fs (os_path_join path "pythonx")) eqn:H1;
             [|by apply elem_of_nil in Hd].
           apply list_elem_of_singleton in Hd as ->.
           exists path. split; [apply elem_of_cons; by left|]. by auto.
        -- destruct (os_path_exists fs (os_path_join path "python3")) eqn:H2;
             [|by apply elem_of_nil in Hd].
           apply list_elem_of_singleton in Hd as ->.
           exists path. split; [apply elem_of_cons; by left|]. by auto.
        -- exists q. split; [apply elem_of_cons; by right|done].
      * intros (q & Hq & Hqe & Hde & Hd).
        apply elem_of_cons in Hq as [->|Hq].
        -- destruct Hd as [->| ->]; rewrite Hde.
           ++ left. apply list_elem_of_singleton. done.
           ++ right. left. apply list_elem_of_singleton. done.
        -- right. right. by exists q.
    + rewrite IH. split.
      * intros (q & Hq & Hrest). exists q.
        split; [apply elem_of_cons; by right|done].
      * intros (q & Hq & Hqe & Hrest).
        apply elem_of_cons in Hq as [->|Hq]; [congruence|]. by exists q.
Qed.

(** X7: the directories are discovered in the order of the runtime
    paths, the paths being looked at one by one, and there are at most
    two for each path. *)
Theorem discover_runtime_directories_order (fs : FileSystem)
    (paths1 paths2 : list string) :
  discover_runtime_directories fs (paths1 ++ paths2)
  = discover_runtime_directories fs paths1
    ++ discover_runtime_directories fs paths2
  ∧ (length (discover_runtime_directories fs paths1) ≤ 2 * length paths1)%nat.
Proof.
  split.
  - induction paths1 as [|path rest IH]; simpl; [done|].
    destruct (os_path_exists fs path); simpl; [|done].
    by rewrite IH, <- !app_assoc.
  - induction paths1 as [|path rest IH]; simpl; [lia|].
    destruct (os_path_exists fs path); simpl; [|lia].
    rewrite !length_app.
    destruct (os_path_exists fs _); destruct (os_path_exists fs _);
      simpl; lia.
Qed.

(** ** [find_module] and [load_module] *)

Lemma imp_find_module_first (fs : FileSystem) (name : string)
    (before after : list string) (d : string) (fmr : Found) :
  Forall (λ d', module_at fs d' name = None) before →
  module_at fs d name = Some fmr →
  imp_find_module fs name (before ++ d :: after) = Return fmr.
Proof.
  induction before as [|d' before IH]; intros Hall Hd; simpl.
  - by rewrite Hd.
  - apply Forall_cons in Hall as [Hd' Hall]. rewrite Hd'. by apply IH.
Qed.

Lemma imp_find_module_found (fs : FileSystem) (name : string) :
  ∀ path d fmr,
    d ∈ path → module_at fs d name = Some fmr →
    ∃ fmr', imp_find_module fs name path = Return fmr'.
Proof.
  induction path as [|d' path IH]; intros d fmr Hin Hd.
  - by apply elem_of_nil in Hin.
  - simpl. destruct (module_at fs d' name) as [fmr'|] eqn:Hd'; [by eexists|].
    apply elem_of_cons in Hin as [->|Hin]; [congruence|]. by eapply IH.
Qed.

(** X8: for a name without dots, the finder returns a loader for the
    module of the first directory of the search path that holds the
    name: directories are tried in order and later ones are not looked
    at. *)
Theorem find_module_first_directory (fs : FileSystem)
    (runtime_paths : list string) (fullname : string)
    (path : option (list string)) (before after : list string) (d : string)
    (fmr : Found) :
  String.index 0 "." fullname = None →
  path_or_get_paths fs runtime_paths path = before ++ d :: after →
  Forall (λ d', module_at fs d' fullname = None) before →
  module_at fs d fullname = Some fmr →
  find_module fs runtime_paths fullname path
  = Some (Return (Some (mkLoader fmr))).
Proof.
  intros Hdot Hpath Hbefore Hd. unfold find_module. rewrite Hpath.
  destruct (String.length fullname) as [|fuel]; simpl; rewrite Hdot;
    by rewrite (imp_find_module_first fs fullname before after d fmr).
Qed.

Lemma find_module_first_directory_witness :
  find_module sample_fs ["gone"; "rt"] "pkg" None
  = Some (Return (Some (mkLoader (mkFound "pkg" "rt/pythonx/pkg" "package")))).
Proof.
  apply (find_module_first_directory sample_fs ["gone"; "rt"] "pkg" None
           [] [] "rt/pythonx").
  - reflexivity.
  - reflexivity.
  - constructor.
  - reflexivity.
Defined.

(** X9: for a dotted name whose first component is found in the search
    path, [find_module] does not return: the call of [imp.find_module]
    with the triple that was found raises [TypeError], which the handler
    for [ImportError] lets through.  No loader for a dotted name is ever
    returned that way. *)
Theorem find_module_dotted_raises_TypeError (fs : FileSystem)
    (runtime_paths : list string) (fullname : string)
    (path : option (list string)) (i : nat) (d : string) (fmr : Found) :
  String.index 0 "." fullname = Some (S i) →
  d ∈ path_or_get_paths fs runtime_paths path →
  module_at fs d (looked_up fullname) = Some fmr →
  ∃ e, find_module fs runtime_paths fullname path = Some (Raise e)
       ∧ exc_class e = TypeError.
Proof.
  intros Hdot Hin Hd. unfold find_module, looked_up in *. rewrite Hdot in Hd.
  destruct (String.length fullname) as [|fuel] eqn:Hlen.
  { destruct fullname; [discriminate Hdot|discriminate Hlen]. }
  simpl. rewrite Hdot.
  destruct (imp_find_module_found fs _ _ d fmr Hin Hd) as [fmr' ->].
  simpl. by eexists.
Qed.

Lemma find_module_dotted_raises_TypeError_witness :
  ∃ e, find_module sample_fs ["rt"] "pkg.sub" None = Some (Raise e)
       ∧ exc_class e = TypeError.
Proof.
  apply (find_module_dotted_raises_TypeError sample_fs ["rt"] "pkg.sub" None
           2 "rt/pythonx" (mkFound "pkg" "rt/pythonx/pkg" "package")).
  - reflexivity.
  - vm_compute. apply elem_of_cons. by left.
  - reflexivity.
Defined.

(** X10: [load_module] loads a module at most once.  When a
    [load_module] has returned a module, [sys.modules] holds it under the
    name, so that every later [load_module] of the name, by whatever
    loader, returns that same module without running any file and leaves
    [sys.modules] as it is; and if the name was in [sys.modules] to begin
    with, nothing was loaded at all. *)
Theorem load_module_once (loads loads' : Loads)
    (self self' : VimModuleLoader) (fullname : string)
    (sys_modules sys_modules1 : gmap string ModuleObject) (m : ModuleObject) :
  load_module loads self fullname sys_modules = (sys_modules1, Return m) →
  sys_modules1 !! fullname = Some m
  ∧ load_module loads' self' fullname sys_modules1 = (sys_modules1, Return m)
  ∧ (is_Some (sys_modules !! fullname) →
     sys_modules1 = sys_modules ∧ sys_modules !! fullname = Some m).
Proof.
  unfold load_module, imp_load_module.
  destruct (sys_modules !! fullname) as [m0|] eqn:Hm.
  - intros [= <- <-]. by rewrite Hm.
  - destruct (loads fullname (loader_module self) sys_modules)
      as [modules [m1|e]];
      [|discriminate].
    intros [= <- <-]. rewrite lookup_insert_eq.
    split; [done|]. split; [done|]. by intros [m0 Hm0].
Qed.

(** The file of [pkg] imports another module, [dep], when it is run. *)
Lemma load_module_once_witness :
  (<["pkg" := mkModule ["rt/pythonx/pkg"]]>
     (<["dep" := mkModule []]> (∅ : gmap string ModuleObject)))
    !! "pkg" = Some (mkModule ["rt/pythonx/pkg"])
  ∧ load_module (λ _ _ modules, (modules, Raise not_in_list))
      (mkLoader (mkFound "x" "y" "z")) "pkg"
      (<["pkg" := mkModule ["rt/pythonx/pkg"]]>
         (<["dep" := mkModule []]> ∅))
    = (<["pkg" := mkModule ["rt/pythonx/pkg"]]>
         (<["dep" := mkModule []]> ∅),
       Return (mkModule ["rt/pythonx/pkg"])).
Proof.
  destruct (load_module_once
              (λ _ _ modules, (<["dep" := mkModule []]> modules,
                               Return (mkModule ["rt/pythonx/pkg"])))
              (λ _ _ modules, (modules, Raise not_in_list))
              (mkLoader (mkFound "pkg" "rt/pythonx/pkg" "package"))
              (mkLoader (mkFound "x" "y" "z")) "pkg" ∅
              (<["pkg" := mkModule ["rt/pythonx/pkg"]]>
                 (<["dep" := mkModule []]> ∅))
              (mkModule ["rt/pythonx/pkg"])) as (H1 & H2 & _).
  - reflexivity.
  - by split.
Defined.

(** X23: when none of the search roots holds the name that is looked up
    (the name itself, or its first component if it is dotted), the finder
    declines: [find_module] catches the [ImportError] and returns [None];
    and [find_spec] returns [None] when no root holds a module or a plain
    directory under the last component of the name, which is the name
    itself when it has no dot.  Neither raises. *)
Theorem finder_declines_missing_module (fs : FileSystem)
    (runtime_paths : list string) (fullname : string)
    (path : option (list string)) :
  Forall (λ d, module_at fs d (looked_up fullname) = None)
         (path_or_get_paths fs runtime_paths path) →
  find_module fs runtime_paths fullname path = Some (Return None)
  ∧ (Forall (λ d, module_at fs d (last_component fullname) = None
                  ∧ portion_at fs d (last_component fullname) = None)
            (path_or_get_paths fs runtime_paths path) →
     find_spec fs runtime_paths fullname path = None).
Proof.
  intros Hall. split.
  - unfold find_module, looked_up in *.
    destruct (String.length fullname) as [|fuel] eqn:Hlen.
    + destruct fullname; [|discriminate]. simpl.
      by rewrite (imp_find_module_missing fs EmptyString _ Hall).
    + simpl. destruct (String.index 0 "." fullname) as [[|i]|].
      * by rewrite (imp_find_module_missing fs fullname _ Hall).
      * by rewrite (imp_find_module_missing fs _ _ Hall).
      * by rewrite (imp_find_module_missing fs fullname _ Hall).
  - intros Hlast. by apply PathFinder_find_spec_missing.
Qed.

Lemma finder_declines_missing_module_witness :
  find_module sample_fs ["rt"; "gone"] "missing" None = Some (Return None)
  ∧ find_spec sample_fs ["rt"; "gone"] "missing" None = None.
Proof.
  destruct (finder_declines_missing_module sample_fs ["rt"; "gone"]
              "missing" None) as [H1 H2].
  - vm_compute. repeat constructor.
  - split; [exact H1|]. apply H2. vm_compute. repeat constructor.
Defined.

(** ** [python_do_range]: what is written *)

Lemma map_numbered_length g linenr lines :
  len (map_numbered g linenr lines) = len lines.
Proof.
  revert linenr. induction lines as [|l lines IH]; intros linenr; [done|].
  unfold len in *. simpl. specialize (IH (linenr + 1)). lia.
Qed.

Lemma map_numbered_app g linenr lines1 lines2 :
  map_numbered g linenr (lines1 ++ lines2)
  = map_numbered g linenr lines1
    ++ map_numbered g (linenr + len lines1) lines2.
Proof.
  revert linenr. induction lines1 as [|l lines1 IH]; intros linenr; simpl.
  - f_equal. len_lia.
  - rewrite IH. do 3 f_equal. len_lia.
Qed.

Lemma call_events_app linenr lines1 lines2 :
  call_events linenr (lines1 ++ lines2)
  = call_events linenr lines1 ++ call_events (linenr + len lines1) lines2.
Proof.
  revert linenr. induction lines1 as [|l lines1 IH]; intros linenr; simpl.
  - f_equal. len_lia.
  - rewrite IH. do 3 f_equal. len_lia.
Qed.

Lemma slice_middle (pre mid post : list string) (a b : Z) :
  len pre = a → len mid = b - a →
  slice (pre ++ mid ++ post) a b = mid.
Proof.
  unfold len, slice. intros Ha Hb.
  rewrite drop_app_ge by lia.
  replace (Z.to_nat a - length pre)%nat with 0%nat by lia.
  rewrite drop_0, take_app_le by lia. apply firstn_all2. lia.
Qed.

Lemma splice_middle (pre mid post : list string) (a b : Z)
    (replacement : list string) :
  len pre = a → len mid = b - a →
  splice (pre ++ mid ++ post) a b replacement = pre ++ replacement ++ post.
Proof.
  intros Ha Hb. pose proof (len_nonneg mid).
  rewrite splice_framed by lia.
  replace (Z.to_nat (a - len pre)) with 0%nat by lia.
  rewrite take_0. simpl.
  rewrite drop_ge by (unfold len in *; lia). by rewrite app_nil_r.
Qed.

(** The loop on lines for which the function returns strings: the strings
    are collected, nothing is written. *)
Lemma for_lines_strings (function : Body) (g : string → Z → string) :
  ∀ lines rest self sstart newlines linenr,
    (∀ n line d, linenr ≤ n < linenr + len lines →
                 (function line n d).2 = Return (VStr (g line n))) →
    ∃ self1,
      for_lines function (lines ++ rest) self sstart newlines linenr
      = for_lines function rest self1 sstart
                  (newlines ++ map_numbered g linenr lines)
                  (linenr + len lines)
      ∧ buffer self1 = buffer self
      ∧ events self1 = events self ++ call_events linenr lines.
Proof.
  induction lines as [|line lines IH];
    intros rest self sstart newlines linenr Hs.
  - exists self. simpl. rewrite !app_nil_r.
    replace (linenr + len []) with linenr by len_lia. done.
  - assert (len (line :: lines) = len lines + 1) as Hcons by len_lia.
    pose proof (len_nonneg lines).
    simpl. rewrite Hs by lia.
    destruct (IH rest
                 (set_module_dict
                    (record_event self (CallFunction line linenr))
                    (function line linenr (module_dict self)).1)
                 sstart (newlines ++ [g line linenr]) (linenr + 1))
      as (self1 & Hfor & Hb & He).
    { intros n l d Hn. apply Hs. lia. }
    exists self1. rewrite Hfor, <- app_assoc. simpl.
    replace (linenr + 1 + len lines) with (linenr + len (line :: lines))
      by lia.
    split; [done|]. split; [done|].
    rewrite He. simpl. by rewrite <- app_assoc.
Qed.

(** The write after the loop, when it is inside the buffer. *)
Lemma flush_writes (self : ScriptHost) (a : Z) (newlines : list string) :
  0 ≤ a → a + len newlines ≤ len (buffer self) →
  ∃ self',
    flush self a newlines = (self', Return tt)
    ∧ buffer self' = splice (buffer self) a (a + len newlines) newlines
    ∧ events self'
      = events self ++ match newlines with
                       | [] => []
                       | _ => [SetLines a (a + len newlines) newlines]
                       end.
Proof.
  intros Ha Hb. destruct newlines as [|l newlines].
  - exists self. split; [done|]. split; [|by rewrite app_nil_r].
    unfold splice. replace (a + len []) with a by len_lia. simpl.
    by rewrite take_drop.
  - pose proof (len_nonneg (l :: newlines)).
    unfold flush, set_lines. simpl buffer.
    rewrite in_bounds_true by lia.
    eexists. split; [reflexivity|]. done.
Qed.

(** One turn of the loop over batches, when the function returns a
    string for every line of the batch: the batch is read, the function
    is called on each of its lines, and the strings are written in its
    place with one write. *)
Lemma while_batches_turn_strings (function : Body) (g : string → Z → string)
    (fuel : nat) (self : ScriptHost) (start stop : Z)
    (pre batch rest : list string) :
  start < stop →
  buffer self = pre ++ batch ++ rest →
  len pre = start →
  len batch = Z.min (start + 5000) stop - start →
  (∀ n line d, start + 1 ≤ n < start + 1 + len batch →
               (function line n d).2 = Return (VStr (g line n))) →
  ∃ self',
    while_batches (S fuel) function self start stop
    = while_batches fuel function self' (Z.min (start + 5000) stop) stop
    ∧ buffer self' = pre ++ map_numbered g (start + 1) batch ++ rest
    ∧ events self'
      = events self
        ++ GetLines start (Z.min (start + 5000) stop)
           :: call_events (start + 1) batch
        ++ [SetLines start (Z.min (start + 5000) stop)
                     (map_numbered g (start + 1) batch)].
Proof.
  intros Hlt Hbuf Hpre Hbatch Hs.
  set (sstop := Z.min (start + 5000) stop) in *.
  assert (start < sstop) as Hs1 by (unfold sstop; lia).
  pose proof (len_nonneg pre). pose proof (len_nonneg rest).
  assert (len (buffer self) = len pre + len batch + len rest) as Hlen
    by (rewrite Hbuf, !len_app; lia).
  simpl. rewrite bool_decide_eq_true_2 by done. fold sstop.
  unfold get_lines. simpl buffer. rewrite in_bounds_true by lia.
  replace (slice (buffer self) start sstop) with batch
    by (rewrite Hbuf; symmetry; by apply slice_middle).
  set (self1 := record_event self (GetLines start sstop)).
  destruct (for_lines_strings function g batch [] self1 start [] (start + 1) Hs)
    as (self2 & Hfor & Hb2 & He2).
  rewrite app_nil_r in Hfor. rewrite Hfor. simpl.
  fold (flush self2 start (map_numbered g (start + 1) batch)).
  destruct (flush_writes self2 start (map_numbered g (start + 1) batch))
    as (self3 & Hfl & Hb3 & He3);
    [lia|rewrite map_numbered_length, Hb2; simpl; lia|].
  rewrite Hfl. exists self3. split; [done|].
  rewrite map_numbered_length in *.
  unfold self1 in *. simpl in Hb2, He2.
  split.
  - rewrite Hb3, Hb2, Hbuf.
    apply splice_middle; [done|lia].
  - rewrite He3, He2. simpl. rewrite <- !app_assoc. simpl.
    do 3 f_equal.
    destruct (map_numbered g (start + 1) batch) eqn:Hm.
    + exfalso. pose proof (map_numbered_length g (start + 1) batch) as Hl.
      rewrite Hm in Hl. unfold len in Hl, Hbatch. simpl in Hl. lia.
    + do 2 f_equal. lia.
Qed.

Lemma count_reads_app evs1 evs2 :
  count_reads (evs1 ++ evs2) = count_reads evs1 + count_reads evs2.
Proof. unfold count_reads. rewrite List.filter_app, length_app. lia. Qed.

Lemma count_writes_app evs1 evs2 :
  count_writes (evs1 ++ evs2) = count_writes evs1 + count_writes evs2.
Proof. unfold count_writes. rewrite List.filter_app, length_app. lia. Qed.

Lemma count_call_events linenr lines :
  count_reads (call_events linenr lines) = 0
  ∧ count_writes (call_events linenr lines) = 0.
Proof.
  revert linenr. induction lines as [|l lines IH]; intros linenr; [done|].
  apply (IH (linenr + 1)).
Qed.

Lemma batches_turn (start stop : Z) :
  start < stop →
  batches (stop - start) = 1 + batches (stop - Z.min (start + 5000) stop).
Proof.
  intros Hlt. unfold batches.
  destruct (Z.le_gt_cases (start + 5000) stop) as [Hfull|Hlast].
  - rewrite Z.min_l by done.
    replace (stop - start + 4999)
      with (stop - (start + 5000) + 4999 + 1 * 5000) by lia.
    rewrite Z.div_add by lia. lia.
  - rewrite Z.min_r by lia.
    replace (stop - start + 4999) with (stop - start - 1 + 1 * 5000) by lia.
    rewrite Z.div_add by lia.
    rewrite Z.div_small by lia.
    replace (stop - stop + 4999) with 4999 by lia.
    by rewrite (Z.div_small 4999 5000) by lia.
Qed.

Lemma split_batch (todo : list string) (start stop : Z) :
  start < stop → len todo = stop - start →
  ∃ batch todo',
    todo = batch ++ todo'
    ∧ len batch = Z.min (start + 5000) stop - start
    ∧ len todo' = stop - Z.min (start + 5000) stop.
Proof.
  intros Hlt Hlen.
  exists (take (Z.to_nat (Z.min (start + 5000) stop - start)) todo),
         (drop (Z.to_nat (Z.min (start + 5000) stop - start)) todo).
  split; [by rewrite take_drop|].
  unfold len in *. rewrite length_take, length_drop. lia.
Qed.

(** The loop over batches for a function that returns a string for every
    line: every line is replaced by what the function returns for it,
    with one read and one write for each batch. *)
Lemma while_batches_strings (function : Body) (g : string → Z → string)
    (stop : Z) :
  ∀ fuel self start pre todo post,
    buffer self = pre ++ todo ++ post →
    len pre = start →
    len todo = stop - start →
    (Z.to_nat (stop - start) ≤ fuel)%nat →
    (∀ n line d, start + 1 ≤ n ≤ stop →
                 (function line n d).2 = Return (VStr (g line n))) →
    ∃ self' evs,
      while_batches fuel function self start stop = Some (self', Return tt)
      ∧ buffer self' = pre ++ map_numbered g (start + 1) todo ++ post
      ∧ events self' = events self ++ evs
      ∧ count_reads evs = batches (stop - start)
      ∧ count_writes evs = batches (stop - start).
Proof.
  induction fuel as [|fuel IH];
    intros self start pre todo post Hbuf Hpre Htodo Hfuel Hs.
  { pose proof (len_nonneg todo).
    assert (todo = []) as ->
      by (destruct todo; [done|exfalso; unfold len in *; simpl in Htodo; lia]).
    exists self, []. simpl. rewrite bool_decide_eq_false_2 by lia.
    rewrite app_nil_r. replace (stop - start) with 0 by len_lia. done. }
  destruct (decide (start < stop)) as [Hlt|Hge].
  2:{ pose proof (len_nonneg todo).
      assert (todo = []) as ->
      by (destruct todo; [done|exfalso; unfold len in *; simpl in Htodo; lia]).
      exists self, []. simpl. rewrite bool_decide_eq_false_2 by done.
      rewrite app_nil_r. replace (stop - start) with 0 by len_lia. done. }
  destruct (split_batch todo start stop Hlt Htodo)
    as (batch & todo' & -> & Hbatch & Htodo').
  set (sstop := Z.min (start + 5000) stop) in *.
  assert (start < sstop ∧ sstop ≤ stop) as [Hs1 Hs2] by (unfold sstop; lia).
  rewrite <- app_assoc in Hbuf.
  destruct (while_batches_turn_strings function g fuel self start stop pre
              batch (todo' ++ post) Hlt Hbuf Hpre Hbatch)
    as (self1 & Hturn & Hb1 & He1).
  { intros n line d Hn. apply Hs. fold sstop in Hbatch. lia. }
  fold sstop in Hturn, He1.
  destruct (IH self1 sstop (pre ++ map_numbered g (start + 1) batch) todo' post)
    as (self2 & evs & Hw & Hb2 & He2 & Hr2 & Hw2).
  { by rewrite Hb1, <- app_assoc. }
  { rewrite len_app, map_numbered_length. lia. }
  { done. }
  { lia. }
  { intros n line d Hn. apply Hs. lia. }
  exists self2, (GetLines start sstop :: call_events (start + 1) batch
                 ++ [SetLines start sstop (map_numbered g (start + 1) batch)]
                 ++ evs).
  rewrite Hturn, Hw. split; [done|].
  split.
  { rewrite Hb2, map_numbered_app, <- !app_assoc.
    by replace (start + 1 + len batch) with (sstop + 1) by lia. }
  split.
  { rewrite He2, He1, <- !app_assoc. simpl. by rewrite <- !app_assoc. }
  destruct (count_call_events (start + 1) batch) as [Hc1 Hc2].
  pose proof (batches_turn start stop Hlt) as Hbt. fold sstop in Hbt.
  split.
  - change (GetLines start sstop :: ?l) with ([GetLines start sstop] ++ l).
    rewrite !count_reads_app, Hc1, Hr2, Hbt. reflexivity.
  - change (GetLines start sstop :: ?l) with ([GetLines start sstop] ++ l).
    rewrite !count_writes_app, Hc2, Hw2, Hbt. reflexivity.
Qed.

(** X11: if the code defines the function and the function returns a
    string for every line of a range inside the buffer, the range holds
    after the call, in place of each line, what the function returned
    for the line and its number; the lines around are the same.
    Batching does not show: only that the buffer is read with one bulk
    read and written with one bulk write for each 5000 lines begun.  The
    call returns if the function leaves its own name bound. *)
Theorem python_do_range_maps_lines (self : ScriptHost) (start stop : Z)
    (def : FunctionDef) (g : string → Z → string) :
  1 ≤ start → start - 1 ≤ stop → stop ≤ len (buffer self) →
  defines def (module_dict self) →
  (∀ n line d, start ≤ n ≤ stop →
               (def_function def line n d).2 = Return (VStr (g line n))) →
  ∃ self' r evs,
    python_do_range self start stop (Parsed def) = Some (self', r)
    ∧ buffer self'
      = take (Z.to_nat (start - 1)) (buffer self)
        ++ map_numbered g start (slice (buffer self) (start - 1) stop)
        ++ drop (Z.to_nat stop) (buffer self)
    ∧ events self' = events self ++ evs
    ∧ count_reads evs = batches (stop - start + 1)
    ∧ count_writes evs = batches (stop - start + 1)
    ∧ (stays_bound fname (def_function def) → r = Return tt).
Proof.
  intros H1 H2 H3 Hdef Hs.
  destruct (while_batches_strings (def_function def) g stop
              (Z.to_nat (stop - (start - 1))) (entered self start stop def)
              (start - 1)
              (take (Z.to_nat (start - 1)) (buffer self))
              (slice (buffer self) (start - 1) stop)
              (drop (Z.to_nat stop) (buffer self)))
    as (self2 & evs & Hw & Hb & He & Hr & Hwr).
  - simpl. apply take_slice_drop; lia.
  - unfold len in *. rewrite length_take. lia.
  - apply len_slice; lia.
  - lia.
  - intros n line d Hn. apply Hs. lia.
  - destruct (python_do_range_after_loop _ _ _ _ _ Hdef Hw)
      as (self' & r & Hrun & Hb' & He' & Hret).
    exists self', r, evs. split; [done|].
    replace (start - 1 + 1) with start in Hb by lia.
    replace (stop - (start - 1)) with (stop - start + 1) in * by lia.
    split; [by rewrite Hb'|]. split; [by rewrite He'|].
    split; [done|]. split; [done|]. intros Hsb. by destruct (Hret Hsb).
Qed.

Lemma python_do_range_maps_lines_witness :
  ∃ self' evs,
    python_do_range (__init__ ["a"; "b"; "c"]) 2 3 (Parsed (only_body double))
    = Some (self', Return tt)
    ∧ buffer self'
      = take (Z.to_nat (2 - 1)) (buffer (__init__ ["a"; "b"; "c"]))
        ++ map_numbered (λ line _, line +:+ line) 2
             (slice (buffer (__init__ ["a"; "b"; "c"])) (2 - 1) 3)
        ++ drop (Z.to_nat 3) (buffer (__init__ ["a"; "b"; "c"]))
    ∧ events self' = events (__init__ ["a"; "b"; "c"]) ++ evs
    ∧ count_reads evs = batches (3 - 2 + 1)
    ∧ count_writes evs = batches (3 - 2 + 1).
Proof.
  destruct (python_do_range_maps_lines (__init__ ["a"; "b"; "c"]) 2 3
              (only_body double) (λ line _, line +:+ line))
    as (self' & r & evs & Hrun & Hb & He & Hr & Hw & Hret).
  - lia.
  - lia.
  - vm_compute. discriminate.
  - apply defines_only_body.
  - intros n line d Hn. reflexivity.
  - rewrite Hret in Hrun by (by apply stays_bound_same).
    by exists self', evs.
Defined.

(** ** [python_do_range]: where it stops on an error *)

(** The loop on a line for which the function returns neither a string
    nor [None]: it is left with the [TypeError] in [exception]. *)
Lemma for_lines_bad_value (function : Body) (x : string) (rest : list string)
    (self : ScriptHost) (sstart : Z) (newlines : list string) (linenr : Z)
    (v : Value) :
  (function x linenr (module_dict self)).2 = Return v →
  neither_None_nor_str v →
  for_lines function (x :: rest) self sstart newlines linenr
  = (set_module_dict (record_event self (CallFunction x linenr))
                     (function x linenr (module_dict self)).1,
     Return (sstart, newlines, Some (pydo_type_error v))).
Proof.
  intros Hv Hbad. simpl. rewrite Hv. by destruct v.
Qed.

Lemma split_full_batch (l1 : list string) (n : Z) :
  5000 ≤ len l1 →
  ∃ batch l1',
    l1 = batch ++ l1' ∧ len batch = 5000 ∧ len l1' = len l1 - 5000.
Proof.
  intros Hlen. exists (take 5000 l1), (drop 5000 l1).
  split; [by rewrite take_drop|].
  unfold len in *. rewrite length_take, length_drop. lia.
Qed.

(** The loop over batches up to a line for which the function returns
    neither a string nor [None], strings being returned for the lines
    before it: the strings of the batches before and those pending in
    the batch of the line are written, then the [TypeError] is raised. *)
Lemma while_batches_type_error (function : Body) (g : string → Z → string)
    (stop k : Z) (x : string) (l2 post : list string) (v : Value) :
  (∀ d, (function x k d).2 = Return v) → neither_None_nor_str v →
  ∀ fuel self start pre l1,
    buffer self = pre ++ (l1 ++ x :: l2) ++ post →
    len pre = start →
    len (l1 ++ x :: l2) = stop - start →
    k = start + 1 + len l1 →
    (Z.to_nat (stop - start) ≤ fuel)%nat →
    (∀ n line d, start + 1 ≤ n < k →
                 (function line n d).2 = Return (VStr (g line n))) →
    ∃ self',
      while_batches fuel function self start stop
      = Some (self', Raise (pydo_type_error v))
      ∧ buffer self' = pre ++ map_numbered g (start + 1) l1 ++ x :: l2 ++ post.
Proof.
  intros Hv Hbad.
  induction fuel as [|fuel IH];
    intros self start pre l1 Hbuf Hpre Hlen Hk Hfuel Hs;
    pose proof (len_nonneg l1) as Hl1; pose proof (len_nonneg l2) as Hl2;
    pose proof (len_nonneg pre) as Hp; pose proof (len_nonneg post) as Hpo;
    assert (len (l1 ++ x :: l2) = len l1 + 1 + len l2) as Hcat
      by (rewrite len_app; len_lia).
  { exfalso. lia. }
  assert (start < stop) as Hlt by lia.
  destruct (Z.lt_ge_cases (len l1) 5000) as [Hin|Hfull].
  - (* the line is in this batch *)
    set (sstop := Z.min (start + 5000) stop).
    assert (start < sstop ∧ sstop ≤ stop ∧ k ≤ sstop) as (Hs1 & Hs2 & Hs3)
      by (unfold sstop; lia).
    assert (len (buffer self) = len pre + (len l1 + 1 + len l2) + len post)
      as Hblen
      by (rewrite Hbuf, (len_app pre), (len_app (l1 ++ x :: l2)), Hcat; lia).
    simpl. rewrite bool_decide_eq_true_2 by done. fold sstop.
    unfold get_lines. simpl buffer. rewrite in_bounds_true by lia.
    set (self1 := record_event self (GetLines start sstop)).
    assert (∃ l2a, slice (buffer self) start sstop = l1 ++ x :: l2a)
      as [l2a Hslice].
    { exists (take (Z.to_nat (sstop - k)) l2).
      rewrite Hbuf. unfold slice.
      rewrite drop_app_ge by (unfold len in *; lia).
      replace (Z.to_nat start - length pre)%nat with 0%nat
        by (unfold len in *; lia).
      rewrite drop_0, <- !app_assoc. simpl.
      rewrite take_app_ge by (unfold len in *; lia).
      f_equal.
      replace (Z.to_nat (sstop - start) - length l1)%nat
        with (S (Z.to_nat (sstop - k))) by (unfold len in *; lia).
      simpl. f_equal. apply take_app_le. unfold len in *. lia. }
    rewrite Hslice.
    destruct (for_lines_strings function g l1 (x :: l2a) self1 start []
                (start + 1)) as (self2 & Hfor & Hb2 & He2).
    { intros n line d Hn. apply Hs. lia. }
    rewrite Hfor. replace (start + 1 + len l1) with k by lia.
    rewrite (for_lines_bad_value function x l2a self2 start _ k v (Hv _) Hbad).
    set (self2' := set_module_dict (record_event self2 (CallFunction x k))
                     (function x k (module_dict self2)).1).
    simpl.
    fold (flush self2' start (map_numbered g (start + 1) l1)).
    destruct (flush_writes self2' start (map_numbered g (start + 1) l1))
      as (self3 & Hfl & Hb3 & He3);
      [lia|rewrite map_numbered_length; simpl; rewrite Hb2; simpl; lia|].
    rewrite Hfl. exists self3. split; [done|].
    unfold self1 in *. simpl in Hb2, Hb3.
    rewrite Hb3, Hb2, Hbuf, map_numbered_length, <- !app_assoc.
    apply (splice_middle pre l1 (x :: l2 ++ post)); [done|lia].
  - (* a whole batch of strings comes before the line *)
    destruct (split_full_batch l1 5000 Hfull) as (batch & l1' & -> & Hb & Hl1').
    assert (len (batch ++ l1') = 5000 + len l1') as Hbl
      by (rewrite len_app; lia).
    pose proof (len_nonneg l1') as Hl1'0.
    assert (len (l1' ++ x :: l2) = len l1' + 1 + len l2) as Hcat'
      by (rewrite len_app; len_lia).
    assert (Z.min (start + 5000) stop = start + 5000) as Hmin by lia.
    rewrite <- !app_assoc in Hbuf.
    destruct (while_batches_turn_strings function g fuel self start stop pre
                batch (l1' ++ x :: l2 ++ post) Hlt) as (self1 & Hturn & Hb1 & _).
    { exact Hbuf. }
    { done. }
    { lia. }
    { intros n line d Hn. apply Hs. lia. }
    rewrite Hmin in Hturn.
    destruct (IH self1 (start + 5000)
                 (pre ++ map_numbered g (start + 1) batch) l1')
      as (self2 & Hw & Hb2).
    { by rewrite Hb1, <- !app_assoc. }
    { rewrite len_app, map_numbered_length. lia. }
    { lia. }
    { lia. }
    { lia. }
    { intros n line d Hn. apply Hs. lia. }
    exists self2. rewrite Hturn, Hw. split; [done|].
    rewrite Hb2, map_numbered_app, <- !app_assoc.
    by replace (start + 1 + len batch) with (start + 5000 + 1) by lia.
Qed.

Lemma whole_batches_small (n : nat) : (n < 5000)%nat → whole_batches n = 0%nat.
Proof. intros Hn. unfold whole_batches. rewrite Nat.div_small by done. lia. Qed.

Lemma whole_batches_more (n : nat) :
  whole_batches (5000 + n) = (5000 + whole_batches n)%nat.
Proof.
  unfold whole_batches.
  replace (5000 + n)%nat with (1 * 5000 + n)%nat by lia.
  rewrite Nat.div_add_l by lia. lia.
Qed.

Lemma whole_batches_le (n : nat) : (whole_batches n ≤ n)%nat.
Proof.
  unfold whole_batches. pose proof (Nat.Div0.mul_div_le n 5000). lia.
Qed.

(** The loop over batches up to a line on which the function raises,
    strings being returned for the lines before it: the strings of the
    batches before are written; those pending in the batch of the line
    are not, and the exception leaves the loop. *)
Lemma while_batches_raise (function : Body) (g : string → Z → string)
    (stop k : Z) (x : string) (l2 post : list string) (e : PyExc) :
  (∀ d, (function x k d).2 = Raise e) →
  ∀ fuel self start pre l1,
    buffer self = pre ++ (l1 ++ x :: l2) ++ post →
    len pre = start →
    len (l1 ++ x :: l2) = stop - start →
    k = start + 1 + len l1 →
    (Z.to_nat (stop - start) ≤ fuel)%nat →
    (∀ n line d, start + 1 ≤ n < k →
                 (function line n d).2 = Return (VStr (g line n))) →
    ∃ self',
      while_batches fuel function self start stop = Some (self', Raise e)
      ∧ buffer self'
        = pre ++ map_numbered g (start + 1)
                   (take (whole_batches (length l1)) l1)
          ++ drop (whole_batches (length l1)) l1 ++ x :: l2 ++ post.
Proof.
  intros He.
  induction fuel as [|fuel IH];
    intros self start pre l1 Hbuf Hpre Hlen Hk Hfuel Hs;
    pose proof (len_nonneg l1) as Hl1; pose proof (len_nonneg l2) as Hl2;
    pose proof (len_nonneg pre) as Hp; pose proof (len_nonneg post) as Hpo;
    assert (len (l1 ++ x :: l2) = len l1 + 1 + len l2) as Hcat
      by (rewrite len_app; len_lia).
  { exfalso. lia. }
  assert (start < stop) as Hlt by lia.
  destruct (Z.lt_ge_cases (len l1) 5000) as [Hin|Hfull].
  - (* the line is in this batch: nothing of the batch is written *)
    set (sstop := Z.min (start + 5000) stop).
    assert (start < sstop ∧ sstop ≤ stop ∧ k ≤ sstop) as (Hs1 & Hs2 & Hs3)
      by (unfold sstop; lia).
    assert (len (buffer self) = len pre + (len l1 + 1 + len l2) + len post)
      as Hblen
      by (rewrite Hbuf, (len_app pre), (len_app (l1 ++ x :: l2)), Hcat; lia).
    simpl. rewrite bool_decide_eq_true_2 by done. fold sstop.
    unfold get_lines. simpl buffer. rewrite in_bounds_true by lia.
    set (self1 := record_event self (GetLines start sstop)).
    assert (∃ l2a, slice (buffer self) start sstop = l1 ++ x :: l2a)
      as [l2a Hslice].
    { exists (take (Z.to_nat (sstop - k)) l2).
      rewrite Hbuf. unfold slice.
      rewrite drop_app_ge by (unfold len in *; lia).
      replace (Z.to_nat start - length pre)%nat with 0%nat
        by (unfold len in *; lia).
      rewrite drop_0, <- !app_assoc. simpl.
      rewrite take_app_ge by (unfold len in *; lia).
      f_equal.
      replace (Z.to_nat (sstop - start) - length l1)%nat
        with (S (Z.to_nat (sstop - k))) by (unfold len in *; lia).
      simpl. f_equal. apply take_app_le. unfold len in *. lia. }
    rewrite Hslice.
    destruct (for_lines_strings function g l1 (x :: l2a) self1 start []
                (start + 1)) as (self2 & Hfor & Hb2 & He2).
    { intros n line d Hn. apply Hs. lia. }
    rewrite Hfor. replace (start + 1 + len l1) with k by lia.
    simpl. rewrite He.
    eexists. split; [reflexivity|]. simpl.
    unfold self1 in *. simpl in Hb2.
    rewrite whole_batches_small by (unfold len in *; lia).
    rewrite take_0, drop_0. simpl. by rewrite Hb2, Hbuf, <- !app_assoc.
  - (* a whole batch of strings comes before the line *)
    destruct (split_full_batch l1 5000 Hfull) as (batch & l1' & -> & Hb & Hl1').
    assert (len (batch ++ l1') = 5000 + len l1') as Hbl
      by (rewrite len_app; lia).
    pose proof (len_nonneg l1') as Hl1'0.
    assert (len (l1' ++ x :: l2) = len l1' + 1 + len l2) as Hcat'
      by (rewrite len_app; len_lia).
    assert (Z.min (start + 5000) stop = start + 5000) as Hmin by lia.
    rewrite <- !app_assoc in Hbuf.
    destruct (while_batches_turn_strings function g fuel self start stop pre
                batch (l1' ++ x :: l2 ++ post) Hlt) as (self1 & Hturn & Hb1 & _).
    { exact Hbuf. }
    { done. }
    { lia. }
    { intros n line d Hn. apply Hs. lia. }
    rewrite Hmin in Hturn.
    destruct (IH self1 (start + 5000)
                 (pre ++ map_numbered g (start + 1) batch) l1')
      as (self2 & Hw & Hb2).
    { by rewrite Hb1, <- !app_assoc. }
    { rewrite len_app, map_numbered_length. lia. }
    { lia. }
    { lia. }
    { lia. }
    { intros n line d Hn. apply Hs. lia. }
    exists self2. rewrite Hturn, Hw. split; [done|].
    rewrite Hb2, length_app.
    replace (length batch) with 5000%nat by (unfold len in Hb; lia).
    rewrite whole_batches_more.
    rewrite take_app_ge, drop_app_ge by (unfold len in Hb; lia).
    replace (length batch) with 5000%nat by (unfold len in Hb; lia).
    replace (5000 + whole_batches (length l1') - 5000)%nat
      with (whole_batches (length l1')) by lia.
    rewrite map_numbered_app, <- !app_assoc.
    by replace (start + 1 + len batch) with (start + 5000 + 1) by lia.
Qed.

(** X12: when the function returns a value that is neither a string nor
    [None] for line [k], having returned strings for the lines of the
    range before it, [python_do_range] raises the [TypeError] that names
    the class of the value, after writing all the strings returned so
    far: the lines of the range before line [k] are replaced, line [k]
    and the lines after it are as they were, and [_vim_pydo] stays bound
    if the function leaves it bound.  The buffer is given as the lines
    before the range, the lines of the range before line [k], line [k],
    the rest of the range, and the lines after the range. *)
Theorem python_do_range_type_error_after_writes (self : ScriptHost)
    (start stop k : Z) (def : FunctionDef) (g : string → Z → string)
    (pre l1 l2 post : list string) (x : string) (v : Value) :
  buffer self = pre ++ l1 ++ x :: l2 ++ post →
  len pre = start - 1 →
  k = start + len l1 →
  stop = k + len l2 →
  defines def (module_dict self) →
  (∀ n line d, start ≤ n < k →
               (def_function def line n d).2 = Return (VStr (g line n))) →
  (∀ d, (def_function def x k d).2 = Return v) →
  neither_None_nor_str v →
  ∃ self',
    python_do_range self start stop (Parsed def)
    = Some (self', Raise (Uncaught (pydo_type_error v)))
    ∧ buffer self' = pre ++ map_numbered g start l1 ++ x :: l2 ++ post
    ∧ (stays_bound fname (def_function def) →
       is_Some (module_dict self' !! fname)).
Proof.
  intros Hbuf Hpre Hk Hstop Hdef Hs Hv Hbad.
  pose proof (len_nonneg l1). pose proof (len_nonneg l2).
  assert (len (l1 ++ x :: l2) = len l1 + 1 + len l2) as Hcat
    by (rewrite len_app; len_lia).
  destruct (while_batches_type_error (def_function def) g stop k x l2 post v
              Hv Hbad (Z.to_nat (stop - (start - 1)))
              (entered self start stop def) (start - 1) pre l1)
    as (self' & Hw & Hb).
  - simpl. by rewrite Hbuf, <- !app_assoc.
  - done.
  - lia.
  - lia.
  - lia.
  - intros n line d Hn. apply Hs. lia.
  - destruct (python_do_range_loop_raised _ _ _ _ _ _ Hdef Hw) as [Hrun Hbound].
    exists self'. split; [done|].
    replace (start - 1 + 1) with start in Hb by lia.
    by split.
Qed.

Lemma python_do_range_type_error_after_writes_witness :
  ∃ self',
    python_do_range (__init__ ["a"; "b"; "c"; "d"]) 2 4
      (Parsed (only_body
                 (λ line n d, (d, if bool_decide (n = 3) then Return (VInt 1)
                                  else Return (VStr (line +:+ line))))))
    = Some (self', Raise (Uncaught (pydo_type_error (VInt 1))))
    ∧ buffer self'
      = ["a"] ++ map_numbered (λ line _, line +:+ line) 2 ["b"]
        ++ "c" :: ["d"] ++ []
    ∧ is_Some (module_dict self' !! fname).
Proof.
  destruct (python_do_range_type_error_after_writes
              (__init__ ["a"; "b"; "c"; "d"]) 2 4 3
              (only_body
                 (λ line n d, (d, if bool_decide (n = 3) then Return (VInt 1)
                                  else Return (VStr (line +:+ line)))))
              (λ line _, line +:+ line)
              ["a"] ["b"] ["d"] [] "c" (VInt 1))
    as (self' & Hrun & Hb & Hbound).
  - reflexivity.
  - reflexivity.
  - reflexivity.
  - reflexivity.
  - apply defines_only_body.
  - intros n line d Hn. simpl. by rewrite bool_decide_eq_false_2 by lia.
  - reflexivity.
  - exact I.
  - exists self'. split; [exact Hrun|]. split; [exact Hb|].
    apply Hbound. by apply stays_bound_same.
Defined.

(** X13: when the function itself raises on line [k], having returned
    strings for the lines of the range before it, [python_do_range] lets
    the exception through as it is and writes nothing more: only the
    lines of the whole batches of 5000 before line [k] are replaced; the
    strings returned in the batch of line [k] are lost.  In particular
    nothing at all is written if fewer than 5000 lines come before line
    [k] in the range.  [_vim_pydo] stays bound if the function leaves it
    bound. *)
Theorem python_do_range_raise_drops_pending (self : ScriptHost)
    (start stop k : Z) (def : FunctionDef) (g : string → Z → string)
    (pre l1 l2 post : list string) (x : string) (e : PyExc) :
  buffer self = pre ++ l1 ++ x :: l2 ++ post →
  len pre = start - 1 →
  k = start + len l1 →
  stop = k + len l2 →
  defines def (module_dict self) →
  (∀ n line d, start ≤ n < k →
               (def_function def line n d).2 = Return (VStr (g line n))) →
  (∀ d, (def_function def x k d).2 = Raise e) →
  ∃ self',
    python_do_range self start stop (Parsed def)
    = Some (self', Raise (Uncaught e))
    ∧ buffer self'
      = pre ++ map_numbered g start (take (whole_batches (length l1)) l1)
        ++ drop (whole_batches (length l1)) l1 ++ x :: l2 ++ post
    ∧ ((length l1 < 5000)%nat → buffer self' = buffer self)
    ∧ (stays_bound fname (def_function def) →
       is_Some (module_dict self' !! fname)).
Proof.
  intros Hbuf Hpre Hk Hstop Hdef Hs He.
  pose proof (len_nonneg l1). pose proof (len_nonneg l2).
  assert (len (l1 ++ x :: l2) = len l1 + 1 + len l2) as Hcat
    by (rewrite len_app; len_lia).
  destruct (while_batches_raise (def_function def) g stop k x l2 post e He
              (Z.to_nat (stop - (start - 1)))
              (entered self start stop def) (start - 1) pre l1)
    as (self' & Hw & Hb).
  - simpl. by rewrite Hbuf, <- !app_assoc.
  - done.
  - lia.
  - lia.
  - lia.
  - intros n line d Hn. apply Hs. lia.
  - destruct (python_do_range_loop_raised _ _ _ _ _ _ Hdef Hw) as [Hrun Hbound].
    exists self'. split; [done|].
    replace (start - 1 + 1) with start in Hb by lia.
    split; [done|]. split; [|done].
    intros Hsmall. rewrite Hb, Hbuf, whole_batches_small by done.
    by rewrite take_0, drop_0.
Qed.

Lemma python_do_range_raise_drops_pending_witness :
  ∃ self',
    python_do_range (__init__ ["a"; "b"; "c"; "d"]) 2 4
      (Parsed (only_body
                 (λ line n d, (d, if bool_decide (n = 3)
                                  then Raise division_by_zero
                                  else Return (VStr (line +:+ line))))))
    = Some (self', Raise (Uncaught division_by_zero))
    ∧ buffer self'
      = ["a"] ++ map_numbered (λ line _, line +:+ line) 2
                   (take (whole_batches (length ["b"])) ["b"])
        ++ drop (whole_batches (length ["b"])) ["b"] ++ "c" :: ["d"] ++ []
    ∧ buffer self' = buffer (__init__ ["a"; "b"; "c"; "d"])
    ∧ is_Some (module_dict self' !! fname).
Proof.
  destruct (python_do_range_raise_drops_pending
              (__init__ ["a"; "b"; "c"; "d"]) 2 4 3
              (only_body
                 (λ line n d, (d, if bool_decide (n = 3)
                                  then Raise division_by_zero
                                  else Return (VStr (line +:+ line)))))
              (λ line _, line +:+ line)
              ["a"] ["b"] ["d"] [] "c" division_by_zero)
    as (self' & Hrun & Hb & Hsmall & Hbound).
  - reflexivity.
  - reflexivity.
  - reflexivity.
  - reflexivity.
  - apply defines_only_body.
  - intros n line d Hn. simpl. by rewrite bool_decide_eq_false_2 by lia.
  - reflexivity.
  - exists self'. split; [exact Hrun|]. split; [exact Hb|].
    split; [apply Hsmall; simpl; lia|].
    apply Hbound. by apply stays_bound_same.
Defined.

(** ** [python_do_range]: a function that returns [None] everywhere *)

Lemma for_lines_all_None (function : Body) :
  (∀ n line d, (function line n d).2 = Return VNone) →
  ∀ lines self sstart linenr,
    ∃ self',
      for_lines function lines self sstart [] linenr
      = (self', Return (sstart + len lines, [], None))
      ∧ buffer self' = buffer self
      ∧ events self' = events self ++ call_events linenr lines.
Proof.
  intros Hnone.
  induction lines as [|line lines IH]; intros self sstart linenr.
  - exists self. simpl. rewrite app_nil_r.
    by replace (sstart + len []) with sstart by len_lia.
  - simpl. rewrite Hnone.
    destruct (IH (set_module_dict
                    (record_event self (CallFunction line linenr))
                    (function line linenr (module_dict self)).1)
                 (sstart + (len [] + 1)) (linenr + 1))
      as (self' & Hfor & Hb & He).
    exists self'. rewrite Hfor. split.
    + by replace (sstart + len (line :: lines))
        with (sstart + (len [] + 1) + len lines) by len_lia.
    + split; [done|]. rewrite He. simpl.
      by rewrite <- app_assoc.
Qed.

Lemma while_batches_all_None (function : Body) (stop : Z) :
  (∀ n line d, (function line n d).2 = Return VNone) →
  ∀ fuel self start,
    0 ≤ start → stop ≤ len (buffer self) →
    (Z.to_nat (stop - start) ≤ fuel)%nat →
    ∃ self' evs,
      while_batches fuel function self start stop = Some (self', Return tt)
      ∧ buffer self' = buffer self
      ∧ events self' = events self ++ evs
      ∧ count_writes evs = 0
      ∧ count_reads evs = batches (Z.max 0 (stop - start)).
Proof.
  intros Hnone.
  assert (∀ fuel self start, ¬ start < stop →
            ∃ self' evs,
              while_batches fuel function self start stop
              = Some (self', Return tt)
              ∧ buffer self' = buffer self
              ∧ events self' = events self ++ evs
              ∧ count_writes evs = 0
              ∧ count_reads evs = batches (Z.max 0 (stop - start))) as Hdone.
  { intros fuel self start Hge. exists self, [].
    split; [destruct fuel; simpl; by rewrite bool_decide_eq_false_2|].
    rewrite app_nil_r. replace (Z.max 0 (stop - start)) with 0 by lia. done. }
  induction fuel as [|fuel IH]; intros self start H0 Hstop Hfuel.
  { apply Hdone. lia. }
  destruct (decide (start < stop)) as [Hlt|Hge]; [|by apply Hdone].
  simpl. rewrite bool_decide_eq_true_2 by done.
  set (sstop := Z.min (start + 5000) stop).
  assert (start < sstop ∧ sstop ≤ stop) as [Hs1 Hs2] by (unfold sstop; lia).
  unfold get_lines. simpl buffer. rewrite in_bounds_true by lia.
  destruct (for_lines_all_None function Hnone (slice (buffer self) start sstop)
              (record_event self (GetLines start sstop)) start (start + 1))
    as (self1 & Hfor & Hb1 & He1).
  rewrite Hfor. simpl.
  destruct (IH self1 sstop) as (self2 & evs & Hw & Hb2 & He2 & Hwr & Hrd);
    [lia|rewrite Hb1; simpl; lia|lia|].
  rewrite Hw.
  exists self2, (GetLines start sstop
                 :: call_events (start + 1) (slice (buffer self) start sstop)
                 ++ evs).
  split; [done|]. simpl in Hb1, He1.
  split; [congruence|].
  split; [rewrite He2, He1, <- !app_assoc; by simpl|].
  destruct (count_call_events (start + 1) (slice (buffer self) start sstop))
    as [Hc1 Hc2].
  pose proof (batches_turn start stop Hlt) as Hbt. fold sstop in Hbt.
  replace (Z.max 0 (stop - start)) with (stop - start) by lia.
  replace (Z.max 0 (stop - sstop)) with (stop - sstop) in Hrd by lia.
  split.
  - change (GetLines start sstop :: ?l) with ([GetLines start sstop] ++ l).
    rewrite !count_writes_app, Hc2, Hwr. reflexivity.
  - change (GetLines start sstop :: ?l) with ([GetLines start sstop] ++ l).
    rewrite !count_reads_app, Hc1, Hrd, Hbt. reflexivity.
Qed.

(** X14: a function that returns [None] for every line leaves the buffer
    as it is: [python_do_range] has read the range batch by batch and
    called the function, but has made no write at all.  The call returns
    if the function leaves its own name bound. *)
Theorem python_do_range_all_None (self : ScriptHost) (start stop : Z)
    (def : FunctionDef) :
  1 ≤ start → stop ≤ len (buffer self) →
  defines def (module_dict self) →
  (∀ n line d, (def_function def line n d).2 = Return VNone) →
  ∃ self' r evs,
    python_do_range self start stop (Parsed def) = Some (self', r)
    ∧ buffer self' = buffer self
    ∧ events self' = events self ++ evs
    ∧ count_writes evs = 0
    ∧ count_reads evs = batches (Z.max 0 (stop - start + 1))
    ∧ (stays_bound fname (def_function def) → r = Return tt).
Proof.
  intros H1 H2 Hdef Hnone.
  destruct (while_batches_all_None (def_function def) stop Hnone
              (Z.to_nat (stop - (start - 1))) (entered self start stop def)
              (start - 1)) as (self2 & evs & Hw & Hb & He & Hwr & Hrd);
    [lia|done|lia|].
  destruct (python_do_range_after_loop _ _ _ _ _ Hdef Hw)
    as (self' & r & Hrun & Hb' & He' & Hret).
  exists self', r, evs. split; [done|].
  replace (stop - (start - 1)) with (stop - start + 1) in Hrd by lia.
  split; [by rewrite Hb'|]. split; [by rewrite He'|].
  split; [done|]. split; [done|]. intros Hsb. by destruct (Hret Hsb).
Qed.

Lemma python_do_range_all_None_witness :
  ∃ self' evs,
    python_do_range (__init__ ["a"; "b"; "c"]) 1 3
                    (Parsed (only_body (λ _ _ d, (d, Return VNone))))
    = Some (self', Return tt)
    ∧ buffer self' = buffer (__init__ ["a"; "b"; "c"])
    ∧ events self' = events (__init__ ["a"; "b"; "c"]) ++ evs
    ∧ count_writes evs = 0
    ∧ count_reads evs = batches (Z.max 0 (3 - 1 + 1)).
Proof.
  destruct (python_do_range_all_None (__init__ ["a"; "b"; "c"]) 1 3
              (only_body (λ _ _ d, (d, Return VNone))))
    as (self' & r & evs & Hrun & Hb & He & Hw & Hr & Hret).
  - lia.
  - vm_compute. discriminate.
  - apply defines_only_body.
  - reflexivity.
  - rewrite Hret in Hrun by (by apply stays_bound_same).
    by exists self', evs.
Defined.

(** ** [python_do_range]: what holds for every function *)

(** X15: whatever the code is and whatever the function returns or
    raises, a call on a range inside the buffer never makes the buffer
    shorter: no line is ever removed. *)
Theorem python_do_range_never_shortens (self : ScriptHost) (start stop : Z)
    (code : Source FunctionDef) :
  1 ≤ start → start - 1 ≤ stop → stop ≤ len (buffer self) →
  ∃ self' r,
    python_do_range self start stop code = Some (self', r)
    ∧ len (buffer self) ≤ len (buffer self').
Proof.
  intros H1 H2 H3.
  destruct (python_do_range_steps self start stop code H1 H2 H3)
    as (self' & r & evs & mid & Hrun & Hb & He & Hin & _).
  exists self', r. split; [done|].
  rewrite (Forall_forall (within (start - 1) stop) evs) in Hin.
  destruct code as [msg|def].
  { injection Hrun as <- _. simpl. lia. }
  destruct (python_do_range_not_defined self start stop def)
    as [Hdef|[_ [e Hearly]]].
  2:{ rewrite Hearly in Hrun. injection Hrun as <- _. simpl. lia. }
  rewrite (python_do_range_defined _ _ _ _ Hdef) in Hrun.
  set (pre := take (Z.to_nat (start - 1)) (buffer self)).
  set (post := drop (Z.to_nat stop) (buffer self)).
  assert (len pre = start - 1) as Hpre.
  { unfold pre, len in *. rewrite length_take. lia. }
  assert (len post = len (buffer self) - stop) as Hpost.
  { unfold post, len in *. rewrite length_drop. lia. }
  assert (framed pre post stop (entered self start stop def)) as Hf.
  { exists (slice (buffer self) (start - 1) stop). split.
    - apply take_slice_drop; lia.
    - rewrite len_slice by lia. lia. }
  destruct (while_batches_steps (def_function def) pre post stop
              (Z.to_nat (stop - (start - 1))) (entered self start stop def)
              (start - 1) Hf)
    as (self2 & r2 & evs2 & Hw & ((mid2 & Hb2 & Hmid) & _) & _); [lia|lia|].
  rewrite Hw in Hrun.
  assert (len (buffer self) ≤ len (buffer self2)) as Hle
    by (rewrite Hb2, !len_app; lia).
  destruct r2 as [[]|e]; [|by injection Hrun as <- _].
  destruct (delitem _ _); by injection Hrun as <- _.
Qed.

Lemma python_do_range_never_shortens_witness :
  ∃ self' r,
    python_do_range (__init__ ["a"; "b"; "c"]) 1 3
                    (Parsed (only_body (skip_at 2)))
    = Some (self', r)
    ∧ len (buffer (__init__ ["a"; "b"; "c"])) ≤ len (buffer self').
Proof.
  apply (python_do_range_never_shortens (__init__ ["a"; "b"; "c"]) 1 3
           (Parsed (only_body (skip_at 2)))).
  - lia.
  - lia.
  - vm_compute. discriminate.
Defined.

Lemma get_lines_events (self : ScriptHost) (a b : Z) :
  events (get_lines self a b).1 = events self ++ [GetLines a b].
Proof. unfold get_lines. by destruct (in_bounds _ _ _). Qed.

(** The loop over the lines of a batch reads nothing. *)
Lemma for_lines_no_read (function : Body) :
  ∀ lines self sstart newlines linenr,
    ∃ evs,
      events (for_lines function lines self sstart newlines linenr).1
      = events self ++ evs
      ∧ count_reads evs = 0
      ∧ Forall read_one_batch evs.
Proof.
  induction lines as [|line lines IH]; intros self sstart newlines linenr.
  { exists []. simpl. by rewrite app_nil_r. }
  assert (∀ self1 evs1 sstart' newlines',
            events self1 = events self ++ evs1 →
            count_reads evs1 = 0 → Forall read_one_batch evs1 →
            ∃ evs,
              events (for_lines function lines self1 sstart' newlines'
                        (linenr + 1)).1 = events self ++ evs
              ∧ count_reads evs = 0 ∧ Forall read_one_batch evs) as Hgo.
  { intros self1 evs1 sstart' newlines' He1 Hc1 Hr1.
    destruct (IH self1 sstart' newlines' (linenr + 1)) as (evs & He & Hc & Hr).
    exists (evs1 ++ evs). rewrite He, He1, <- app_assoc.
    split; [done|]. rewrite count_reads_app, Hc1, Hc.
    split; [done|]. by apply Forall_app. }
  simpl.
  destruct (function line linenr (module_dict self)) as [d [result|e]]; simpl.
  2:{ exists [CallFunction line linenr]. simpl. by repeat constructor. }
  destruct result;
    try (exists [CallFunction line linenr]; simpl; by repeat constructor).
  - destruct newlines as [|l newlines].
    { apply (Hgo _ [CallFunction line linenr]); [done|done|].
      by repeat constructor. }
    pose proof (set_lines_events
                  (set_module_dict
                     (record_event self (CallFunction line linenr)) d) sstart
                  (sstart + len (l :: newlines) - 1) (l :: newlines)) as Hev.
    destruct (set_lines _ _ _ _) as [self1 [u|e]]; simpl in Hev.
    + apply (Hgo _ [CallFunction line linenr;
                    SetLines sstart (sstart + len (l :: newlines) - 1)
                             (l :: newlines)]);
        [by rewrite Hev, <- app_assoc|done|by repeat constructor].
    + exists [CallFunction line linenr;
              SetLines sstart (sstart + len (l :: newlines) - 1)
                       (l :: newlines)].
      simpl. rewrite Hev, <- app_assoc. by repeat constructor.
  - apply (Hgo _ [CallFunction line linenr]); [done|done|].
    by repeat constructor.
Qed.

Lemma batches_nonneg (n : Z) : 0 ≤ n → 0 ≤ batches n.
Proof. intros Hn. unfold batches. apply Z.div_pos; lia. Qed.

Lemma while_batches_reads (function : Body) (stop : Z) :
  ∀ fuel self start,
    (Z.to_nat (stop - start) ≤ fuel)%nat →
    ∃ self' r evs,
      while_batches fuel function self start stop = Some (self', r)
      ∧ events self' = events self ++ evs
      ∧ count_reads evs ≤ batches (Z.max 0 (stop - start))
      ∧ Forall read_one_batch evs.
Proof.
  assert (∀ fuel self start, ¬ start < stop →
            ∃ self' r evs,
              while_batches fuel function self start stop = Some (self', r)
              ∧ events self' = events self ++ evs
              ∧ count_reads evs ≤ batches (Z.max 0 (stop - start))
              ∧ Forall read_one_batch evs) as Hdone.
  { intros fuel self start Hge. exists self, (Return tt), [].
    split; [destruct fuel; simpl; by rewrite bool_decide_eq_false_2|].
    rewrite app_nil_r. replace (Z.max 0 (stop - start)) with 0 by lia.
    by repeat split. }
  induction fuel as [|fuel IH]; intros self start Hfuel.
  { apply Hdone. lia. }
  destruct (decide (start < stop)) as [Hlt|Hge]; [|by apply Hdone].
  simpl. rewrite bool_decide_eq_true_2 by done.
  set (sstop := Z.min (start + 5000) stop).
  assert (start < sstop ∧ sstop ≤ stop ∧ sstop - start ≤ 5000)
    as (Hs1 & Hs2 & Hs3) by (unfold sstop; lia).
  pose proof (batches_turn start stop Hlt) as Hbt. fold sstop in Hbt.
  pose proof (batches_nonneg (stop - sstop)) as Hbn.
  replace (Z.max 0 (stop - start)) with (stop - start) by lia.
  assert (Forall read_one_batch [GetLines start sstop]) as Hr1
    by (apply Forall_singleton; simpl; lia).
  pose proof (get_lines_events self start sstop) as Hg.
  destruct (get_lines self start sstop) as [self1 [lines|e]]; simpl in Hg.
  2:{ exists self1, (Raise e), [GetLines start sstop].
      split; [done|]. split; [done|].
      split; [unfold count_reads; simpl; lia|]. done. }
  destruct (for_lines_no_read function lines self1 start [] (start + 1))
    as (evs2 & He2 & Hc2 & Hr2).
  destruct (for_lines function lines self1 start [] (start + 1))
    as [self2 [[[sstart newlines] exception]|e]]; simpl in He2.
  2:{ exists self2, (Raise e), ([GetLines start sstop] ++ evs2).
      split; [done|]. split; [by rewrite He2, Hg, <- app_assoc|].
      rewrite count_reads_app, Hc2.
      split; [unfold count_reads; simpl; lia|].
      apply Forall_app. split; done. }
  fold (flush self2 sstart newlines).
  destruct (flush_events self2 sstart newlines) as (evs3 & He3 & Hc3).
  assert (count_reads evs3 = 0 ∧ Forall read_one_batch evs3) as [Hc3' Hr3].
  { unfold flush in He3. destruct newlines as [|l newlines].
    - simpl in He3. rewrite <- (app_nil_r (events self2)) in He3 at 1.
      apply app_inv_head in He3 as <-. done.
    - rewrite set_lines_events in He3. apply app_inv_head in He3 as <-.
      by repeat constructor. }
  destruct (flush self2 sstart newlines) as [self3 [u|e]]; simpl in He3.
  2:{ exists self3, (Raise e), ([GetLines start sstop] ++ evs2 ++ evs3).
      split; [done|]. split; [by rewrite He3, He2, Hg, <- !app_assoc|].
      rewrite !count_reads_app, Hc2, Hc3'.
      split; [unfold count_reads; simpl; lia|].
      repeat (apply Forall_app; split); done. }
  destruct exception as [e|].
  { exists self3, (Raise e), ([GetLines start sstop] ++ evs2 ++ evs3).
    split; [done|]. split; [by rewrite He3, He2, Hg, <- !app_assoc|].
    rewrite !count_reads_app, Hc2, Hc3'.
    split; [unfold count_reads; simpl; lia|].
    repeat (apply Forall_app; split); done. }
  destruct (IH self3 sstop) as (self4 & r & evs4 & Hw & He4 & Hc4 & Hr4); [lia|].
  replace (Z.max 0 (stop - sstop)) with (stop - sstop) in Hc4 by lia.
  exists self4, r, ([GetLines start sstop] ++ evs2 ++ evs3 ++ evs4).
  split; [done|]. split; [by rewrite He4, He3, He2, Hg, <- !app_assoc|].
  rewrite !count_reads_app, Hc2, Hc3'.
  split; [unfold count_reads at 1; simpl; lia|].
  repeat (apply Forall_app; split); done.
Qed.

(** X16: on every input, whatever the code and the function,
    [python_do_range] reads the buffer in bulk reads of at most 5000
    lines each, and makes at most as many of them as the range has
    batches of 5000 lines begun. *)
Theorem python_do_range_reads_in_batches (self : ScriptHost) (start stop : Z)
    (code : Source FunctionDef) :
  ∃ self' r evs,
    python_do_range self start stop code = Some (self', r)
    ∧ events self' = events self ++ evs
    ∧ count_reads evs ≤ batches (Z.max 0 (stop - start + 1))
    ∧ Forall read_one_batch evs.
Proof.
  assert (0 ≤ batches (Z.max 0 (stop - start + 1))) as Hnn
    by (apply batches_nonneg; lia).
  destruct code as [msg|def].
  { eexists _, _, []. split; [reflexivity|]. simpl. rewrite app_nil_r.
    by repeat split. }
  destruct (python_do_range_not_defined self start stop def)
    as [Hdef|[_ [e ->]]].
  2:{ eexists _, _, []. split; [reflexivity|]. simpl. rewrite app_nil_r.
      by repeat split. }
  rewrite (python_do_range_defined _ _ _ _ Hdef).
  destruct (while_batches_reads (def_function def) stop
              (Z.to_nat (stop - (start - 1))) (entered self start stop def)
              (start - 1)) as (self' & r & evs & Hw & He & Hc & Hr); [lia|].
  rewrite Hw.
  replace (stop - (start - 1)) with (stop - start + 1) in Hc by lia.
  destruct r as [[]|e]; [|by eexists _, _, evs].
  destruct (delitem _ _); by eexists _, _, evs.
Qed.

(** A call that returns has deleted the name. *)
Lemma python_do_range_returned (self self' : ScriptHost) (start stop : Z)
    (code : Source FunctionDef) :
  python_do_range self start stop code = Some (self', Return tt) →
  module_dict self' !! fname = None.
Proof.
  destruct code as [msg|def]; [discriminate|].
  destruct (python_do_range_not_defined self start stop def)
    as [Hdef|[_ [e ->]]]; [|discriminate].
  rewrite (python_do_range_defined _ _ _ _ Hdef).
  destruct (while_batches _ _ _ _ _) as [[self2 [[]|e]]|];
    [|discriminate..].
  unfold delitem. destruct (module_dict self2 !! fname); [|discriminate].
  intros [= <-]. apply lookup_delete_eq.
Qed.

(** X17: [python_do_range] ends on every input, whether or not the code
    parses and the range is inside the buffer.  What the method does to
    the namespace on its own account is on the name [_vim_pydo] only:
    every binding that the code of the call leaves alone, in the
    statements of its text and in every call of its function, is there
    after the call; code that does not parse leaves the whole namespace
    as it is.  When the call returns, [_vim_pydo] is unbound, so that
    whatever the user had bound to that name before is lost; when the
    call raises after the function was defined, [_vim_pydo] is still
    bound, unless the function itself unbinds it. *)
Theorem python_do_range_namespace (self : ScriptHost) (start stop : Z)
    (code : Source FunctionDef) :
  ∃ self' r,
    python_do_range self start stop code = Some (self', r)
    ∧ (∀ name value,
         module_dict self !! name = Some value →
         pydo_keeps name value code →
         module_dict self' !! name = Some value)
    ∧ (∀ msg, code = Unparsable msg → module_dict self' = module_dict self)
    ∧ (r = Return tt → module_dict self' !! fname = None)
    ∧ (∀ def t,
         code = Parsed def → r = Raise t →
         defines def (module_dict self) →
         stays_bound fname (def_function def) →
         is_Some (module_dict self' !! fname)).
Proof.
  destruct (python_do_range_total self start stop code) as (self' & r & Hrun).
  exists self', r. split; [done|]. split; [|split; [|split]].
  - intros name value Hb Hk.
    destruct (python_do_range_keeps_binding self start stop code name value
                Hk Hb) as (self1 & r1 & Hrun1 & Hb1).
    rewrite Hrun in Hrun1. by injection Hrun1 as <- _.
  - intros msg ->. by injection Hrun as <- _.
  - intros ->. by apply (python_do_range_returned _ _ _ _ _ Hrun).
  - intros def t -> -> Hdef Hsb.
    rewrite (python_do_range_defined _ _ _ _ Hdef) in Hrun.
    destruct (while_batches _ _ _ _ _) as [[self2 [[]|e]]|] eqn:Hw;
      [| |discriminate].
    + destruct (python_do_range_after_loop _ _ _ _ _ Hdef Hw)
        as (self3 & r3 & Hrun3 & _ & _ & Hret).
      destruct (Hret Hsb) as (-> & _).
      rewrite (python_do_range_defined _ _ _ _ Hdef), Hw in Hrun3.
      rewrite Hrun3 in Hrun. discriminate.
    + destruct (python_do_range_loop_raised _ _ _ _ _ _ Hdef Hw)
        as [_ Hbound].
      injection Hrun as <- _. by apply Hbound.
Qed.

(** ** The current range *)

Lemma set_lines_range (self : ScriptHost) (a b : Z) (replacement : list string) :
  current_range (set_lines self a b replacement).1 = current_range self.
Proof. unfold set_lines. by destruct (in_bounds _ _ _). Qed.

Lemma for_lines_range (function : Body) :
  ∀ lines self sstart newlines linenr,
    current_range (for_lines function lines self sstart newlines linenr).1
    = current_range self.
Proof.
  induction lines as [|line lines IH]; intros self sstart newlines linenr;
    [done|].
  simpl.
  destruct (function line linenr (module_dict self)) as [d [result|e]]; simpl;
    [|done].
  destruct result; try done.
  - destruct newlines as [|l newlines]; [by rewrite IH|].
    pose proof (set_lines_range
                  (set_module_dict
                     (record_event self (CallFunction line linenr)) d)
                  sstart (sstart + len (l :: newlines) - 1) (l :: newlines))
      as Hd.
    destruct (set_lines _ _ _ _) as [self1 [u|e]]; [|done].
    by rewrite IH.
  - by rewrite IH.
Qed.

Lemma while_batches_range (function : Body) (stop : Z) :
  ∀ fuel self start self' r,
    while_batches fuel function self start stop = Some (self', r) →
    current_range self' = current_range self.
Proof.
  induction fuel as [|fuel IH]; intros self start self' r; simpl.
  { case_bool_decide; [discriminate|]. by intros [= <- <-]. }
  case_bool_decide as Hlt; [|by intros [= <- <-]].
  unfold get_lines. simpl.
  destruct (in_bounds _ _ _); [|by intros [= <- <-]].
  pose proof (for_lines_range function
                (slice (buffer self) start (Z.min (start + 5000) stop))
                (record_event self (GetLines start (Z.min (start + 5000) stop)))
                start [] (start + 1)) as Hd1.
  destruct (for_lines _ _ _ _ _ _) as [self1 [[[sstart newlines] exception]|e]];
    [|by intros [= <- <-]].
  simpl in Hd1.
  assert (∃ self2 w,
            match newlines with
            | [] => (self1, Return tt)
            | _ :: _ => set_lines self1 sstart (sstart + len newlines) newlines
            end = (self2, w) ∧ current_range self2 = current_range self)
    as (self2 & w & -> & Hd2).
  { destruct newlines as [|l newlines]; [by eexists _, _|].
    pose proof (set_lines_range self1 sstart (sstart + len (l :: newlines))
                  (l :: newlines)) as Hd.
    destruct (set_lines _ _ _ _) as [self2 w]. exists self2, w.
    split; [done|]. simpl in Hd. congruence. }
  destruct w as [u|e]; [|by intros [= <- <-]].
  destruct exception as [e|]; [by intros [= <- <-]|].
  intros Hw. rewrite (IH _ _ _ _ Hw). done.
Qed.

Lemma exec_guarded_range (method : string) (self : ScriptHost)
    (script : Source Statements) :
  current_range (exec_guarded method self script).1 = current_range self.
Proof.
  unfold exec_guarded. destruct (exec script (module_dict self)) as [d [u|e]];
    [done|]. by destruct (is_Exception (exc_class e)).
Qed.

(** However it ends, [python_do_range] leaves its own range in
    [current.range]. *)
Lemma python_do_range_range (self self' : ScriptHost) (start stop : Z)
    (code : Source FunctionDef) (r : Res Thrown unit) :
  python_do_range self start stop code = Some (self', r) →
  current_range self' = Some (start, stop).
Proof.
  destruct code as [msg|def]; [by intros [= <- _]|].
  destruct (python_do_range_not_defined self start stop def)
    as [Hdef|[_ [e ->]]]; [|by intros [= <- _]].
  rewrite (python_do_range_defined _ _ _ _ Hdef).
  destruct (while_batches _ _ _ _ _) as [[self2 [u|e]]|] eqn:Hw;
    [| |discriminate];
    pose proof (while_batches_range _ _ _ _ _ _ _ Hw) as Hr; simpl in Hr.
  - destruct (delitem _ _); by intros [= <- _].
  - by intros [= <- _].
Qed.

Lemma dispatch_range (files : string → option (Source Statements))
    (self : ScriptHost) (rq : Request) :
  ∃ self' reply,
    dispatch files self rq = Some (self', reply)
    ∧ current_range self' = range_after (current_range self) rq.
Proof.
  destruct rq as [script a b|file_path a b|expr|start stop code]; simpl.
  - unfold python_execute.
    pose proof (exec_guarded_range "python_execute"
                  (_set_current_range self a b) script) as Hr.
    destruct (exec_guarded _ _ _) as [self' r]. by eexists _, _.
  - unfold python_execute_file.
    destruct (files file_path) as [[msg|run]|]; [by eexists _, _| |by eexists _, _].
    pose proof (exec_guarded_range "python_execute_file"
                  (_set_current_range self a b) (Parsed run)) as Hr.
    destruct (exec_guarded _ _ _) as [self' r]. by eexists _, _.
  - unfold python_eval.
    destruct (eval expr (module_dict self)) as [d [v|e]]; by eexists _, _.
  - destruct (python_do_range_total self start stop code)
      as (self' & r & Hrun).
    rewrite Hrun. exists self', (no_value r). split; [done|].
    by apply (python_do_range_range _ _ _ _ _ _ Hrun).
Qed.

(** X18: every request is answered, and after any sequence of requests
    [current.range] holds the range of the last request that carries one,
    as it was given, also when that request failed; [python_eval], which
    carries none, leaves the range of the request before it. *)
Theorem current_range_follows_requests
    (files : string → option (Source Statements)) (rqs : list Request)
    (self : ScriptHost) :
  ∃ self' replies,
    serve files self rqs = Some (self', replies)
    ∧ length replies = length rqs
    ∧ current_range self' = foldl range_after (current_range self) rqs.
Proof.
  revert self. induction rqs as [|rq rqs IH]; intros self.
  - by exists self, [].
  - destruct (dispatch_range files self rq) as (self1 & reply & Hd & Hr).
    destruct (IH self1) as (self2 & replies & Hs & Hl & Hr2).
    exists self2, (reply :: replies). simpl. rewrite Hd, Hs.
    split; [done|]. split; [by rewrite Hl|]. by rewrite Hr2, Hr.
Qed.

(** ** [python_execute] and [python_execute_file] *)

(** X19: the two operations differ in what they let through.  No
    exception that derives from [Exception] ever leaves [python_execute]
    as it was raised: the [exec] of the text is inside the [try], so even
    a script that does not parse is answered with an [ErrorResponse],
    whose trace has no frame.  In [python_execute_file] the [open] and
    the [compile] are outside the [try]: the [SyntaxError] of a file that
    does not parse and the error of [open] for a file that is not there
    leave the method as they are; once the file is compiled, its code
    runs inside the [try] as a script does.  Where [open] or [compile]
    fails, the namespace is untouched and the range of the request is
    set all the same. *)
Theorem python_execute_file_and_python_execute
    (files : string → option (Source Statements)) (self : ScriptHost)
    (file_path : string) (a b : Z) :
  (∀ script e, (python_execute self script a b).2 = Raise (Uncaught e) →
               is_Exception (exc_class e) = false)
  ∧ (∀ msg, python_execute self (Unparsable msg) a b
            = (_set_current_range self a b,
               Raise (ErrorResponse (mkTrace [] SyntaxError msg))))
  ∧ (∀ msg, files file_path = Some (Unparsable msg) →
       python_execute_file files self file_path a b
       = (_set_current_range self a b,
          Raise (Uncaught (mkExc SyntaxError msg []))))
  ∧ (files file_path = None →
     python_execute_file files self file_path a b
     = (_set_current_range self a b,
        Raise (Uncaught (no_such_file file_path))))
  ∧ (∀ run e, files file_path = Some (Parsed run) →
       (python_execute_file files self file_path a b).2
       = Raise (Uncaught e) →
       is_Exception (exc_class e) = false).
Proof.
  assert (∀ method self0 script e,
            (exec_guarded method self0 script).2 = Raise (Uncaught e) →
            is_Exception (exc_class e) = false) as Hguard.
  { intros method self0 script e. unfold exec_guarded.
    destruct (exec script (module_dict self0)) as [d [u|e']]; [done|].
    destruct (is_Exception (exc_class e')) eqn:Hc; [done|].
    simpl. by intros [= <-]. }
  split; [|split; [|split; [|split]]].
  - intros script e. unfold python_execute. apply Hguard.
  - intros msg. unfold python_execute. by destruct self.
  - intros msg Hf. unfold python_execute_file. by rewrite Hf.
  - intros Hf. unfold python_execute_file. by rewrite Hf.
  - intros run e Hf. unfold python_execute_file. rewrite Hf. apply Hguard.
Qed.

(** A file [a.py] that does not parse, and no file [b.py]. *)
Lemma python_execute_file_and_python_execute_witness :
  python_execute (__init__ []) (Unparsable "invalid syntax") 1 1
  = (_set_current_range (__init__ []) 1 1,
     Raise (ErrorResponse (mkTrace [] SyntaxError "invalid syntax")))
  ∧ python_execute_file (λ path, if bool_decide (path = "a.py")
                                 then Some (Unparsable "invalid syntax")
                                 else None)
      (__init__ []) "a.py" 1 1
    = (_set_current_range (__init__ []) 1 1,
       Raise (Uncaught (mkExc SyntaxError "invalid syntax" [])))
  ∧ python_execute_file (λ path, if bool_decide (path = "a.py")
                                 then Some (Unparsable "invalid syntax")
                                 else None)
      (__init__ []) "b.py" 1 1
    = (_set_current_range (__init__ []) 1 1,
       Raise (Uncaught (no_such_file "b.py"))).
Proof.
  destruct (python_execute_file_and_python_execute
              (λ path, if bool_decide (path = "a.py")
                       then Some (Unparsable "invalid syntax") else None)
              (__init__ []) "a.py" 1 1) as (_ & H1 & H2 & _).
  destruct (python_execute_file_and_python_execute
              (λ path, if bool_decide (path = "a.py")
                       then Some (Unparsable "invalid syntax") else None)
              (__init__ []) "b.py" 1 1) as (_ & _ & _ & H3 & _).
  split; [apply H1|]. split; [by apply H2|by apply H3].
Defined.

(** ** [python_do_range]: [None] after pending lines *)

(** X20: in a range that is read in one batch, when the function returns
    [None] for line [k] after strings for the lines before it, and
    strings for the lines after it, the write of the pending strings
    covers one line less than it holds.  The range comes out one line
    longer: the strings for the lines before line [k], then the old text
    of the line just before line [k], then the strings for the lines
    after line [k] written from the place of line [k] on, and the old
    text of the last line.  If lines follow line [k], its own text is
    overwritten.  The call returns if the function leaves its own name
    bound. *)
Theorem python_do_range_None_after_pending (self : ScriptHost)
    (start stop k : Z) (def : FunctionDef) (g : string → Z → string)
    (pre l1 l2 post : list string) (y x : string) :
  buffer self = pre ++ (l1 ++ [y]) ++ x :: l2 ++ post →
  len pre = start - 1 →
  k = start + len l1 + 1 →
  stop = k + len l2 →
  stop - start + 1 ≤ 5000 →
  defines def (module_dict self) →
  (∀ n line d, start ≤ n ≤ stop → n ≠ k →
               (def_function def line n d).2 = Return (VStr (g line n))) →
  (∀ d, (def_function def x k d).2 = Return VNone) →
  ∃ self' r,
    python_do_range self start stop (Parsed def) = Some (self', r)
    ∧ buffer self'
      = pre ++ map_numbered g start (l1 ++ [y]) ++ y
        :: map_numbered g (k + 1) l2 ++ drop (length l2) (x :: l2) ++ post
    ∧ len (buffer self') = len (buffer self) + 1
    ∧ (stays_bound fname (def_function def) → r = Return tt).
Proof.
  intros Hbuf Hpre Hk Hstop Hone Hdef Hs Hnone.
  pose proof (len_nonneg l1) as Hl1. pose proof (len_nonneg l2) as Hl2.
  pose proof (len_nonneg pre) as Hp. pose proof (len_nonneg post) as Hpo.
  assert (len (l1 ++ [y]) = len l1 + 1) as Hly by (rewrite len_app; len_lia).
  assert (len (x :: l2) = len l2 + 1) as Hxl by len_lia.
  assert (len (buffer self) = len pre + (len l1 + 1) + (len l2 + 1) + len post)
    as Hblen.
  { rewrite Hbuf, (len_app pre), (len_app (l1 ++ [y])), Hly.
    change (x :: l2 ++ post) with ((x :: l2) ++ post).
    rewrite len_app, Hxl. lia. }
  set (function := def_function def) in *.
  set (self0 := entered self start stop def).
  (* the loop over the one batch *)
  assert (∃ self5,
            while_batches (Z.to_nat (stop - (start - 1))) function self0
                          (start - 1) stop = Some (self5, Return tt)
            ∧ buffer self5
              = pre ++ map_numbered g start (l1 ++ [y]) ++ y
                :: map_numbered g (k + 1) l2
                ++ drop (length l2) (x :: l2) ++ post)
    as (self5 & Hw & Hfinal).
  { destruct (Z.to_nat (stop - (start - 1))) as [|fuel] eqn:Hfuel; [lia|].
    simpl. rewrite bool_decide_eq_true_2 by lia.
    replace (Z.min (start - 1 + 5000) stop) with stop by lia.
    unfold get_lines. simpl buffer. rewrite in_bounds_true by lia.
    set (self1 := record_event self0 (GetLines (start - 1) stop)).
    replace (slice (buffer self) (start - 1) stop)
      with ((l1 ++ [y]) ++ x :: l2).
    2:{ rewrite Hbuf.
        change (x :: l2 ++ post) with ((x :: l2) ++ post).
        rewrite (app_assoc (l1 ++ [y])). symmetry.
        apply slice_middle; [done|]. rewrite len_app, Hly, Hxl. lia. }
    (* the strings before line [k] *)
    destruct (for_lines_strings function g (l1 ++ [y]) (x :: l2) self1
                (start - 1) [] (start - 1 + 1)) as (self2 & Hfor & Hb2 & _).
    { intros n line d Hn. apply Hs; lia. }
    rewrite Hfor. clear Hfor.
    replace (start - 1 + 1 + len (l1 ++ [y])) with k by lia.
    replace (start - 1 + 1) with start by lia.
    (* [None] for line [k]: the pending strings are written *)
    simpl for_lines. rewrite Hnone.
    set (self2' := set_module_dict (record_event self2 (CallFunction x k))
                     (function x k (module_dict self2)).1).
    set (pending := map_numbered g start (l1 ++ [y])).
    assert (len pending = len l1 + 1) as Hpl
      by (unfold pending; rewrite map_numbered_length; lia).
    assert (∃ self3,
              match pending with
              | [] => (self2', Return tt)
              | _ :: _ =>
                  set_lines self2' (start - 1)
                            (start - 1 + len pending - 1) pending
              end = (self3, Return (E:=PyExc) tt)
              ∧ buffer self3 = pre ++ pending ++ y :: x :: l2 ++ post)
      as (self3 & Hset & Hb3).
    { destruct pending as [|p0 ps] eqn:Hpe.
      { exfalso. unfold len in Hpl. simpl in Hpl. lia. }
      rewrite <- Hpe in *. unfold set_lines. simpl buffer.
      unfold self1, self0 in Hb2. simpl in Hb2. rewrite Hb2.
      rewrite in_bounds_true by lia.
      eexists. split; [reflexivity|]. simpl. rewrite Hbuf.
      rewrite <- (app_assoc l1 [y]). simpl.
      apply (splice_middle pre l1 (y :: x :: l2 ++ post)); [done|lia]. }
    simpl in Hset. rewrite Hset. clear Hset.
    (* the strings after line [k] *)
    destruct (for_lines_strings function g l2 [] self3
                (start - 1 + (len pending + 1)) [] (k + 1))
      as (self4 & Hfor & Hb4 & _).
    { intros n line d Hn. apply Hs; lia. }
    rewrite app_nil_r in Hfor. rewrite Hfor. clear Hfor. simpl.
    fold (flush self4 (start - 1 + (len pending + 1))
                (map_numbered g (k + 1) l2)).
    destruct (flush_writes self4 (start - 1 + (len pending + 1))
                (map_numbered g (k + 1) l2)) as (self5 & Hfl & Hb5 & _).
    { lia. }
    { rewrite map_numbered_length, Hb4, Hb3.
      rewrite (len_app pre), (len_app pending).
      change (y :: x :: l2 ++ post) with ([y] ++ (x :: l2) ++ post).
      rewrite !len_app, Hxl. len_lia. }
    rewrite Hfl.
    assert (while_batches fuel function self5 stop stop
            = Some (self5, Return tt))
      as -> by (destruct fuel; simpl; by rewrite bool_decide_eq_false_2 by lia).
    exists self5. split; [reflexivity|].
    rewrite Hb5, Hb4, Hb3, map_numbered_length.
    set (T := take (length l2) (x :: l2)).
    set (D := drop (length l2) (x :: l2)).
    assert (len T = len l2) as HT
      by (unfold T, len; rewrite length_take; simpl; lia).
    replace (pre ++ pending ++ y :: x :: l2 ++ post)
      with ((pre ++ pending ++ [y]) ++ T ++ (D ++ post)).
    2:{ rewrite (app_assoc T D post). unfold T, D. rewrite take_drop.
        rewrite <- !app_assoc. reflexivity. }
    rewrite (splice_middle (pre ++ pending ++ [y]) T (D ++ post)).
    - rewrite <- !app_assoc. reflexivity.
    - rewrite !len_app. len_lia.
    - lia. }
  destruct (python_do_range_after_loop _ _ _ _ _ Hdef Hw)
    as (self' & r & Hrun & Hb' & _ & Hret).
  exists self', r. split; [done|]. rewrite Hb'.
  split; [exact Hfinal|]. split.
  - assert (len (drop (length l2) (x :: l2)) = 1) as Hd1
      by (unfold len; rewrite length_drop; simpl; lia).
    rewrite Hfinal.
    change (y :: ?l) with ([y] ++ l).
    repeat (rewrite len_app || rewrite map_numbered_length).
    rewrite Hd1. len_lia.
  - intros Hsb. by destruct (Hret Hsb).
Qed.

Lemma python_do_range_None_after_pending_witness :
  ∃ self',
    python_do_range (__init__ ["a"; "b"; "c"; "d"; "e"]) 1 5
                    (Parsed (only_body (skip_at 3)))
    = Some (self', Return tt)
    ∧ buffer self'
      = [] ++ map_numbered (λ line _, line) 1 (["a"] ++ ["b"]) ++ "b"
        :: map_numbered (λ line _, line) (3 + 1) ["d"; "e"]
        ++ drop (length ["d"; "e"]) ("c" :: ["d"; "e"]) ++ []
    ∧ len (buffer self') = len (buffer (__init__ ["a"; "b"; "c"; "d"; "e"])) + 1.
Proof.
  destruct (python_do_range_None_after_pending
              (__init__ ["a"; "b"; "c"; "d"; "e"]) 1 5 3
              (only_body (skip_at 3))
              (λ line _, line) [] ["a"] ["d"; "e"] [] "b" "c")
    as (self' & r & Hrun & Hb & Hl & Hret).
  - reflexivity.
  - reflexivity.
  - reflexivity.
  - reflexivity.
  - lia.
  - apply defines_only_body.
  - intros n line d Hn Hne. unfold only_body, skip_at. simpl.
    by rewrite bool_decide_eq_false_2.
  - reflexivity.
  - rewrite Hret in Hrun by (by apply stays_bound_same).
    by exists self'.
Defined.

(** ** [python_do_range]: the calls of the function *)

(** X21: on a range inside the buffer the function is called with the
    line numbers [start], [start + 1], ... in order, without gap or
    repetition, whatever the code is, whatever the function returns and
    however many batches there are; when the call returns there has been
    one call for each line of the range. *)
Theorem python_do_range_consecutive_numbers (self : ScriptHost)
    (start stop : Z) (code : Source FunctionDef) :
  1 ≤ start → start - 1 ≤ stop → stop ≤ len (buffer self) →
  ∃ self' r evs n,
    python_do_range self start stop code = Some (self', r)
    ∧ events self' = events self ++ evs
    ∧ call_numbers evs = seqZ start n
    ∧ 0 ≤ n
    ∧ (r = Return tt → n = stop - start + 1).
Proof.
  intros H1 H2 H3.
  destruct (python_do_range_steps self start stop code H1 H2 H3)
    as (self' & r & evs & mid & Hrun & _ & He & _ & (n & Hcn & Hn0 & Hn) & _).
  by exists self', r, evs, n.
Qed.

Lemma python_do_range_consecutive_numbers_witness :
  ∃ self' r evs n,
    python_do_range (__init__ ["a"; "b"; "c"]) 2 3
                    (Parsed (only_body (skip_at 2)))
    = Some (self', r)
    ∧ events self' = events (__init__ ["a"; "b"; "c"]) ++ evs
    ∧ call_numbers evs = seqZ 2 n
    ∧ 0 ≤ n
    ∧ (r = Return tt → n = 3 - 2 + 1).
Proof.
  apply (python_do_range_consecutive_numbers (__init__ ["a"; "b"; "c"]) 2 3
           (Parsed (only_body (skip_at 2)))).
  - lia.
  - lia.
  - vm_compute. discriminate.
Defined.

(** X22: on a range of at most 5000 lines, a call that returns has
    called the function exactly once for each line of the range, in
    order, each time with the text that the line had before the call and
    with the number of the line, whatever the function returned for the
    lines before. *)
Theorem python_do_range_calls_each_line (self self' : ScriptHost)
    (start stop : Z) (def : FunctionDef) :
  1 ≤ start → start - 1 ≤ stop → stop ≤ len (buffer self) →
  stop - start + 1 ≤ 5000 →
  python_do_range self start stop (Parsed def) = Some (self', Return tt) →
  ∃ evs,
    events self' = events self ++ evs
    ∧ calls_of evs = zip (slice (buffer self) (start - 1) stop)
                         (seqZ start (stop - start + 1)).
Proof. apply python_do_range_single_batch_calls. Qed.

Lemma python_do_range_calls_each_line_witness :
  ∃ evs,
    events (mkHost (delete fname (<[fname := VFunc fname]>
                                    (module_dict (__init__ ["a"; "b"; "c"]))))
                   ["a"; "a"; "c"; "c"] (Some (1, 3))
                   [GetLines 0 3; CallFunction "a" 1; CallFunction "b" 2;
                    SetLines 0 0 ["a"]; CallFunction "c" 3;
                    SetLines 2 3 ["c"]])
    = events (__init__ ["a"; "b"; "c"]) ++ evs
    ∧ calls_of evs = zip (slice (buffer (__init__ ["a"; "b"; "c"])) (1 - 1) 3)
                         (seqZ 1 (3 - 1 + 1)).
Proof.
  apply (python_do_range_calls_each_line (__init__ ["a"; "b"; "c"]) _ 1 3
           (only_body (skip_at 2))).
  - lia.
  - lia.
  - vm_compute. discriminate.
  - lia.
  - reflexivity.
Defined.
